(** * mikeio.dfsu: a shallow embedding of the [Dfsu] class

    The module [mikeio/dfsu.py] reads, overwrites and creates dfsu
    containers (time series on a flexible mesh) and answers geometry
    queries on the mesh of the container read last.  The embedding has
    three layers:

    - numpy values: samples are IEEE floats ([spec_float], which has the
      NaN that the delete-value masking is about); mesh coordinates are
      real numbers, the idealisation of double arithmetic under which the
      area and distance formulas are stated;
    - the external providers (DHI's DfsuFile, DfsuBuilder, MeshFile and
      DfsFileFactory): a world of persisted containers and a table of
      handle objects, with the sequential write cursor of the provider;
    - the methods of [Dfsu], translated statement by statement into a
      state-and-exception monad over that world. *)

From Stdlib Require Import ZArith Reals Lra Lia List String SpecFloat.
From Stdlib Require Import Permutation Sorted.
From stdpp Require Import gmap strings list pretty.

(** ** numpy scalars and arrays *)

Abbreviation float := spec_float.

(** [np.nan] and [np.isnan]. *)
Definition np_nan : float := S754_nan.

Definition np_isnan (x : float) : bool :=
  match x with S754_nan => true | _ => false end.

(** A two-dimensional float array: its [shape] and its rows.  numpy keeps
    the shape apart from the buffer, so an array with no row still has a
    column count. *)
Record ndarray := mk_ndarray {
  shape : nat * nat;
  rows : list (list float)
}.

Definition wf_ndarray (a : ndarray) : Prop :=
  length (rows a) = fst (shape a) /\
  Forall (fun r => length r = snd (shape a)) (rows a).

(** ** Python exceptions *)

Inductive exn :=
| IOError            (* raised by builder.CreateFile when the target cannot be opened *)
| IndexError
| ValueError
| UnboundLocalError
| AttributeError
| PyException        (* the bare [raise Exception] of get_node_coords *)
| ItemNotFound       (* find_item: a requested name has no match *)
| ProviderError      (* any other exception of the storage or mesh provider *)
| NaNResult.         (* numpy would return nan where the real-number model has none *)

Global Instance exn_eq_dec : EqDecision exn.
Proof. solve_decision. Defined.

(** ** Provider data *)

Inductive DfsuFileType := Dfsu2D | Dfsu3DSigma | Dfsu3DSigmaZ.

Global Instance DfsuFileType_eq_dec : EqDecision DfsuFileType.
Proof. solve_decision. Defined.

(** Modelled from the spec: the item descriptor of [mikeio.eum] (name,
    physical quantity type, unit), whose defaults are the undefined type
    and the undefined unit. *)
Inductive EUMType := eumIItemUndefined | eumIItem (code : Z).
Inductive EUMUnit := eumUUnitUndefined | eumUUnit (code : Z).

Record ItemInfo := mk_ItemInfo {
  item_name : string;
  item_type : EUMType;
  item_unit : EUMUnit
}.

(** [ItemInfo(name)]: type and unit left at their defaults. *)
Definition ItemInfo_of_name (n : string) : ItemInfo :=
  mk_ItemInfo n eumIItemUndefined eumUUnitUndefined.

(** What [MeshFile.ReadMesh] returns. *)
Record MeshFile := mk_MeshFile {
  mesh_X : list R;
  mesh_Y : list R;
  mesh_Z : list R;
  mesh_Code : list Z;
  mesh_ElementTable : list (list Z);
  mesh_ProjectionString : string
}.

(** A dfsu container.  [ItemData] holds the stored rows in the nested
    (time step, item) order in which the provider writes them;
    [ItemInfos] lists every dynamic item, the leading dynamic-Z item of
    the 3D variants included. *)
Record DfsuFile := mk_DfsuFile {
  FileType : DfsuFileType;
  ItemInfos : list ItemInfo;
  DeleteValueFloat : float;
  StartDateTime : R;
  TimeStepSeconds : R;
  NodeX : list R;
  NodeY : list R;
  NodeZ : list R;
  NodeCode : list Z;
  ElementTable : list (list Z);
  WKTString : string;
  ItemData : list (list float)
}.

Definition NumberOfElements (f : DfsuFile) : nat := length (ElementTable f).

Definition NumberOfTimeSteps (f : DfsuFile) : nat :=
  length (ItemData f) / length (ItemInfos f).

Definition set_ItemData (f : DfsuFile) (d : list (list float)) : DfsuFile :=
  mk_DfsuFile (FileType f) (ItemInfos f) (DeleteValueFloat f) (StartDateTime f)
    (TimeStepSeconds f) (NodeX f) (NodeY f) (NodeZ f) (NodeCode f)
    (ElementTable f) (WKTString f) d.

(** A handle object of the provider: the path it was opened on, the
    position of the next sequential write, and whether it is still open. *)
Record Handle := mk_Handle {
  h_path : string;
  h_cursor : nat;
  h_open : bool
}.

(** The world outside the Python process, together with the two pieces of
    process state the methods touch: standard output and the attribute
    [self._dfs] of the [Dfsu] instance. *)
Record World := mk_World {
  files : gmap string DfsuFile;
  meshfiles : gmap string MeshFile;
  handles : list Handle;
  unwritable : list string;
  provider_delete_value : float;
  clock : R;
  stdout : list string;
  self_dfs : option nat
}.

Definition with_files (w : World) (fs : gmap string DfsuFile) : World :=
  mk_World fs (meshfiles w) (handles w) (unwritable w)
    (provider_delete_value w) (clock w) (stdout w) (self_dfs w).

Definition with_handles (w : World) (hs : list Handle) : World :=
  mk_World (files w) (meshfiles w) hs (unwritable w)
    (provider_delete_value w) (clock w) (stdout w) (self_dfs w).

Definition with_stdout (w : World) (out : list string) : World :=
  mk_World (files w) (meshfiles w) (handles w) (unwritable w)
    (provider_delete_value w) (clock w) out (self_dfs w).

Definition with_self_dfs (w : World) (h : option nat) : World :=
  mk_World (files w) (meshfiles w) (handles w) (unwritable w)
    (provider_delete_value w) (clock w) (stdout w) h.

(** ** The state-and-exception monad *)

Definition M (A : Type) : Type := World -> (exn + A) * World.

Global Instance M_ret : MRet M := fun A (a : A) w => (inr a, w).

Global Instance M_bind : MBind M := fun A B (k : A -> M B) (m : M A) w =>
  match m w with
  | (inl e, w') => (inl e, w')
  | (inr a, w') => k a w'
  end.

Definition raise {A} (e : exn) : M A := fun w => (inl e, w).
Definition get_world : M World := fun w => (inr w, w).
Definition put_world (w' : World) : M () := fun _ => (inr tt, w').

(** Pure code that may raise lives in [exn + A]. *)
Global Instance exn_ret : MRet (sum exn) := fun A (a : A) => inr a.

Global Instance exn_bind : MBind (sum exn) := fun A B (k : A -> exn + B) m =>
  match m with
  | inl e => inl e
  | inr a => k a
  end.

Fixpoint for_pure {A S} (l : list A) (body : A -> S -> exn + S) (s : S)
  : exn + S :=
  match l with
  | [] => inr s
  | a :: l' => s' ← body a s; for_pure l' body s'
  end.

(** Lift a pure, fallible computation. *)
Definition lift {A} (r : exn + A) : M A := fun w => (r, w).

(** [for x in l: s = body(x, s)], with the loop-carried locals in [s]. *)
Fixpoint for_each {A S} (l : list A) (body : A -> S -> M S) (s : S) : M S :=
  match l with
  | [] => mret s
  | a :: l' => s' ← body a s; for_each l' body s'
  end.

(** [try: m  except e: handler]. *)
Definition try_except {A} (m : M A) (e : exn) (handler : M A) : M A := fun w =>
  match m w with
  | (inl e', w') => if decide (e' = e) then handler w' else (inl e', w')
  | r => r
  end.

(** [range(n)] for a Python int [n]: empty when [n] is not positive. *)
Definition py_range (n : Z) : list nat := seq 0 (Z.to_nat n).

(** [l[i]] for a Python list and an index produced by [range]. *)
Definition py_index {A} (l : list A) (i : nat) : exn + A :=
  match l !! i with Some a => inr a | None => inl IndexError end.

(** [a[i]] for a numpy array or Python list and a signed index: negative
    indices count from the end, anything else out of range raises. *)
Definition np_index {A} (l : list A) (i : Z) : exn + A :=
  let n := Z.of_nat (length l) in
  if decide (0 <= i < n)%Z then py_index l (Z.to_nat i)
  else if decide (- n <= i < 0)%Z then py_index l (Z.to_nat (n + i))
  else inl IndexError.

(** ** The storage and mesh providers

    The providers are external.  Their model follows the interface the
    methods consume: a handle is obtained by opening an existing
    container (or by the builder's [CreateFile]); reads address a row by
    1-based item number and 0-based time step; writes are sequential,
    each one storing the row under the handle's cursor and advancing it.
    A handle object outlives [Close]: its attributes stay readable, which
    is what the geometry queries after [read] rely on. *)

Definition alloc_handle (path : string) : M nat := fun w =>
  (inr (length (handles w)),
   with_handles w (handles w ++ [mk_Handle path 0 true])).

Definition DfsuFile_Open (filename : string) : M nat :=
  w ← get_world;
  match files w !! filename with
  | None => raise ProviderError
  | Some _ => alloc_handle filename
  end.

Definition DfsGenericOpenEdit (filename : string) : M nat :=
  DfsuFile_Open filename.

Definition get_handle (dfs : nat) : M Handle :=
  w ← get_world;
  match handles w !! dfs with
  | None => raise ProviderError
  | Some h => mret h
  end.

(** Attribute access through a handle object ([dfs.ItemInfo],
    [dfs.DeleteValueFloat], ...): the container behind the handle. *)
Definition handle_file (dfs : nat) : M DfsuFile :=
  h ← get_handle dfs;
  w ← get_world;
  match files w !! h_path h with
  | None => raise ProviderError
  | Some f => mret f
  end.

Definition open_handle (dfs : nat) : M Handle :=
  h ← get_handle dfs;
  if h_open h then mret h else raise ProviderError.

Definition Close (dfs : nat) : M () :=
  h ← get_handle dfs;
  w ← get_world;
  put_world (with_handles w
    (<[dfs := mk_Handle (h_path h) (h_cursor h) false]> (handles w))).

Record ItemTimeStepData := mk_ItemTimeStepData {
  Time : R;
  Data : list float
}.

Definition ReadItemTimeStep (dfs : nat) (itemNumber timestep : Z)
  : M ItemTimeStepData :=
  _ ← open_handle dfs;
  f ← handle_file dfs;
  let n := length (ItemInfos f) in
  if decide ((1 <= itemNumber <= Z.of_nat n)%Z
             ∧ (0 <= timestep < Z.of_nat (NumberOfTimeSteps f))%Z)
  then
    match ItemData f !! (Z.to_nat timestep * n + Z.to_nat (itemNumber - 1)) with
    | Some row =>
        mret (mk_ItemTimeStepData
                (INR (Z.to_nat timestep) * TimeStepSeconds f)%R row)
    | None => raise ProviderError
    end
  else raise ProviderError.

(** [dfs.WriteItemTimeStepNext(time, darray)]: the row goes to the cursor
    position, replacing the row stored there or extending the container
    by one row, and the cursor moves on. *)
Definition WriteItemTimeStepNext (dfs : nat) (time : R) (darray : list float)
  : M () :=
  h ← open_handle dfs;
  f ← handle_file dfs;
  w ← get_world;
  let c := h_cursor h in
  let stored :=
    if decide (c < length (ItemData f)) then <[c := darray]> (ItemData f)
    else ItemData f ++ [darray] in
  put_world
    (with_handles
       (with_files w (<[h_path h := set_ItemData f stored]> (files w)))
       (<[dfs := mk_Handle (h_path h) (S c) true]> (handles w))).

Definition MeshFile_ReadMesh (meshfilename : string) : M MeshFile :=
  w ← get_world;
  match meshfiles w !! meshfilename with
  | None => raise ProviderError
  | Some m => mret m
  end.

(** The builder object: what the setters have recorded so far. *)
Record DfsuBuilder := mk_DfsuBuilder {
  b_FileType : DfsuFileType;
  b_X : list R;
  b_Y : list R;
  b_Z : list R;
  b_Code : list Z;
  b_ElementTable : list (list Z);
  b_Projection : string;
  b_StartDateTime : R;
  b_TimeStep : R;
  b_Items : list ItemInfo
}.

Definition DfsuBuilder_Create (t : DfsuFileType) : DfsuBuilder :=
  mk_DfsuBuilder t [] [] [] [] [] "" 0%R 0%R [].

Definition SetNodes (b : DfsuBuilder) (x y z : list R) (code : list Z)
  : DfsuBuilder :=
  mk_DfsuBuilder (b_FileType b) x y z code (b_ElementTable b)
    (b_Projection b) (b_StartDateTime b) (b_TimeStep b) (b_Items b).

Definition SetElements (b : DfsuBuilder) (table : list (list Z))
  : DfsuBuilder :=
  mk_DfsuBuilder (b_FileType b) (b_X b) (b_Y b) (b_Z b) (b_Code b) table
    (b_Projection b) (b_StartDateTime b) (b_TimeStep b) (b_Items b).

Definition SetProjection (b : DfsuBuilder) (proj : string) : DfsuBuilder :=
  mk_DfsuBuilder (b_FileType b) (b_X b) (b_Y b) (b_Z b) (b_Code b)
    (b_ElementTable b) proj (b_StartDateTime b) (b_TimeStep b) (b_Items b).

Definition SetTimeInfo (b : DfsuBuilder) (start dt : R) : DfsuBuilder :=
  mk_DfsuBuilder (b_FileType b) (b_X b) (b_Y b) (b_Z b) (b_Code b)
    (b_ElementTable b) (b_Projection b) start dt (b_Items b).

Definition AddDynamicItem (b : DfsuBuilder) (name : string)
  (quantity : EUMType * EUMUnit) : DfsuBuilder :=
  mk_DfsuBuilder (b_FileType b) (b_X b) (b_Y b) (b_Z b) (b_Code b)
    (b_ElementTable b) (b_Projection b) (b_StartDateTime b) (b_TimeStep b)
    (b_Items b ++ [mk_ItemInfo name (fst quantity) (snd quantity)]).

Definition built_file (b : DfsuBuilder) (dv : float) : DfsuFile :=
  mk_DfsuFile (b_FileType b) (b_Items b) dv (b_StartDateTime b) (b_TimeStep b)
    (b_X b) (b_Y b) (b_Z b) (b_Code b) (b_ElementTable b) (b_Projection b) [].

(** [builder.CreateFile(filename)]: raises [IOError] when the target
    cannot be opened for writing; otherwise the new, empty container
    replaces whatever was stored under the path and is returned open. *)
Definition CreateFile (b : DfsuBuilder) (filename : string) : M nat :=
  w ← get_world;
  if decide (filename ∈ unwritable w) then raise IOError
  else
    put_world (with_files w
      (<[filename := built_file b (provider_delete_value w)]> (files w)));;
    alloc_handle filename.

(** [print(a, b)]. *)
Definition print2 (a b : string) : M () := fun w =>
  (inr tt, with_stdout w (stdout w ++ [a +:+ " " +:+ b])).

(** ** The methods of [Dfsu] that move data *)

Record Dataset := mk_Dataset {
  data : list ndarray;
  time : list R;
  items : list ItemInfo
}.

Inductive TimeStep := SECOND | MINUTE | HOUR | DAY.

(** [safe_length] of [mikeio.helpers]: the length of a provider list. *)
Definition safe_length {A} (l : list A) : nat := length l.

(** Modelled from the spec: [find_item] of [mikeio.dutil], which resolves
    item names against the container's item metadata to 0-based item
    numbers and fails with [ItemNotFound] when a name has no match. *)
Fixpoint index_of_name (n : string) (l : list ItemInfo) : option nat :=
  match l with
  | [] => None
  | it :: l' => if decide (item_name it = n) then Some 0
                else S <$> index_of_name n l'
  end.

Fixpoint find_item (f : DfsuFile) (item_names : list string)
  : exn + list Z :=
  match item_names with
  | [] => inr []
  | n :: ns =>
      match index_of_name n (ItemInfos f) with
      | None => inl ItemNotFound
      | Some k =>
          match find_item f ns with
          | inl e => inl e
          | inr ks => inr (Z.of_nat k :: ks)
          end
      end
  end.

(** Modelled from the spec: [get_item_info] of [mikeio.dutil], which
    resolves the metadata (name, quantity, unit) of each selected item
    number, one descriptor per number. *)
Fixpoint get_item_info (f : DfsuFile) (item_numbers : list Z)
  : exn + list ItemInfo :=
  match item_numbers with
  | [] => inr []
  | n :: ns =>
      if decide (0 <= n)%Z then
        match py_index (ItemInfos f) (Z.to_nat n), get_item_info f ns with
        | inr it, inr its => inr (it :: its)
        | inl e, _ => inl e
        | _, inl e => inl e
        end
      else inl IndexError
  end.

(** [a[i, :] = d]: the row must exist; [d] must have the row's length, or
    length one, in which case numpy broadcasts it over the row. *)
Definition set_row (a : ndarray) (i : nat) (d : list float) : exn + ndarray :=
  if decide (i < fst (shape a)) then
    if decide (length d = snd (shape a)) then
      inr (mk_ndarray (shape a) (<[i := d]> (rows a)))
    else
      match d with
      | [v] => inr (mk_ndarray (shape a)
                      (<[i := replicate (snd (shape a)) v]> (rows a)))
      | _ => inl ValueError
      end
  else inl IndexError.

(** [d[d == deleteValue] = np.nan] and [d[np.isnan(d)] = deletevalue]. *)
Definition mask_delete_value (deleteValue : float) (d : list float)
  : list float :=
  (fun v => if SFeqb v deleteValue then np_nan else v) <$> d.

Definition mask_nan (deletevalue : float) (d : list float) : list float :=
  (fun v => if np_isnan v then deletevalue else v) <$> d.

Section Methods.

(** The marshalling helpers of [mikeio.dotnet] convert element by element:
    [to_single] is the conversion of one sample to the provider's single
    precision, [of_single] the conversion back.  [uninit] is the content
    of memory that [np.ndarray(shape=...)] leaves uninitialised. *)
Variable to_single : float -> float.
Variable of_single : float -> float.
Variable uninit : float.

Definition to_dotnet_float_array (d : list float) : list float :=
  to_single <$> d.

Definition to_numpy (src : list float) : list float := of_single <$> src.

Definition np_ndarray (shp : nat * nat) : ndarray :=
  mk_ndarray shp (replicate (fst shp) (replicate (snd shp) uninit)).

Definition np_zeros (n : nat) : list R := replicate n 0%R.

(** The body of the inner loop of [read] (lines 81-90). *)
Definition read_item_time_step (dfs : nat) (item_numbers : list Z)
  (item_offset : Z) (deleteValue : float) (i : nat) (it : Z) (item : nat)
  (st : list ndarray * option ItemTimeStepData)
  : M (list ndarray * option ItemTimeStepData) :=
  let data_list := fst st in
  n ← lift (py_index item_numbers item);
  itemdata ← ReadItemTimeStep dfs (n + item_offset + 1) it;
  let src := Data itemdata in
  let d := to_numpy src in
  let d := mask_delete_value deleteValue d in
  arr ← lift (py_index data_list item);
  arr' ← lift (set_row arr i d);
  mret (<[item := arr']> data_list, Some itemdata).

(** The body of the outer loop of [read] (lines 78-92).  [itemdata] is a
    function-level local: it keeps the value of the last inner iteration
    and is unbound if there never was one. *)
Definition read_time_step (dfs : nat) (item_numbers : list Z)
  (item_offset : Z) (deleteValue : float) (time_steps : list Z)
  (n_items : Z) (i : nat)
  (st : list ndarray * list R * option ItemTimeStepData)
  : M (list ndarray * list R * option ItemTimeStepData) :=
  let '(data_list, t_seconds, itemdata) := st in
  it ← lift (py_index time_steps i);
  st' ← for_each (py_range n_items)
          (read_item_time_step dfs item_numbers item_offset deleteValue i it)
          (data_list, itemdata);
  match snd st' with
  | None => raise UnboundLocalError
  | Some itemdata => mret (fst st', <[i := Time itemdata]> t_seconds, Some itemdata)
  end.

Definition read (filename : string) (item_numbers : option (list Z))
  (item_names : option (list string)) (time_steps : option (list Z))
  : M Dataset :=
  dfs ← DfsuFile_Open filename;
  w ← get_world;
  put_world (with_self_dfs w (Some dfs));;
  f ← handle_file dfs;
  let item_offset := 0%Z in
  let n_items := Z.of_nat (safe_length (ItemInfos f)) in
  let '(item_offset, n_items) :=
    if decide (FileType f = Dfsu3DSigma ∨ FileType f = Dfsu3DSigmaZ)
    then (1%Z, (n_items - 1)%Z) else (item_offset, n_items) in
  let nt := NumberOfTimeSteps f in
  item_numbers ←
    match item_names with
    | Some names => ns ← lift (find_item f names); mret (Some ns)
    | None => mret item_numbers
    end;
  let '(item_numbers, n_items) :=
    match item_numbers with
    | None => (Z.of_nat <$> py_range n_items, n_items)
    | Some l => (l, Z.of_nat (length l))
    end in
  let time_steps :=
    match time_steps with
    | None => Z.of_nat <$> py_range (Z.of_nat nt)
    | Some l => l
    end in
  let xNum := NumberOfElements f in
  let deleteValue := DeleteValueFloat f in
  let data_list :=
    (fun _ => np_ndarray (length time_steps, xNum)) <$> py_range n_items in
  let t_seconds := np_zeros (length time_steps) in
  st ← for_each (py_range (Z.of_nat (length time_steps)))
         (read_time_step dfs item_numbers item_offset deleteValue
            time_steps n_items)
         (data_list, t_seconds, None);
  let '(data_list, t_seconds, _) := st in
  let start_time := StartDateTime f in
  let time := (fun tsec => (start_time + tsec)%R) <$> t_seconds in
  items ← lift (get_item_info f item_numbers);
  Close dfs;;
  mret (mk_Dataset data_list time items).

(** The body of the inner loop shared by [write] (lines 124-127) and
    [create] (lines 211-214).  [d] is a view of row [i] of [data[item]],
    so the masking assignment changes the caller's array; the arrays as
    they stand after the statement are the loop-carried state. *)
Definition write_item_time_step (dfs : nat) (deletevalue : float)
  (i item : nat) (data : list ndarray) : M (list ndarray) :=
  arr ← lift (py_index data item);
  d ← lift (py_index (rows arr) i);
  let d := mask_nan deletevalue d in
  let data := <[item := mk_ndarray (shape arr) (<[i := d]> (rows arr))]> data in
  let darray := to_dotnet_float_array d in
  WriteItemTimeStepNext dfs 0 darray;;
  mret data.

Definition write_all (dfs : nat) (deletevalue : float)
  (n_time_steps n_items : nat) (data : list ndarray) : M (list ndarray) :=
  for_each (seq 0 n_time_steps)
    (fun i => for_each (seq 0 n_items)
                (write_item_time_step dfs deletevalue i))
    data.

(** [write] returns nothing in Python; the embedding returns the caller's
    arrays as the call leaves them. *)
Definition write (filename : string) (data : list ndarray)
  : M (list ndarray) :=
  dfs ← DfsGenericOpenEdit filename;
  f ← handle_file dfs;
  let n_time_steps := NumberOfTimeSteps f in
  let n_items := safe_length (ItemInfos f) in
  let deletevalue := DeleteValueFloat f in
  data ← write_all dfs deletevalue n_time_steps n_items data;
  Close dfs;;
  mret data.

Definition create (meshfilename filename : string) (data : list ndarray)
  (start_time : option R) (dt : R) (timeseries_unit : TimeStep)
  (items : option (list ItemInfo)) (title : option string)
  : M (list ndarray) :=
  let n_items := length data in
  data0 ← lift (py_index data 0);
  let n_time_steps := fst (shape data0) in
  w ← get_world;
  let start_time :=
    match start_time with None => clock w | Some t => t end in
  let items :=
    match items with
    | None => (fun i => ItemInfo_of_name ("temItem " +:+ pretty (i + 1)))
                <$> seq 0 n_items
    | Some l => l
    end in
  let title := match title with None => "" | Some t => t end in
  let system_start_time := start_time in
  mesh ← MeshFile_ReadMesh meshfilename;
  let builder := DfsuBuilder_Create Dfsu2D in
  (* the node depths pass through to_dotnet_float_array; on real-valued
     coordinates that conversion is the identity *)
  let zn := mesh_Z mesh in
  let builder := SetNodes builder (mesh_X mesh) (mesh_Y mesh) zn (mesh_Code mesh) in
  let builder := SetElements builder (mesh_ElementTable mesh) in
  let proj := mesh_ProjectionString mesh in
  let builder := SetProjection builder proj in
  let builder := SetTimeInfo builder system_start_time dt in
  (* builder.SetZUnit(eumUmeter) records a unit that no method reads back *)
  let builder :=
    fold_left (fun b item =>
                 AddDynamicItem b (item_name item) (item_type item, item_unit item))
      items builder in
  dfs ← try_except (h ← CreateFile builder filename; mret (Some h)) IOError
          (print2 "cannot create dfsu file: " filename;; mret None);
  dfs ← match dfs with
        | None => raise UnboundLocalError
        | Some h => mret h
        end;
  f ← handle_file dfs;
  let deletevalue := DeleteValueFloat f in
  data ← write_all dfs deletevalue n_time_steps n_items data;
  Close dfs;;
  mret data.

End Methods.

(** ** The geometry queries

    They read the attributes of [self._dfs], the handle object that [read]
    stored; the object is closed by then but keeps its mesh. *)

Definition self_dfs_file : M DfsuFile :=
  w ← get_world;
  match self_dfs w with
  | None => raise AttributeError
  | Some dfs => handle_file dfs
  end.

Definition print1 (a : string) : M () := fun w =>
  (inr tt, with_stdout w (stdout w ++ [a])).

Abbreviation point3 := (R * R * R)%type.

(** [np.column_stack([xn, yn, zn])]. *)
Definition column_stack (xn yn zn : list R) : exn + list point3 :=
  if decide (length xn = length yn ∧ length yn = length zn)
  then inr (zip (zip xn yn) zn)
  else inl ValueError.

(** [a[mask]] for a boolean mask over the first axis. *)
Fixpoint select_rows {A} (a : list A) (mask : list bool) : list A :=
  match a, mask with
  | r :: a', b :: mask' =>
      if b then r :: select_rows a' mask' else select_rows a' mask'
  | _, _ => []
  end.

Definition mask_index {A} (a : list A) (mask : list bool) : exn + list A :=
  if decide (length mask = length a) then inr (select_rows a mask)
  else inl IndexError.

(** The text of a Python set in an f-string; the order of the members is
    the set's own. *)
Definition show_codes (s : gset Z) : string :=
  "{" +:+ String.concat ", " (pretty <$> elements s) +:+ "}".

Definition get_node_coords (code : option Z) : M (list point3) :=
  dfs ← self_dfs_file;
  let xn := NodeX dfs in
  let yn := NodeY dfs in
  let zn := NodeZ dfs in
  nc ← lift (column_stack xn yn zn);
  match code with
  | Some code =>
      let c := NodeCode dfs in
      let valid_codes : gset Z := list_to_set c in
      if decide (code ∉ valid_codes) then
        print1 ("Selected code: " +:+ pretty code
                +:+ " is not valid. Valid codes: " +:+ show_codes valid_codes);;
        raise PyException
      else lift (mask_index nc ((fun k => bool_decide (k = code)) <$> c))
  | None => mret nc
  end.

Definition Rsum (l : list R) : R := foldr Rplus 0%R l.

(** [a.mean()]; of an empty array numpy returns nan. *)
Definition np_mean (l : list R) : exn + R :=
  match l with
  | [] => inl NaNResult
  | _ => inr (Rsum l / INR (length l))%R
  end.

(** The inner loop of [get_element_coords] (lines 276-280): the
    coordinates of the nodes of one element.  The three buffers have the
    element's length and every cell is assigned. *)
Fixpoint node_coords_of (xn yn zn : list R) (nodes : list Z)
  : exn + (list R * list R * list R) :=
  match nodes with
  | [] => inr ([], [], [])
  | n :: rest =>
      let nidx := (n - 1)%Z in
      x ← np_index xn nidx;
      y ← np_index yn nidx;
      z ← np_index zn nidx;
      r ← node_coords_of xn yn zn rest;
      inr (x :: r.1.1, y :: r.1.2, z :: r.2)
  end.

Definition element_center (xn yn zn : list R) (nodes : list Z)
  : exn + point3 :=
  c ← node_coords_of xn yn zn nodes;
  mx ← np_mean c.1.1;
  my ← np_mean c.1.2;
  mz ← np_mean c.2;
  inr (mx, my, mz).

Fixpoint element_centers (xn yn zn : list R) (table : list (list Z))
  : exn + list point3 :=
  match table with
  | [] => inr []
  | nodes :: rest =>
      c ← element_center xn yn zn nodes;
      cs ← element_centers xn yn zn rest;
      inr (c :: cs)
  end.

Definition get_element_coords : M (list point3) :=
  dfs ← self_dfs_file;
  let xn := NodeX dfs in
  let yn := NodeY dfs in
  let zn := NodeZ dfs in
  lift (element_centers xn yn zn (ElementTable dfs)).

Definition get_number_of_time_steps : M nat :=
  dfs ← self_dfs_file;
  mret (NumberOfTimeSteps dfs).

Definition is_geo : M bool :=
  dfs ← self_dfs_file;
  mret (bool_decide (WKTString dfs = "LONG/LAT")).

(** [a[i] = v] for an index produced by [range]. *)
Definition set_index {A} (a : list A) (i : nat) (v : A) : exn + list A :=
  if decide (i < length a) then inr (<[i := v]> a) else inl IndexError.

Definition earth_radius : R := 6366707.0%R.
Definition deg_to_rad : R := (PI / 180.0)%R.
Definition np_deg2rad (x : R) : R := (x * (PI / 180))%R.

Section Geometry.

(** [argsort] is [ndarray.argsort()] with numpy's default sort kind.
    [garbage] is the content of the memory that [np.empty] hands out. *)
Variable argsort : list R -> list nat.
Variable garbage : nat -> R.

Definition np_empty (n : nat) : list R := garbage <$> seq 0 n.

(** [d = ((ec[:, 0:2] - poi) ** 2).sum(axis=1)] and its three-column
    variant. *)
Definition sq_dist2 (x y : R) (c : point3) : R :=
  ((c.1.1 - x) ^ 2 + (c.1.2 - y) ^ 2)%R.

Definition sq_dist3 (x y z : R) (c : point3) : R :=
  ((c.1.1 - x) ^ 2 + (c.1.2 - y) ^ 2 + (c.2 - z) ^ 2)%R.

Definition find_closest_element_index (x y : R) (z : option R) : M nat :=
  ec ← get_element_coords;
  match z with
  | None =>
      let d := sq_dist2 x y <$> ec in
      lift (py_index (argsort d) 0)
  | Some z =>
      let d := sq_dist3 x y z <$> ec in
      lift (py_index (argsort d) 0)
  end.

(** Lines 350-353: the nodes of the element are copied to the front of
    the two buffers, which are shared by all elements. *)
Definition load_nodes (xn yn : list R) (nodes : list Z)
  (bufs : list R * list R) : exn + (list R * list R) :=
  for_pure (seq 0 (length nodes))
    (fun i '(xcoords, ycoords) =>
       n ← py_index nodes i;
       let nidx := (n - 1)%Z in
       x ← np_index xn nidx;
       xcoords ← set_index xcoords i x;
       y ← np_index yn nidx;
       ycoords ← set_index ycoords i y;
       inr (xcoords, ycoords))
    bufs.

(** Lines 355-391 for one element, given the buffers as [load_nodes]
    left them.  [ad] is bound only for a quadrilateral. *)
Definition element_area (geo : bool) (len : nat) (xcoords ycoords : list R)
  : exn + R :=
  x0 ← py_index xcoords 0; x1 ← py_index xcoords 1; x2 ← py_index xcoords 2;
  y0 ← py_index ycoords 0; y1 ← py_index ycoords 1; y2 ← py_index ycoords 2;
  let abx := (x1 - x0)%R in
  let aby := (y1 - y0)%R in
  let acx := (x2 - x0)%R in
  let acy := (y2 - y0)%R in
  let isquad := bool_decide (3 < len) in
  ad ← (if isquad then
          x3 ← py_index xcoords 3; y3 ← py_index ycoords 3;
          inr (Some ((x3 - x0)%R, (y3 - y0)%R))
        else inr None) : exn + option (R * R);
  '(abx, aby, acx, acy, ad) ←
    (if geo then
       let earth_radius_deg_to_rad := (earth_radius * deg_to_rad)%R in
       Ye ← (if decide (len = 0) then inl NaNResult
             else inr (Rsum (take len ycoords) / INR len)%R) : exn + R;
       let cosYe := cos (np_deg2rad Ye) in
       let abx := (earth_radius_deg_to_rad * abx * cosYe)%R in
       let aby := (earth_radius_deg_to_rad * aby)%R in
       let acx := (earth_radius_deg_to_rad * acx * cosYe)%R in
       let acy := (earth_radius_deg_to_rad * acy)%R in
       let ad :=
         match ad with
         | Some (adx, ady) =>
             Some ((earth_radius_deg_to_rad * adx * cosYe)%R,
                   (earth_radius_deg_to_rad * ady)%R)
         | None => None
         end in
       inr (abx, aby, acx, acy, ad)
     else inr (abx, aby, acx, acy, ad)) : exn + (R * R * R * R * option (R * R));
  let area_j := (0.5 * (abx * acy - aby * acx))%R in
  match ad with
  | Some (adx, ady) => inr (area_j + 0.5 * (acx * ady - acy * adx))%R
  | None => inr area_j
  end.

(** One iteration of the loop over the elements (lines 347-391). *)
Definition area_step (dfs : DfsuFile) (geo : bool) (j : nat)
  (st : list R * (list R * list R)) : exn + (list R * (list R * list R)) :=
  let '(area, bufs) := st in
  nodes ← py_index (ElementTable dfs) j;
  bufs ← load_nodes (NodeX dfs) (NodeY dfs) nodes bufs;
  a ← element_area geo (length nodes) bufs.1 bufs.2;
  area ← set_index area j a;
  inr (area, bufs).

Definition element_areas (dfs : DfsuFile) : exn + list R :=
  let n_elements := NumberOfElements dfs in
  let area := np_empty n_elements in
  let xcoords := np_empty 4 in
  let ycoords := np_empty 4 in
  let geo := bool_decide (WKTString dfs = "LONG/LAT") in
  st ← for_pure (seq 0 n_elements) (area_step dfs geo)
         (area, (xcoords, ycoords));
  let area : list R := st.1 in
  inr (Rabs <$> area).

Definition get_element_area : M (list R) :=
  dfs ← self_dfs_file;
  lift (element_areas dfs).

End Geometry.

(** * Reference definitions

    The functions below say, in the words of the specification, what the
    methods are expected to compute; the properties compare the embedding
    of the code with them. *)

(** The nodes whose code equals [code], in the order of the mesh. *)
Definition nodes_with_code (code : Z) (nodes : list point3) (codes : list Z)
  : list point3 :=
  fst <$> filter (fun p => p.2 = code) (zip nodes codes).

(** Row [i] of array [item] of a list of arrays. *)
Definition row_of (data : list ndarray) (item i : nat) : option (list float) :=
  arr ← data !! item; rows arr !! i.

(** The arrays after the masking assignment on row [p.1] of array [p.2]. *)
Definition mask_row_at (dv : float) (p : nat * nat) (data : list ndarray)
  : list ndarray :=
  match data !! p.2 with
  | Some arr =>
      match rows arr !! p.1 with
      | Some d =>
          <[p.2 := mk_ndarray (shape arr) (<[p.1 := mask_nan dv d]> (rows arr))]> data
      | None => data
      end
  | None => data
  end.

(** The (time step, item) pairs in the order of the nested write loops. *)
Definition index_pairs (T N : nat) : list (nat * nat) :=
  i ← seq 0 T; pair i <$> seq 0 N.

(** The world while a handle [dfs] on [p] has stored the rows [out] over
    the container [f0], starting from the world [w0]. *)
Definition writing (w0 : World) (dfs : nat) (p : string) (f0 : DfsuFile)
  (out : list (list float)) : World :=
  with_handles
    (with_files w0
       (<[p := set_ItemData f0 (out ++ drop (length out) (ItemData f0))]> (files w0)))
    (<[dfs := mk_Handle p (length out) true]> (handles w0)).

(** The row that the write loops store for the pair [p]:
    the masked row of the caller's array, marshalled. *)
Definition stored_row (to_single : float -> float) (dv : float)
  (data : list ndarray) (p : nat * nat) : list float :=
  to_single <$> mask_nan dv (default [] (row_of data p.2 p.1)).

(** The caller's arrays after the write loops over [T] time steps and [N]
    items. *)
Definition masked_data (dv : float) (T N : nat) (data : list ndarray)
  : list ndarray :=
  foldl (fun d q => mask_row_at dv q d) data (index_pairs T N).

(** The world after an operation that opened a handle on [p], left the
    container [f'] there and closed the handle with its cursor at [c]. *)
Definition closed_after (w : World) (p : string) (f' : DfsuFile) (c : nat)
  : World :=
  with_handles (with_files w (<[p := f']> (files w)))
    (handles w ++ [mk_Handle p c false]).

(** The names [create] gives the items when the caller passes none, as
    the code builds them. *)
Definition default_items (n_items : nat) : list ItemInfo :=
  (fun i => ItemInfo_of_name ("temItem " +:+ pretty (i + 1))) <$> seq 0 n_items.

(** The container [create] builds from a mesh, before any row is
    stored. *)
Definition created_file (mesh : MeshFile) (start dt : R)
  (items : list ItemInfo) (dv : float) : DfsuFile :=
  mk_DfsuFile Dfsu2D items dv start dt (mesh_X mesh) (mesh_Y mesh)
    (mesh_Z mesh) (mesh_Code mesh) (mesh_ElementTable mesh)
    (mesh_ProjectionString mesh) [].




(** The selection [read] settles on before it allocates anything (lines
    41-62): the item offset, the item count, the item numbers and the time
    steps. *)
Definition read_selection (f : DfsuFile) (item_numbers : option (list Z))
  (item_names : option (list string)) (time_steps : option (list Z))
  : exn + (Z * Z * list Z * list Z) :=
  let n_items := Z.of_nat (length (ItemInfos f)) in
  let '(item_offset, n_items) :=
    if decide (FileType f = Dfsu3DSigma ∨ FileType f = Dfsu3DSigmaZ)
    then (1%Z, (n_items - 1)%Z) else (0%Z, n_items) in
  item_numbers ←
    match item_names with
    | Some names => ns ← find_item f names; inr (Some ns)
    | None => inr item_numbers
    end;
  let '(item_numbers, n_items) :=
    match item_numbers with
    | None => (Z.of_nat <$> py_range n_items, n_items)
    | Some l => (l, Z.of_nat (length l))
    end in
  let time_steps :=
    match time_steps with
    | None => Z.of_nat <$> py_range (Z.of_nat (NumberOfTimeSteps f))
    | Some l => l
    end in
  inr (item_offset, n_items, item_numbers, time_steps).

(** The world while [read] holds its handle on [p]. *)
Definition reading (w : World) (p : string) : World :=
  with_self_dfs (with_handles w (handles w ++ [mk_Handle p 0 true]))
    (Some (length (handles w))).

(** The world after [read] has closed its handle on [p]. *)
Definition read_done (w : World) (p : string) : World :=
  with_self_dfs (with_handles w (handles w ++ [mk_Handle p 0 false]))
    (Some (length (handles w))).

(** Whether a call raised, and whether a handle object is open. *)
Definition raised {A} (r : exn + A) : bool :=
  match r with inl _ => true | inr _ => false end.


(** The stored row that [read] fetches for position [item] of the item
    selection and position [i] of the time-step selection. *)
Definition selected_row (f : DfsuFile) (off : Z) (nums ts : list Z)
  (item i : nat) : option (list float) :=
  n ← nums !! item;
  t ← ts !! i;
  ItemData f !! (Z.to_nat t * length (ItemInfos f) + Z.to_nat (n + off)).

(** What [read] makes of a stored row: marshalled back and masked. *)
Definition read_row (of_single : float -> float) (dv : float)
  (row : list float) : list float :=
  mask_delete_value dv (of_single <$> row).

(** A selection that [read] can serve: item numbers and time steps within
    the container, stored rows of the element count, and at least one item
    unless no time step is selected. *)
Definition valid_selection (f : DfsuFile) (off : Z) (nums ts : list Z) : Prop :=
  (forall item n, nums !! item = Some n ->
     (0 <= n + off < Z.of_nat (length (ItemInfos f)))%Z)
  /\ (forall i t, ts !! i = Some t ->
        (0 <= t < Z.of_nat (NumberOfTimeSteps f))%Z)
  /\ (forall item i row, selected_row f off nums ts item i = Some row ->
        length row = NumberOfElements f)
  /\ (ts = [] \/ nums <> []).

(** The number of leading items that [read] skips: the dynamic-Z item of
    the 3D variants. *)
Definition file_offset (f : DfsuFile) : nat :=
  if decide (FileType f = Dfsu3DSigma ∨ FileType f = Dfsu3DSigmaZ) then 1 else 0.

(** What one sample becomes on its way through [write] (or [create]) and
    [read]: NaN is replaced by the delete value, the sample is marshalled
    to the container and back, and a sample that then compares equal to
    the delete value is replaced by NaN. *)
Definition roundtrip_value (to_single of_single : float -> float)
  (dv v : float) : float :=
  let s := of_single (to_single (if np_isnan v then dv else v)) in
  if SFeqb s dv then np_nan else s.

(** The Dataset read back against the arrays that were written: array
    [item] of the Dataset answers array [item + off] of the caller, sample
    by sample. *)
Definition read_back_of (to_single of_single : float -> float) (dv : float)
  (off N T : nat) (src : list ndarray) (ds : Dataset) : Prop :=
  length (data ds) = N - off
  /\ forall item i r j v,
       item + off < N -> i < T ->
       row_of src (item + off) i = Some r -> r !! j = Some v ->
       exists r',
         row_of (data ds) item i = Some r'
         /\ r' !! j = Some (roundtrip_value to_single of_single dv v).

(** ** Geometry, in the words of the specification *)

(** The mesh invariant of the data model that the geometry queries rely
    on: the node arrays have one length, and every element has three or
    four nodes, given by 1-based numbers of existing nodes. *)
Definition valid_node (dfs : DfsuFile) (n : Z) : Prop :=
  (1 <= n <= Z.of_nat (length (NodeX dfs)))%Z.

Definition valid_mesh (dfs : DfsuFile) : Prop :=
  length (NodeX dfs) = length (NodeY dfs)
  /\ length (NodeY dfs) = length (NodeZ dfs)
  /\ Forall (fun nodes => (length nodes = 3 \/ length nodes = 4)
                          /\ Forall (valid_node dfs) nodes)
       (ElementTable dfs).

(** The coordinates of the node with 1-based number [n]. *)
Definition node_x (dfs : DfsuFile) (n : Z) : R := nth (Z.to_nat (n - 1)) (NodeX dfs) 0%R.
Definition node_y (dfs : DfsuFile) (n : Z) : R := nth (Z.to_nat (n - 1)) (NodeY dfs) 0%R.
Definition node_z (dfs : DfsuFile) (n : Z) : R := nth (Z.to_nat (n - 1)) (NodeZ dfs) 0%R.

Definition mean (l : list R) : R := (Rsum l / INR (length l))%R.




(** The centre of an element: the mean of the coordinates of its nodes. *)
Definition centroid (dfs : DfsuFile) (nodes : list Z) : point3 :=
  (mean (node_x dfs <$> nodes), mean (node_y dfs <$> nodes),
   mean (node_z dfs <$> nodes)).

(** The squared distance from a centre to the query point: in the plane
    when [z] is omitted, in space when it is given. *)
Definition sq_dist (x y : R) (z : option R) (c : point3) : R :=
  match z with
  | None => ((c.1.1 - x) ^ 2 + (c.1.2 - y) ^ 2)%R
  | Some z => ((c.1.1 - x) ^ 2 + (c.1.2 - y) ^ 2 + (c.2 - z) ^ 2)%R
  end.

(** What numpy promises of [argsort] on an array without nan: the indices
    of the array, in an order in which the values ascend. *)
Definition argsort_contract (argsort : list R -> list nat) : Prop :=
  forall d,
    Permutation (argsort d) (seq 0 (length d))
    /\ StronglySorted (fun a b => (nth a d 0 <= nth b d 0)%R) (argsort d).

(** The data arrays of [read] all have the shape (T, E) and rows to
    match. *)
Definition arrays_shaped (n T E : nat) (dl : list ndarray) : Prop :=
  length dl = n /\ Forall (fun a => shape a = (T, E) /\ wf_ndarray a) dl.

(** The arrays while the loops of [read] run: rows [0 .. i-1] of every
    array are read, and so is row [i] of the first [k] arrays. *)
Definition rows_read (of_single : float -> float) (f : DfsuFile) (off : Z) (nums ts : list Z)
  (i k : nat) (dl : list ndarray) : Prop :=
  length dl = length nums
  /\ forall item, item < length nums ->
       exists arr,
         dl !! item = Some arr
         /\ shape arr = (length ts, NumberOfElements f)
         /\ length (rows arr) = length ts
         /\ forall i', (i' < i \/ (i' = i /\ item < k)) -> i' < length ts ->
              rows arr !! i'
              = read_row of_single (DeleteValueFloat f)
                  <$> selected_row f off nums ts item i'.

(** * Sample data

    The containers, meshes and arrays on which the properties are run. *)

Definition f_one : float := S754_finite false 1 0.

(** About -1e-35, a single-precision number: the delete value of the
    provider. *)
Definition f_delete : float := S754_finite true 13939394 (-140).

(** The unit square as one quadrilateral; its last node is interior, the
    other three lie on the boundary. *)
Definition square_mesh : MeshFile :=
  mk_MeshFile [0; 1; 1; 0]%R [0; 0; 1; 1]%R [0; 0; 0; 0]%R [1; 1; 1; 0]%Z
    [[1; 2; 3; 4]%Z] "PROJCS".

(** A mesh with one prism element over six nodes. *)
Definition prism_mesh : MeshFile :=
  mk_MeshFile [0; 1; 0; 0; 1; 0]%R [0; 0; 1; 0; 0; 1]%R
    [0; 0; 0; 1; 1; 1]%R [1; 1; 1; 1; 1; 1]%Z
    [[1; 2; 3; 4; 5; 6]%Z] "PROJCS".

Definition world0 : World :=
  mk_World ∅ {[ "square.mesh" := square_mesh; "prism.mesh" := prism_mesh ]} []
    ["/readonly/out.dfsu"] f_delete 0%R [] None.

(** One item, two time steps, one element: [[1.0], [nan]]. *)
Definition data_ex : list ndarray := [mk_ndarray (2, 1) [[f_one]; [np_nan]]].

Definition marshal_id (x : float) : float := x.

(** The world after [create] on the square mesh, and after reading the
    new container back. *)
Definition world1 : World :=
  (create marshal_id "square.mesh" "out.dfsu" data_ex None 1%R SECOND None None
     world0).2.

Definition world2 : World :=
  (read marshal_id f_one "out.dfsu" None None None world1).2.

Definition square_dfs : DfsuFile :=
  mk_DfsuFile Dfsu2D [ItemInfo_of_name "temItem 1"] f_delete 0%R 1%R
    [0; 1; 1; 0]%R [0; 0; 1; 1]%R [0; 0; 0; 0]%R [1; 1; 1; 0]%Z
    [[1; 2; 3; 4]%Z] "PROJCS" [[f_one]; [f_delete]].

Definition no_garbage (i : nat) : R := 0%R.

(** A sort that keeps the contract of [argsort] and, like an unstable
    sort may, puts the later of two equal values first: indices are
    inserted in ascending order, each before the first index whose value
    is not smaller. *)
Fixpoint insert_index (d : list R) (i : nat) (l : list nat) : list nat :=
  match l with
  | [] => [i]
  | j :: l' =>
      if Rle_dec (nth i d 0%R) (nth j d 0%R) then i :: j :: l'
      else j :: insert_index d i l'
  end.

Definition argsort_unstable (d : list R) : list nat :=
  foldl (fun l i => insert_index d i l) [] (seq 0 (length d)).



Definition world_after_read (f : DfsuFile) : World :=
  mk_World {[ "mesh.dfsu" := f ]} ∅ [mk_Handle "mesh.dfsu" 0 false] []
    f_delete 0%R [] (Some 0).

(** * Further reference definitions *)

(** The world after [write] or [create] has stored [rows] in the
    container [f0] under [p], with its handle left at cursor [c], open or
    closed. *)
Definition stored_world (w : World) (p : string) (f0 : DfsuFile)
  (rows : list (list float)) (c : nat) (op : bool) : World :=
  with_handles (with_files w (<[p := set_ItemData f0 rows]> (files w)))
    (handles w ++ [mk_Handle p c op]).

(** The 1-based node number that a node number stands for under Python's
    negative indexing: [nodes[i] - 1] below zero counts from the end. *)
Definition wrap_node (len : nat) (n : Z) : Z :=
  if decide (n <= 0)%Z then (n + Z.of_nat len)%Z else n.

(** The node numbers that index the node arrays without an error. *)
Definition node_in_range (len : nat) (n : Z) : Prop :=
  (1 - Z.of_nat len <= n <= Z.of_nat len)%Z.



(** ** Further sample meshes *)

(** The square with its first corner given as node number 0, which
    Python's indexing reads as the last node. *)
Definition wrapped_dfs : DfsuFile :=
  mk_DfsuFile Dfsu2D [ItemInfo_of_name "temItem 1"] f_delete 0%R 1%R
    [0; 2; 2; 0]%R [0; 0; 2; 2]%R [0; 0; 0; 0]%R [1; 1; 1; 1]%Z
    [[0; 1; 2]%Z] "PROJCS" [].

(** An element that names a node the mesh does not have. *)
Definition bad_node_dfs : DfsuFile :=
  mk_DfsuFile Dfsu2D [ItemInfo_of_name "temItem 1"] f_delete 0%R 1%R
    [0; 2; 2; 0]%R [0; 0; 2; 2]%R [0; 0; 0; 0]%R [1; 1; 1; 1]%Z
    [[1; 2; 9]%Z] "PROJCS" [].

(** A 3D container with one prism over six nodes and the dynamic z item
    in front. *)
Definition prism_dfs : DfsuFile :=
  mk_DfsuFile Dfsu3DSigma
    [ItemInfo_of_name "Z coordinate"; ItemInfo_of_name "temItem 1"]
    f_delete 0%R 1%R
    [0; 1; 0; 0; 1; 0]%R [0; 0; 1; 0; 0; 1]%R [0; 0; 0; 1; 1; 1]%R
    [1; 1; 1; 1; 1; 1]%Z [[1; 2; 3; 4; 5; 6]%Z] "PROJCS" [].


(** * Properties *)

Ltac mred := cbv [mbind M_bind mret M_ret raise lift get_world put_world].

Tactic Notation "mred" "in" hyp(H) :=
  cbv [mbind M_bind mret M_ret raise lift get_world put_world] in H.

Lemma bind_inr {A B} (m : M A) (k : A -> M B) w a w' :
  m w = (inr a, w') -> (m ≫= k) w = k a w'.
Proof. intros H. mred. by rewrite H. Qed.

Lemma bind_inl {A B} (m : M A) (k : A -> M B) w e w' :
  m w = (inl e, w') -> (m ≫= k) w = (inl e, w').
Proof. intros H. mred. by rewrite H. Qed.

(** ** Loops *)

Lemma for_each_app {A S} (l1 l2 : list A) (body : A -> S -> M S) s w :
  for_each (l1 ++ l2) body s w =
  match for_each l1 body s w with
  | (inl e, w') => (inl e, w')
  | (inr s', w') => for_each l2 body s' w'
  end.
Proof.
  revert s w. induction l1 as [|a l1 IH]; intros s w; simpl; [done|].
  mred. destruct (body a s w) as [[e|s'] w']; [done|]. apply IH.
Qed.

Lemma for_each_fmap {A B S} (g : A -> B) (l : list A) (body : B -> S -> M S) s w :
  for_each (g <$> l) body s w = for_each l (fun a => body (g a)) s w.
Proof.
  revert s w. induction l as [|a l IH]; intros s w; simpl; [done|].
  mred. destruct (body (g a) s w) as [[e|s'] w']; [done|]. apply IH.
Qed.

(** Two nested [range] loops run their body over the pairs in
    lexicographic order. *)
Lemma for_each_nested {S} (l : list nat) (N : nat)
  (body : nat -> nat -> S -> M S) s w :
  for_each l (fun i => for_each (seq 0 N) (body i)) s w =
  for_each (i ← l; pair i <$> seq 0 N) (fun p => body p.1 p.2) s w.
Proof.
  revert s w. induction l as [|i l IH]; intros s w; [done|].
  cbn [for_each]. rewrite bind_cons, for_each_app, for_each_fmap. simpl.
  mred.
  destruct (for_each (seq 0 N) (body i) s w) as [[e|s'] w']; [done|]. apply IH.
Qed.

Lemma index_pairs_lookup T N t k :
  t < T -> k < N -> index_pairs T N !! (t * N + k) = Some (t, k).
Proof.
  unfold index_pairs. intros Ht Hk.
  assert (G : forall (l : list nat) t, t < length l ->
     (i ← l; pair i <$> seq 0 N) !! (t * N + k) = (fun i => (i, k)) <$> l !! t).
  { clear t Ht. induction l as [|a l IH]; intros t Hl; [simpl in Hl; lia|].
    rewrite bind_cons. destruct t as [|t]; simpl in Hl.
    - simpl. rewrite lookup_app_l by (rewrite length_fmap, length_seq; lia).
      rewrite list_lookup_fmap, lookup_seq_lt by lia. done.
    - rewrite lookup_app_r by (rewrite length_fmap, length_seq; simpl; lia).
      rewrite length_fmap, length_seq.
      replace (S t * N + k - N) with (t * N + k) by lia.
      rewrite IH by lia. done. }
  rewrite G by (rewrite length_seq; lia).
  rewrite lookup_seq_lt by lia. done.
Qed.

Lemma index_pairs_length T N : length (index_pairs T N) = T * N.
Proof.
  unfold index_pairs. rewrite <- (length_seq T 0) at 2.
  induction (seq 0 T) as [|a l IH]; [done|].
  rewrite bind_cons, length_app, length_fmap, length_seq, IH. simpl. lia.
Qed.

Lemma elem_of_index_pairs T N i item :
  (i, item) ∈ index_pairs T N <-> i < T /\ item < N.
Proof.
  unfold index_pairs. rewrite list_elem_of_bind. split.
  - intros (t & Hin & Ht). apply list_elem_of_fmap in Hin as (k & E & Hk).
    inversion E; subst. apply elem_of_seq in Ht, Hk. lia.
  - intros [Hi Hk]. exists i. split.
    + apply list_elem_of_fmap. exists item. split; [done|]. apply elem_of_seq. lia.
    + apply elem_of_seq. lia.
Qed.

(** ** The node-code filter *)

Lemma self_dfs_file_world w : (self_dfs_file w).2 = w.
Proof.
  unfold self_dfs_file, handle_file, get_handle. mred.
  destruct (self_dfs w); [|done].
  destruct (handles w !! n); [|done].
  destruct (files w !! h_path h); done.
Qed.

Lemma self_dfs_file_inr w dfs :
  (self_dfs_file w).1 = inr dfs -> self_dfs_file w = (inr dfs, w).
Proof.
  intros H. rewrite <- (self_dfs_file_world w) at 2. rewrite <- H.
  by destruct (self_dfs_file w).
Qed.

Lemma select_rows_filter {A} (code : Z) (a : list A) (c : list Z) :
  select_rows a ((fun k => bool_decide (k = code)) <$> c)
  = fst <$> filter (fun p => p.2 = code) (zip a c).
Proof.
  revert c. induction a as [|r a IH]; intros [|k c]; simpl; try done.
  rewrite filter_cons. simpl.
  case_bool_decide; case_decide; try done; simpl; by rewrite IH.
Qed.

(** C8.  On the mesh of the container that [read] left in [self._dfs]
    (its node arrays of one length), [get_node_coords] without a code
    returns all (x, y, z) triples; with a code that occurs among the node
    codes it returns exactly the triples of the nodes with that code, in
    mesh order; with a code that does not occur it raises the bare
    [Exception] that stands for InvalidCode. *)
Theorem get_node_coords_filter (w : World) (dfs : DfsuFile) (code : Z) :
  (self_dfs_file w).1 = inr dfs ->
  length (NodeX dfs) = length (NodeY dfs) ->
  length (NodeY dfs) = length (NodeZ dfs) ->
  length (NodeCode dfs) = length (NodeX dfs) ->
  let nodes := zip (zip (NodeX dfs) (NodeY dfs)) (NodeZ dfs) in
  get_node_coords None w = (inr nodes, w)
  /\ (code ∈ NodeCode dfs ->
      get_node_coords (Some code) w
      = (inr (nodes_with_code code nodes (NodeCode dfs)), w))
  /\ (code ∉ NodeCode dfs ->
      (get_node_coords (Some code) w).1 = inl PyException).
Proof.
  intros Hself Hxy Hyz Hc nodes.
  pose proof (self_dfs_file_inr _ _ Hself) as Hs.
  assert (Hcs : column_stack (NodeX dfs) (NodeY dfs) (NodeZ dfs) = inr nodes).
  { unfold column_stack. by rewrite decide_True. }
  unfold get_node_coords. mred. rewrite Hs, Hcs.
  split; [done|]. split.
  - intros Hin. rewrite decide_False.
    2:{ intros Hn. apply Hn. by apply elem_of_list_to_set. }
    unfold mask_index. rewrite decide_True.
    2:{ rewrite length_fmap. unfold nodes. rewrite !length_zip. lia. }
    by rewrite select_rows_filter.
  - intros Hn. rewrite decide_True; [done|].
    intros Hin. apply Hn. by apply elem_of_list_to_set in Hin.
Qed.

(** ** The sequential write loops *)

Lemma mask_nan_idem dv d : mask_nan dv (mask_nan dv d) = mask_nan dv d.
Proof.
  unfold mask_nan. rewrite <- list_fmap_compose. apply list_fmap_ext.
  intros _ v _. simpl. destruct (np_isnan v) eqn:E; [|by rewrite E].
  by destruct (np_isnan dv) eqn:E'.
Qed.

Lemma row_of_mask_row_at dv q data item i :
  row_of (mask_row_at dv q data) item i =
  if decide (q = (i, item)) then mask_nan dv <$> row_of data item i
  else row_of data item i.
Proof.
  unfold mask_row_at, row_of. destruct q as [qi qitem]; simpl.
  destruct (data !! qitem) as [arr|] eqn:Ha.
  2:{ case_decide as E; [|done]. inversion E; subst. by rewrite Ha. }
  destruct (rows arr !! qi) as [d|] eqn:Hd.
  2:{ case_decide as E; [|done]. inversion E; subst. rewrite Ha. simpl. by rewrite Hd. }
  destruct (decide (qitem = item)) as [->|Hne].
  - rewrite list_lookup_insert_eq by (by eapply lookup_lt_Some). rewrite Ha. simpl.
    destruct (decide (qi = i)) as [->|Hni].
    + rewrite list_lookup_insert_eq by (by eapply lookup_lt_Some).
      rewrite decide_True by done. by rewrite Hd.
    + rewrite list_lookup_insert_ne by done. rewrite decide_False by congruence. done.
  - rewrite list_lookup_insert_ne by done. rewrite decide_False by congruence. done.
Qed.



Lemma row_of_masked_steps dv ps : forall data item i,
  row_of (foldl (fun d q => mask_row_at dv q d) data ps) item i =
  if decide ((i, item) ∈ ps) then mask_nan dv <$> row_of data item i
  else row_of data item i.
Proof.
  induction ps as [|q ps IH]; intros data item i; cbn [foldl].
  - case_decide as E; [|done]. by apply not_elem_of_nil in E.
  - rewrite IH, row_of_mask_row_at.
    destruct (decide ((i, item) ∈ ps)) as [Hin|Hin];
      destruct (decide (q = (i, item))) as [E|E];
      destruct (decide ((i, item) ∈ q :: ps)) as [Hc|Hc]; try done.
    + destruct (row_of data item i); simpl; [|done]. by rewrite mask_nan_idem.
    + exfalso. apply Hc, elem_of_cons. by right.
    + exfalso. apply Hc, elem_of_cons. by right.
    + exfalso. apply Hc, elem_of_cons. by left.
    + exfalso. apply elem_of_cons in Hc as [Hc|Hc]; congruence.
Qed.



Lemma drop_store (out old : list (list float)) row :
  (if decide (length out < length (out ++ drop (length out) old))
   then <[length out := row]> (out ++ drop (length out) old)
   else (out ++ drop (length out) old) ++ [row])
  = (out ++ [row]) ++ drop (length (out ++ [row])) old.
Proof.
  replace (length (out ++ [row])) with (S (length out))
    by (rewrite length_app; simpl; lia).
  destruct (drop (length out) old) as [|x rest] eqn:Hd.
  - rewrite decide_False by (rewrite length_app; simpl; lia).
    apply drop_nil_inv in Hd.
    rewrite app_nil_r, (drop_ge old) by lia. by rewrite app_nil_r.
  - rewrite decide_True by (rewrite length_app; simpl; lia).
    rewrite insert_app_r_alt by lia. rewrite Nat.sub_diag. simpl.
    rewrite <- app_assoc. simpl. do 2 f_equal.
    assert (Hl : old !! length out = Some x).
    { rewrite <- (Nat.add_0_r (length out)), <- lookup_drop, Hd. done. }
    rewrite (drop_S _ _ _ Hl) in Hd. by inversion Hd.
Qed.

Lemma get_handle_writing w0 dfs p f0 out :
  dfs < length (handles w0) ->
  get_handle dfs (writing w0 dfs p f0 out)
  = (inr (mk_Handle p (length out) true), writing w0 dfs p f0 out).
Proof.
  intros Hlt. unfold get_handle. mred. unfold writing at 1. cbn [handles with_handles].
  by rewrite list_lookup_insert_eq.
Qed.

Lemma open_handle_writing w0 dfs p f0 out :
  dfs < length (handles w0) ->
  open_handle dfs (writing w0 dfs p f0 out)
  = (inr (mk_Handle p (length out) true), writing w0 dfs p f0 out).
Proof.
  intros Hlt. unfold open_handle.
  by rewrite (bind_inr _ _ _ _ _ (get_handle_writing _ _ _ _ _ Hlt)).
Qed.

Lemma handle_file_writing w0 dfs p f0 out :
  dfs < length (handles w0) ->
  handle_file dfs (writing w0 dfs p f0 out)
  = (inr (set_ItemData f0 (out ++ drop (length out) (ItemData f0))),
     writing w0 dfs p f0 out).
Proof.
  intros Hlt. unfold handle_file.
  rewrite (bind_inr _ _ _ _ _ (get_handle_writing _ _ _ _ _ Hlt)).
  mred. unfold writing at 1. cbn [files with_handles with_files h_path].
  by rewrite lookup_insert_eq.
Qed.

Lemma WriteItemTimeStepNext_writing w0 dfs p f0 out t row :
  dfs < length (handles w0) ->
  WriteItemTimeStepNext dfs t row (writing w0 dfs p f0 out)
  = (inr tt, writing w0 dfs p f0 (out ++ [row])).
Proof.
  intros Hlt. unfold WriteItemTimeStepNext.
  rewrite (bind_inr _ _ _ _ _ (open_handle_writing _ _ _ _ _ Hlt)).
  rewrite (bind_inr _ _ _ _ _ (handle_file_writing _ _ _ _ _ Hlt)).
  mred. cbn [h_cursor h_path ItemData set_ItemData]. f_equal.
  rewrite drop_store. unfold writing, with_handles, with_files. cbn.
  rewrite list_insert_insert_eq, insert_insert_eq.
  replace (S (length out)) with (length (out ++ [row]))
    by (rewrite length_app; simpl; lia).
  reflexivity.
Qed.

Lemma Close_writing w0 dfs p f0 out :
  dfs < length (handles w0) ->
  Close dfs (writing w0 dfs p f0 out)
  = (inr tt,
     with_handles
       (with_files w0
          (<[p := set_ItemData f0 (out ++ drop (length out) (ItemData f0))]> (files w0)))
       (<[dfs := mk_Handle p (length out) false]> (handles w0))).
Proof.
  intros Hlt. unfold Close.
  rewrite (bind_inr _ _ _ _ _ (get_handle_writing _ _ _ _ _ Hlt)).
  mred. f_equal. unfold writing, with_handles, with_files. cbn.
  by rewrite list_insert_insert_eq.
Qed.

Section WriteFacts.
Variable to_single : float -> float.

Lemma write_item_time_step_writing w0 dfs p f0 out dv i item data d :
  dfs < length (handles w0) ->
  row_of data item i = Some d ->
  write_item_time_step to_single dfs dv i item data (writing w0 dfs p f0 out)
  = (inr (mask_row_at dv (i, item) data),
     writing w0 dfs p f0 (out ++ [to_single <$> mask_nan dv d])).
Proof.
  intros Hlt Hrow. unfold row_of in Hrow.
  destruct (data !! item) as [arr|] eqn:Ha; [|done]. simpl in Hrow.
  unfold write_item_time_step, py_index, mask_row_at. simpl. rewrite Ha.
  rewrite (bind_inr _ _ _ arr (writing w0 dfs p f0 out)) by done.
  rewrite Hrow.
  rewrite (bind_inr _ _ _ d (writing w0 dfs p f0 out)) by done.
  rewrite (bind_inr _ _ _ _ _ (WriteItemTimeStepNext_writing _ _ _ _ _ _ _ Hlt)).
  reflexivity.
Qed.

Lemma write_steps_writing w0 dfs p f0 dv ps : forall out data,
  dfs < length (handles w0) ->
  Forall (fun q => is_Some (row_of data q.2 q.1)) ps ->
  for_each ps (fun q => write_item_time_step to_single dfs dv q.1 q.2) data
    (writing w0 dfs p f0 out)
  = (inr (foldl (fun d q => mask_row_at dv q d) data ps),
     writing w0 dfs p f0 (out ++ (stored_row to_single dv data <$> ps))).
Proof.
  induction ps as [|q ps IH]; intros out data Hlt Hall.
  - simpl. by rewrite app_nil_r.
  - inversion Hall as [|? ? [d Hd] Hall']; subst.
    cbn [for_each foldl]. destruct q as [i item]. simpl in Hd.
    erewrite bind_inr by (by eapply write_item_time_step_writing).
    rewrite IH; [|done|].
    2:{ eapply Forall_impl; [exact Hall'|]. intros [i' item'] Hs. simpl in *.
        rewrite row_of_mask_row_at. case_decide; [|done].
        destruct Hs as [x ->]. by eexists. }
    f_equal. rewrite <- app_assoc. simpl. do 3 f_equal.
    + unfold stored_row. simpl. by rewrite Hd.
    + apply list_fmap_ext. intros _ [i' item'] _. unfold stored_row. simpl.
      rewrite row_of_mask_row_at. case_decide as E; [|done].
      inversion E; subst. rewrite Hd. simpl. by rewrite mask_nan_idem.
Qed.

Lemma write_all_writing w0 dfs p f0 dv T N data :
  dfs < length (handles w0) ->
  (forall item i, item < N -> i < T -> is_Some (row_of data item i)) ->
  write_all to_single dfs dv T N data (writing w0 dfs p f0 [])
  = (inr (masked_data dv T N data),
     writing w0 dfs p f0 (stored_row to_single dv data <$> index_pairs T N)).
Proof.
  intros Hlt Hrows. unfold write_all. rewrite for_each_nested.
  fold (index_pairs T N).
  rewrite write_steps_writing; [done|done|].
  apply Forall_forall. intros [i item] Hin.
  apply elem_of_index_pairs in Hin as [Hi Hitem]. simpl. by apply Hrows.
Qed.

End WriteFacts.

(** ** [write] and [create] on well-shaped input *)

Lemma set_ItemData_id f : set_ItemData f (ItemData f) = f.
Proof. by destruct f. Qed.

Lemma DfsuFile_Open_ok w p f :
  files w !! p = Some f ->
  DfsuFile_Open p w
  = (inr (length (handles w)),
     with_handles w (handles w ++ [mk_Handle p 0 true])).
Proof. intros Hf. unfold DfsuFile_Open. mred. by rewrite Hf. Qed.

Lemma lookup_new_handle (hs : list Handle) h : (hs ++ [h]) !! length hs = Some h.
Proof. rewrite lookup_app_r by lia. by rewrite Nat.sub_diag. Qed.

Lemma opened_writing w p f :
  files w !! p = Some f ->
  with_handles w (handles w ++ [mk_Handle p 0 true])
  = writing (with_handles w (handles w ++ [mk_Handle p 0 true]))
      (length (handles w)) p f [].
Proof.
  intros Hf. unfold writing. cbn. rewrite set_ItemData_id.
  rewrite (insert_id _ _ _ Hf).
  rewrite (list_insert_id _ _ _ (lookup_new_handle _ _)).
  by destruct w.
Qed.

Lemma insert_new_handle (hs : list Handle) h h' :
  <[length hs := h']> (hs ++ [h]) = hs ++ [h'].
Proof. rewrite insert_app_r_alt by lia. by rewrite Nat.sub_diag. Qed.

Lemma fold_AddDynamicItem (its : list ItemInfo) : forall b,
  fold_left (fun b item =>
               AddDynamicItem b (item_name item) (item_type item, item_unit item))
    its b
  = mk_DfsuBuilder (b_FileType b) (b_X b) (b_Y b) (b_Z b) (b_Code b)
      (b_ElementTable b) (b_Projection b) (b_StartDateTime b) (b_TimeStep b)
      (b_Items b ++ its).
Proof.
  induction its as [|it its IH]; intros b; simpl.
  - rewrite app_nil_r. by destruct b.
  - rewrite IH. cbn. rewrite <- app_assoc. by destruct it.
Qed.

Section WriteTheorems.
Variable to_single : float -> float.

Lemma write_ok (w : World) (filename : string) (f : DfsuFile)
  (data : list ndarray) :
  files w !! filename = Some f ->
  let T := NumberOfTimeSteps f in
  let N := length (ItemInfos f) in
  let dv := DeleteValueFloat f in
  let out := stored_row to_single dv data <$> index_pairs T N in
  (forall item i, item < N -> i < T -> is_Some (row_of data item i)) ->
  write to_single filename data w
  = (inr (masked_data dv T N data),
     closed_after w filename
       (set_ItemData f (out ++ drop (length out) (ItemData f))) (length out)).
Proof.
  intros Hf T N dv out Hrows. unfold write, DfsGenericOpenEdit.
  erewrite bind_inr by (by eapply DfsuFile_Open_ok).
  rewrite (opened_writing _ _ _ Hf).
  set (w1 := with_handles w _).
  assert (Hlt : length (handles w) < length (handles w1)).
  { unfold w1. cbn. rewrite length_app. simpl. lia. }
  erewrite bind_inr by (by eapply handle_file_writing).
  cbn [app drop length]. rewrite set_ItemData_id.
  erewrite bind_inr by (by eapply write_all_writing).
  erewrite bind_inr by (by eapply Close_writing).
  mred. f_equal. fold out. unfold w1, closed_after, with_files, with_handles.
  cbn. by rewrite insert_new_handle.
Qed.

Lemma create_ok (w : World) (meshfilename filename : string)
  (mesh : MeshFile) (data : list ndarray) (data0 : ndarray)
  (start_time : option R) (dt : R) (timeseries_unit : TimeStep)
  (items : option (list ItemInfo)) (title : option string) :
  meshfiles w !! meshfilename = Some mesh ->
  filename ∉ unwritable w ->
  data !! 0 = Some data0 ->
  let T := fst (shape data0) in
  let N := length data in
  let dv := provider_delete_value w in
  let out := stored_row to_single dv data <$> index_pairs T N in
  (forall item i, item < N -> i < T -> is_Some (row_of data item i)) ->
  create to_single meshfilename filename data start_time dt timeseries_unit
    items title w
  = (inr (masked_data dv T N data),
     closed_after w filename
       (set_ItemData
          (created_file mesh (default (clock w) start_time) dt
             (default (default_items N) items) dv)
          out)
       (length out)).
Proof.
  intros Hm Hw H0 T N dv out Hrows. unfold create.
  unfold py_index at 1. rewrite H0.
  erewrite (bind_inr (lift (inr data0))) by reflexivity.
  erewrite (bind_inr get_world) by reflexivity.
  erewrite (bind_inr (MeshFile_ReadMesh meshfilename)).
  2:{ unfold MeshFile_ReadMesh. mred. by rewrite Hm. }
  rewrite fold_AddDynamicItem. cbn [b_FileType b_X b_Y b_Z b_Code b_ElementTable
    b_Projection b_StartDateTime b_TimeStep b_Items DfsuBuilder_Create SetNodes
    SetElements SetProjection SetTimeInfo app].
  set (b := mk_DfsuBuilder _ _ _ _ _ _ _ _ _ _).
  set (f0 := built_file b dv).
  set (w1 := with_handles (with_files w (<[filename := f0]> (files w)))
               (handles w ++ [mk_Handle filename 0 true])).
  erewrite (bind_inr (try_except _ _ _) _ _ (Some (length (handles w))) w1).
  2:{ unfold try_except, CreateFile, alloc_handle. mred.
      rewrite decide_False by done. reflexivity. }
  erewrite (bind_inr (mret (length (handles w)))) by reflexivity.
  assert (Hf1 : files w1 !! filename = Some f0).
  { unfold w1. cbn. apply lookup_insert_eq. }
  assert (Hlt : length (handles w) < length (handles w1)).
  { unfold w1. cbn. rewrite length_app. simpl. lia. }
  replace w1 with (writing w1 (length (handles w)) filename f0 []).
  2:{ unfold writing. cbn [app drop length]. unfold f0 at 1. cbn [ItemData built_file].
      fold (ItemData f0). rewrite set_ItemData_id, (insert_id _ _ _ Hf1).
      unfold w1, with_handles, with_files. cbn.
      by rewrite insert_new_handle. }
  erewrite bind_inr by (by eapply handle_file_writing).
  cbn [app drop length]. rewrite set_ItemData_id.
  erewrite bind_inr by (by eapply write_all_writing).
  erewrite bind_inr by (by eapply Close_writing).
  mred. f_equal. fold out. unfold w1, closed_after, with_files, with_handles.
  cbn. rewrite insert_insert_eq, insert_new_handle.
  unfold f0, built_file, created_file, set_ItemData, b. cbn.
  rewrite drop_nil, app_nil_r.
  destruct items, start_time; reflexivity.
Qed.

End WriteTheorems.

(** ** What a normal return of [write] and [create] implies *)


Section WriteInversion.
Variable to_single : float -> float.

Lemma write_item_time_step_no_row dfs dv i item data w :
  row_of data item i = None ->
  write_item_time_step to_single dfs dv i item data w = (inl IndexError, w).
Proof.
  intros Hrow. unfold write_item_time_step, py_index, row_of in *.
  destruct (data !! item) as [arr|]; [|done]. simpl in Hrow.
  erewrite (bind_inr (lift (inr arr))) by reflexivity. by rewrite Hrow.
Qed.

Lemma write_steps_rows w0 dfs p f0 dv ps : forall out data data' w',
  dfs < length (handles w0) ->
  for_each ps (fun q => write_item_time_step to_single dfs dv q.1 q.2) data
    (writing w0 dfs p f0 out) = (inr data', w') ->
  Forall (fun q => is_Some (row_of data q.2 q.1)) ps.
Proof.
  induction ps as [|[i item] ps IH]; intros out data data' w' Hlt Hrun; [done|].
  cbn [for_each] in Hrun. simpl in Hrun.
  destruct (row_of data item i) as [d|] eqn:Hd.
  2:{ erewrite bind_inl in Hrun by (by eapply write_item_time_step_no_row). done. }
  erewrite bind_inr in Hrun by (by eapply write_item_time_step_writing).
  apply IH in Hrun; [|done]. constructor; [simpl; rewrite Hd; by eexists|].
  eapply Forall_impl; [exact Hrun|]. intros [i' item'] Hs. simpl in *.
  rewrite row_of_mask_row_at in Hs. case_decide; [|done].
  destruct (row_of data item' i'); [by eexists|]. by destruct Hs.
Qed.

Lemma write_all_rows w0 dfs p f0 dv T N data data' w' :
  dfs < length (handles w0) ->
  write_all to_single dfs dv T N data (writing w0 dfs p f0 []) = (inr data', w') ->
  forall item i, item < N -> i < T -> is_Some (row_of data item i).
Proof.
  intros Hlt Hrun item i Hitem Hi. unfold write_all in Hrun.
  rewrite for_each_nested in Hrun. apply write_steps_rows in Hrun; [|done].
  rewrite Forall_forall in Hrun.
  apply (Hrun (i, item)). by apply elem_of_index_pairs.
Qed.


Lemma create_inv (w : World) (meshfilename filename : string)
  (data data' : list ndarray) (start_time : option R) (dt : R)
  (timeseries_unit : TimeStep) (items : option (list ItemInfo))
  (title : option string) w' :
  create to_single meshfilename filename data start_time dt timeseries_unit
    items title w = (inr data', w') ->
  exists mesh data0,
    meshfiles w !! meshfilename = Some mesh
    /\ (filename ∉ unwritable w)
    /\ data !! 0 = Some data0
    /\ (forall item i, item < length data -> i < fst (shape data0) ->
          is_Some (row_of data item i)).
Proof.
  intros Hrun. unfold create in Hrun.
  destruct (data !! 0) as [data0|] eqn:H0.
  2:{ unfold py_index in Hrun. rewrite H0 in Hrun. by mred in Hrun. }
  unfold py_index at 1 in Hrun. rewrite H0 in Hrun.
  erewrite (bind_inr (lift (inr data0))) in Hrun by reflexivity.
  erewrite (bind_inr get_world) in Hrun by reflexivity.
  destruct (meshfiles w !! meshfilename) as [mesh|] eqn:Hm.
  2:{ erewrite (bind_inl (MeshFile_ReadMesh meshfilename)) in Hrun; [done|].
      unfold MeshFile_ReadMesh. mred. by rewrite Hm. }
  erewrite (bind_inr (MeshFile_ReadMesh meshfilename)) in Hrun.
  2:{ unfold MeshFile_ReadMesh. mred. by rewrite Hm. }
  destruct (decide (filename ∈ unwritable w)) as [Hin|Hw].
  { erewrite (bind_inr (try_except _ _ _) _ _ None) in Hrun.
    2:{ unfold try_except, CreateFile, print2. mred.
        rewrite decide_True by done. rewrite decide_True by done. reflexivity. }
    by mred in Hrun. }
  exists mesh, data0. do 3 (split; [done|]).
  rewrite fold_AddDynamicItem in Hrun.
  set (b := mk_DfsuBuilder _ _ _ _ _ _ _ _ _ _) in Hrun.
  set (f0 := built_file b (provider_delete_value w)).
  set (w1 := with_handles (with_files w (<[filename := f0]> (files w)))
               (handles w ++ [mk_Handle filename 0 true])).
  erewrite (bind_inr (try_except _ _ _) _ _ (Some (length (handles w))) w1) in Hrun.
  2:{ unfold try_except, CreateFile, alloc_handle. mred.
      rewrite decide_False by done. reflexivity. }
  erewrite (bind_inr (mret (length (handles w)))) in Hrun by reflexivity.
  assert (Hf1 : files w1 !! filename = Some f0).
  { unfold w1. cbn. apply lookup_insert_eq. }
  assert (Hlt : length (handles w) < length (handles w1)).
  { unfold w1. cbn. rewrite length_app. simpl. lia. }
  replace w1 with (writing w1 (length (handles w)) filename f0 []) in Hrun.
  2:{ unfold writing. cbn [app drop length]. unfold f0 at 1. cbn [ItemData built_file].
      fold (ItemData f0). rewrite set_ItemData_id, (insert_id _ _ _ Hf1).
      unfold w1, with_handles, with_files. cbn.
      by rewrite insert_new_handle. }
  erewrite bind_inr in Hrun by (by eapply handle_file_writing).
  cbn [app drop length] in Hrun. rewrite set_ItemData_id in Hrun.
  destruct (write_all to_single (length (handles w)) (DeleteValueFloat f0)
              (shape data0).1 (length data) data
              (writing w1 (length (handles w)) filename f0 []))
    as [[e'|d1] w2] eqn:Hall.
  { erewrite bind_inl in Hrun by exact Hall. done. }
  by eapply write_all_rows.
Qed.

End WriteInversion.


Section WriteClaims.
Variable to_single : float -> float.


(** C4 (what the code does).  When the target cannot be opened for
    writing, [create] catches the provider's [IOError], prints a message
    and goes on to read [dfs.DeleteValueFloat] with [dfs] unbound: the
    caller gets [UnboundLocalError], and nothing but standard output has
    changed. *)
Theorem create_unwritable_target (w : World) (meshfilename filename : string)
  (mesh : MeshFile) (data : list ndarray) (data0 : ndarray)
  (start_time : option R) (dt : R) (timeseries_unit : TimeStep)
  (items : option (list ItemInfo)) (title : option string) :
  data !! 0 = Some data0 ->
  meshfiles w !! meshfilename = Some mesh ->
  filename ∈ unwritable w ->
  create to_single meshfilename filename data start_time dt timeseries_unit
    items title w
  = (inl UnboundLocalError,
     with_stdout w (stdout w ++ ["cannot create dfsu file: " +:+ " " +:+ filename])).
Proof.
  intros H0 Hm Hin. unfold create, py_index at 1. rewrite H0.
  erewrite (bind_inr (lift (inr data0))) by reflexivity.
  erewrite (bind_inr get_world) by reflexivity.
  erewrite (bind_inr (MeshFile_ReadMesh meshfilename)).
  2:{ unfold MeshFile_ReadMesh. mred. by rewrite Hm. }
  erewrite (bind_inr (try_except _ _ _) _ _ None).
  2:{ unfold try_except, CreateFile, print2. mred.
      rewrite decide_True by done. rewrite decide_True by done. reflexivity. }
  reflexivity.
Qed.

(** C5 (what the code does).  With [items] omitted, the container that
    [create] builds declares one item per data array, of undefined type
    and unit, and names the k-th of them "temItem k", not "Item k". *)
Theorem create_default_item_names (w : World) (meshfilename filename : string)
  (data data' : list ndarray) (start_time : option R) (dt : R)
  (timeseries_unit : TimeStep) (title : option string) (w' : World) :
  create to_single meshfilename filename data start_time dt timeseries_unit
    None title w = (inr data', w') ->
  exists f',
    files w' !! filename = Some f'
    /\ length (ItemInfos f') = length data
    /\ forall k, k < length data ->
         ItemInfos f' !! k
         = Some (mk_ItemInfo ("temItem " +:+ pretty (k + 1))
                   eumIItemUndefined eumUUnitUndefined)
         /\ ItemInfos f' !! k
            <> Some (mk_ItemInfo ("Item " +:+ pretty (k + 1))
                       eumIItemUndefined eumUUnitUndefined).
Proof.
  intros Hrun.
  destruct (create_inv _ _ _ _ _ _ _ _ _ _ _ _ Hrun)
    as (mesh & data0 & Hm & Hw & H0 & Hrows).
  rewrite (create_ok _ _ _ _ _ _ _ _ _ _ _ _ Hm Hw H0 Hrows) in Hrun.
  inversion Hrun; subst. eexists. split.
  { unfold closed_after. cbn. apply lookup_insert_eq. }
  cbn. unfold default_items. split; [by rewrite length_fmap, length_seq|].
  intros k Hk. rewrite list_lookup_fmap, lookup_seq_lt by done. cbn.
  split; [done|]. intros E. inversion E.
Qed.


End WriteClaims.

(** ** [read]: the world it leaves and the shape of what it returns *)

Lemma bind_inv {A B} (m : M A) (k : A -> M B) w b w' :
  (m ≫= k) w = (inr b, w') ->
  exists a w1, m w = (inr a, w1) /\ k a w1 = (inr b, w').
Proof.
  mred. destruct (m w) as [[e|a] w1]; [done|]. intros H. by exists a, w1.
Qed.

Lemma for_each_world {A S} (l : list A) (body : A -> S -> M S) w :
  (forall a s, (body a s w).2 = w) ->
  forall s, (for_each l body s w).2 = w.
Proof.
  intros Hbody. induction l as [|a l IH]; intros s; [done|].
  cbn [for_each]. mred. specialize (Hbody a s).
  destruct (body a s w) as [[e|s'] w1]; simpl in Hbody; subst w1; [done|].
  apply IH.
Qed.

Lemma for_each_preserves {A S} (P : S -> Prop) (l : list A)
  (body : A -> S -> M S) :
  (forall a s w s' w', P s -> body a s w = (inr s', w') -> P s') ->
  forall s w s' w', P s -> for_each l body s w = (inr s', w') -> P s'.
Proof.
  intros Hbody. induction l as [|a l IH]; intros s w s' w' Hs Hrun.
  - cbn in Hrun. by inversion Hrun; subst.
  - cbn [for_each] in Hrun. apply bind_inv in Hrun as (s1 & w1 & Ha & Hrest).
    eapply IH; [|exact Hrest]. by eapply Hbody.
Qed.

Lemma get_handle_world dfs w : (get_handle dfs w).2 = w.
Proof. unfold get_handle. mred. by destruct (handles w !! dfs). Qed.

Lemma handle_file_world dfs w : (handle_file dfs w).2 = w.
Proof.
  unfold handle_file, get_handle. mred.
  destruct (handles w !! dfs) as [h|]; [|done].
  by destruct (files w !! h_path h).
Qed.

Lemma ReadItemTimeStep_world dfs n t w : (ReadItemTimeStep dfs n t w).2 = w.
Proof.
  unfold ReadItemTimeStep, open_handle, handle_file, get_handle. mred.
  destruct (handles w !! dfs) as [h|]; [|done].
  destruct (h_open h); [|done]. cbn.
  destruct (handles w !! dfs) as [h'|]; [|done].
  destruct (files w !! h_path h') as [f|]; [|done].
  case_decide; [|done].
  by destruct (ItemData f !! _).
Qed.

Section ReadWorld.
Variable of_single : float -> float.
Variable uninit : float.

Lemma read_item_time_step_world dfs nums off dv i it item st w :
  (read_item_time_step of_single dfs nums off dv i it item st w).2 = w.
Proof.
  unfold read_item_time_step. mred.
  destruct (py_index nums item) as [e|n]; [done|].
  pose proof (ReadItemTimeStep_world dfs (n + off + 1) it w) as Hw.
  destruct (ReadItemTimeStep dfs (n + off + 1) it w) as [[e|d] w1];
    simpl in Hw; subst w1; [done|].
  destruct (py_index st.1 item) as [e|arr]; [done|].
  by destruct (set_row arr i _).
Qed.

Lemma read_time_step_world dfs nums off dv ts n i st w :
  (read_time_step of_single dfs nums off dv ts n i st w).2 = w.
Proof.
  unfold read_time_step. destruct st as [[data_list t_seconds] itemdata]. mred.
  destruct (py_index ts i) as [e|it]; [done|].
  pose proof (for_each_world (py_range n)
                (read_item_time_step of_single dfs nums off dv i it) w
                (fun a s => read_item_time_step_world _ _ _ _ _ _ a s w)
                (data_list, itemdata)) as Hw.
  destruct (for_each _ _ _ w) as [[e|st'] w1]; simpl in Hw; subst w1; [done|].
  by destruct st'.2.
Qed.

End ReadWorld.

Lemma read_selection_range f ins inames ts off n nums tsl :
  read_selection f ins inames ts = inr (off, n, nums, tsl) ->
  py_range n = seq 0 (length nums).
Proof.
  unfold read_selection.
  destruct (decide (FileType f = Dfsu3DSigma ∨ FileType f = Dfsu3DSigmaZ));
    destruct inames as [names|]; cbn;
    try destruct (find_item f names) as [e|ns]; cbn; try done;
    try destruct ins as [l|]; cbn; intros H; inversion H; subst;
    unfold py_range; by rewrite ?length_fmap, ?length_seq, ?Nat2Z.id.
Qed.

Lemma handle_file_reading w p f :
  files w !! p = Some f ->
  handle_file (length (handles w)) (reading w p) = (inr f, reading w p).
Proof.
  intros Hf. unfold handle_file, get_handle. mred. cbn.
  rewrite lookup_new_handle. cbn. by rewrite Hf.
Qed.

Lemma Close_reading w p :
  Close (length (handles w)) (reading w p) = (inr tt, read_done w p).
Proof.
  unfold Close, get_handle. mred. cbn. rewrite lookup_new_handle. cbn.
  unfold read_done, with_self_dfs, with_handles. cbn.
  by rewrite insert_new_handle.
Qed.

Section ReadRun.
Variable of_single : float -> float.
Variable uninit : float.

(** [read] as three stages in the world [reading w filename]: the
    selection, the loops and the item metadata, then [Close]. *)
Lemma read_unfold (w : World) (filename : string) (f : DfsuFile)
  (item_numbers : option (list Z)) (item_names : option (list string))
  (time_steps : option (list Z)) :
  files w !! filename = Some f ->
  read of_single uninit filename item_numbers item_names time_steps w =
  match read_selection f item_numbers item_names time_steps with
  | inl e => (inl e, reading w filename)
  | inr (off, n, nums, tsl) =>
      match for_each (py_range (Z.of_nat (length tsl)))
              (read_time_step of_single (length (handles w)) nums off
                 (DeleteValueFloat f) tsl n)
              ((fun _ => np_ndarray uninit (length tsl, NumberOfElements f))
                 <$> py_range n,
               np_zeros (length tsl), None)
              (reading w filename) with
      | (inl e, w2) => (inl e, w2)
      | (inr (data_list, t_seconds, _), w2) =>
          match get_item_info f nums with
          | inl e => (inl e, w2)
          | inr its =>
              match Close (length (handles w)) w2 with
              | (inl e, w3) => (inl e, w3)
              | (inr _, w3) =>
                  (inr (mk_Dataset data_list
                          ((fun tsec => (StartDateTime f + tsec)%R) <$> t_seconds)
                          its), w3)
              end
          end
      end
  end.
Proof.
  intros Hf. unfold read.
  erewrite bind_inr by (by eapply DfsuFile_Open_ok).
  erewrite (bind_inr get_world) by reflexivity.
  erewrite (bind_inr (put_world _)) by reflexivity.
  fold (reading w filename).
  erewrite bind_inr by (by eapply handle_file_reading).
  unfold read_selection, safe_length.
  destruct (decide (FileType f = Dfsu3DSigma ∨ FileType f = Dfsu3DSigmaZ));
    destruct item_names as [names|]; cbn;
    try destruct (find_item f names) as [e|ns]; cbn; try reflexivity;
    try destruct item_numbers as [l|]; cbn;
    mred;
    repeat match goal with
    | |- context [for_each ?l ?b ?s ?w] =>
        destruct (for_each l b s w) as [[?|[[? ?] ?]] ?]
    | |- context [get_item_info ?f ?l] => destruct (get_item_info f l)
    | |- context [handles ?w !! ?d] => destruct (handles w !! d)
    end; try reflexivity.
Qed.

End ReadRun.

(** ** Handles across normal and exceptional returns *)

Section HandleFacts.
Variable to_single : float -> float.
Variable of_single : float -> float.
Variable uninit : float.

Lemma read_world (w : World) (filename : string) (f : DfsuFile)
  ins inames ts r w' :
  files w !! filename = Some f ->
  read of_single uninit filename ins inames ts w = (r, w') ->
  w' = if raised r then reading w filename else read_done w filename.
Proof.
  intros Hf. rewrite (read_unfold _ _ _ _ _ _ _ _ Hf).
  destruct (read_selection f ins inames ts) as [e|[[[off n] nums] tsl]].
  { intros H. by inversion H. }
  pose proof (for_each_world (py_range (Z.of_nat (length tsl)))
                (read_time_step of_single (length (handles w)) nums off
                   (DeleteValueFloat f) tsl n)
                (reading w filename)
                (fun a s => read_time_step_world _ _ _ _ _ _ _ a s _)) as Hw.
  match goal with |- context [for_each ?l ?b ?s ?w0] =>
    specialize (Hw s); destruct (for_each l b s w0) as [[e|[[dl tsec] idata]] w2]
  end; simpl in Hw; subst w2.
  { intros H. by inversion H. }
  destruct (get_item_info f nums) as [e|its].
  { intros H. by inversion H. }
  rewrite Close_reading. intros H. by inversion H.
Qed.

Lemma write_steps_world w0 dfs p f0 dv ps : forall out data r w',
  dfs < length (handles w0) ->
  for_each ps (fun q => write_item_time_step to_single dfs dv q.1 q.2) data
    (writing w0 dfs p f0 out) = (r, w') ->
  exists out', w' = writing w0 dfs p f0 out'.
Proof.
  induction ps as [|[i item] ps IH]; intros out data r w' Hlt Hrun.
  - cbn in Hrun. inversion Hrun. by exists out.
  - cbn [for_each] in Hrun. simpl in Hrun.
    destruct (row_of data item i) as [d|] eqn:Hd.
    + erewrite bind_inr in Hrun by (by eapply write_item_time_step_writing).
      by eapply IH.
    + erewrite bind_inl in Hrun by (by eapply write_item_time_step_no_row).
      inversion Hrun. by exists out.
Qed.







End HandleFacts.

(** ** The shape of a Dataset *)

Lemma set_row_shape a i d a' :
  set_row a i d = inr a' ->
  shape a' = shape a /\ (wf_ndarray a -> wf_ndarray a').
Proof.
  unfold set_row, wf_ndarray. case_decide as Hi; [|done].
  case_decide as Hd.
  - intros H. inversion H; subst; cbn. split; [done|]. intros [Hl Hall].
    split; [by rewrite length_insert|]. by apply Forall_insert.
  - destruct d as [|v [|v' d]]; try done.
    intros H. inversion H; subst; cbn. split; [done|]. intros [Hl Hall].
    split; [by rewrite length_insert|].
    apply Forall_insert; [done|]. by rewrite length_replicate.
Qed.

Lemma np_ndarray_wf uninit shp : wf_ndarray (np_ndarray uninit shp).
Proof.
  unfold wf_ndarray, np_ndarray. cbn. split; [by rewrite length_replicate|].
  apply Forall_replicate. by rewrite length_replicate.
Qed.

Lemma get_item_info_length f nums its :
  get_item_info f nums = inr its -> length its = length nums.
Proof.
  revert its. induction nums as [|n nums IH]; intros its; cbn.
  - intros H. by inversion H.
  - case_decide; [|done].
    destruct (py_index (ItemInfos f) (Z.to_nat n)) as [e|it]; [done|].
    destruct (get_item_info f nums) as [e|its']; [done|].
    intros E. inversion E; subst. cbn. f_equal. by apply IH.
Qed.

Lemma read_selection_time_steps f ins inames ts off n nums tsl :
  read_selection f ins inames ts = inr (off, n, nums, tsl) ->
  length tsl = match ts with
               | Some l => length l
               | None => NumberOfTimeSteps f
               end.
Proof.
  unfold read_selection.
  destruct (decide (FileType f = Dfsu3DSigma ∨ FileType f = Dfsu3DSigmaZ));
    destruct inames as [names|]; cbn;
    try destruct (find_item f names) as [e|ns]; cbn; try done;
    try destruct ins as [l|]; cbn; intros H; inversion H; subst;
    destruct ts; try done;
    unfold py_range; by rewrite length_fmap, length_seq, Nat2Z.id.
Qed.

Section ReadShape.
Variable of_single : float -> float.
Variable uninit : float.

Lemma read_item_time_step_shaped n T E dfs nums off dv i it item st w st' w' :
  arrays_shaped n T E st.1 ->
  read_item_time_step of_single dfs nums off dv i it item st w = (inr st', w') ->
  arrays_shaped n T E st'.1.
Proof.
  intros [Hlen Hall] Hrun. unfold read_item_time_step in Hrun.
  apply bind_inv in Hrun as (k & w1 & _ & Hrun).
  apply bind_inv in Hrun as (idata & w2 & _ & Hrun).
  apply bind_inv in Hrun as (arr & w3 & Harr & Hrun).
  apply bind_inv in Hrun as (arr' & w4 & Hset & Hrun).
  inversion Hrun; subst; cbn.
  unfold lift, py_index in Harr.
  destruct (st.1 !! item) as [a|] eqn:Ha; [|done]. inversion Harr; subst.
  unfold lift in Hset.
  destruct (set_row arr i _) as [e|a'] eqn:Hs; [done|]. inversion Hset; subst.
  apply set_row_shape in Hs as [Hshape Hwf].
  split; [by rewrite length_insert|].
  apply Forall_insert; [done|].
  rewrite Forall_forall in Hall.
  destruct (Hall arr) as [Hsa Hwa]; [by eapply list_elem_of_lookup_2|].
  split; [congruence|by apply Hwf].
Qed.

Lemma read_time_step_shaped n T E dfs nums off dv ts k i st w st' w' :
  arrays_shaped n T E st.1.1 /\ length st.1.2 = T ->
  read_time_step of_single dfs nums off dv ts k i st w = (inr st', w') ->
  arrays_shaped n T E st'.1.1 /\ length st'.1.2 = T.
Proof.
  destruct st as [[dl tsec] idata]. cbn. intros [Hsh Ht] Hrun.
  unfold read_time_step in Hrun.
  apply bind_inv in Hrun as (it & w1 & _ & Hrun).
  apply bind_inv in Hrun as (st1 & w2 & Hin & Hrun).
  eapply (for_each_preserves (fun s => arrays_shaped n T E s.1)) in Hin.
  2:{ intros a s w0 s' w0' Hs Hb. by eapply read_item_time_step_shaped. }
  2:{ done. }
  destruct st1.2; [|done]. inversion Hrun; subst; cbn.
  split; [done|]. by rewrite length_insert.
Qed.

(** C9.  Whenever [read] returns a Dataset, the Dataset has as many item
    descriptors as data arrays, as many time stamps as selected time
    steps, and every data array has the shape (number of time stamps,
    element count of the container), with rows to match. *)
Theorem read_shape (w : World) (filename : string)
  (item_numbers : option (list Z)) (item_names : option (list string))
  (time_steps : option (list Z)) (ds : Dataset) (w' : World) :
  read of_single uninit filename item_numbers item_names time_steps w
  = (inr ds, w') ->
  exists f,
    files w !! filename = Some f
    /\ length (items ds) = length (data ds)
    /\ length (time ds) = match time_steps with
                          | Some l => length l
                          | None => NumberOfTimeSteps f
                          end
    /\ Forall (fun a => shape a = (length (time ds), NumberOfElements f)
                        /\ wf_ndarray a) (data ds).
Proof.
  intros Hrun. destruct (files w !! filename) as [f|] eqn:Hf.
  2:{ unfold read, DfsuFile_Open in Hrun. mred in Hrun. by rewrite Hf in Hrun. }
  exists f. split; [done|].
  rewrite (read_unfold _ _ _ _ _ _ _ _ Hf) in Hrun.
  destruct (read_selection f item_numbers item_names time_steps)
    as [e|[[[off n] nums] tsl]] eqn:Hsel; [done|].
  pose proof (read_selection_range _ _ _ _ _ _ _ _ Hsel) as Hrange.
  pose proof (read_selection_time_steps _ _ _ _ _ _ _ _ Hsel) as Hts.
  match type of Hrun with context [for_each ?l ?b ?s ?w0] =>
    destruct (for_each l b s w0) as [[e|[[dl tsec] idata]] w2] eqn:Hloop
  end; [done|].
  eapply (for_each_preserves
            (fun s => arrays_shaped (length nums) (length tsl)
                        (NumberOfElements f) s.1.1 /\ length s.1.2 = length tsl))
    in Hloop.
  2:{ intros a s w0 s' w0' Hs Hb. by eapply read_time_step_shaped. }
  2:{ cbn. split; [|unfold np_zeros; by rewrite length_replicate]. split.
      - by rewrite length_fmap, Hrange, length_seq.
      - apply Forall_fmap, Forall_forall. intros x _. cbn.
        split; [done|apply np_ndarray_wf]. }
  cbn in Hloop. destruct Hloop as [[Hlen Hall] Htsec].
  destruct (get_item_info f nums) as [e|its] eqn:Hits; [done|].
  apply get_item_info_length in Hits.
  destruct (Close _ w2) as [[e|u] w3]; [done|].
  inversion Hrun; subst; cbn. rewrite length_fmap, Htsec.
  split; [congruence|]. split; [done|done].
Qed.

End ReadShape.

(** ** The content of a Dataset *)

Lemma for_each_total {A St} (I : nat -> St -> Prop) (l : list A)
  (body : A -> St -> M St) (w : World) :
  (forall k a s, l !! k = Some a -> I k s ->
     exists s', body a s w = (inr s', w) /\ I (S k) s') ->
  forall s, I 0 s ->
  exists s', for_each l body s w = (inr s', w) /\ I (length l) s'.
Proof.
  revert I. induction l as [|a l IH]; intros I Hbody s Hs.
  - exists s. by split.
  - destruct (Hbody 0 a s eq_refl Hs) as (s1 & Hrun & Hs1).
    destruct (IH (fun k => I (S k))) with (s := s1) as (s' & Hrest & Hs').
    + intros k b s0 Hk Hk'. by apply (Hbody (S k)).
    + done.
    + exists s'. split; [|done]. cbn [for_each].
      by erewrite bind_inr by exact Hrun.
Qed.

Lemma stored_row_exists f t j :
  t < NumberOfTimeSteps f -> j < length (ItemInfos f) ->
  is_Some (ItemData f !! (t * length (ItemInfos f) + j)).
Proof.
  unfold NumberOfTimeSteps. intros Ht Hj. apply lookup_lt_is_Some.
  set (N := length (ItemInfos f)) in *. set (L := length (ItemData f)) in *.
  assert (N * (L / N) <= L) by (apply Nat.Div0.mul_div_le).
  nia.
Qed.

Lemma ReadItemTimeStep_reading w p f k t row :
  files w !! p = Some f ->
  (1 <= k <= Z.of_nat (length (ItemInfos f)))%Z ->
  (0 <= t < Z.of_nat (NumberOfTimeSteps f))%Z ->
  ItemData f !! (Z.to_nat t * length (ItemInfos f) + Z.to_nat (k - 1)) = Some row ->
  ReadItemTimeStep (length (handles w)) k t (reading w p)
  = (inr (mk_ItemTimeStepData (INR (Z.to_nat t) * TimeStepSeconds f)%R row),
     reading w p).
Proof.
  intros Hf Hk Ht Hrow. unfold ReadItemTimeStep.
  erewrite (bind_inr (open_handle _)).
  2:{ unfold open_handle, get_handle. mred. cbn. rewrite lookup_new_handle.
      reflexivity. }
  erewrite bind_inr by (by eapply handle_file_reading).
  rewrite decide_True by done. by rewrite Hrow.
Qed.

Lemma length_read_row of_single dv row :
  length (read_row of_single dv row) = length row.
Proof. unfold read_row, mask_delete_value. by rewrite !length_fmap. Qed.

Section ReadContent.
Variable of_single : float -> float.
Variable uninit : float.

Lemma rows_read_next_row f off nums ts i dl :
  rows_read of_single f off nums ts i (length nums) dl -> rows_read of_single f off nums ts (S i) 0 dl.
Proof.
  intros [Hlen Hall]. split; [done|]. intros item Hitem.
  destruct (Hall item Hitem) as (arr & Ha & Hs & Hl & Hrows).
  exists arr. do 3 (split; [done|]). intros i' Hi' Hlt. apply Hrows; [|done].
  destruct Hi' as [Hi'|[_ Hi']]; [|lia].
  destruct (decide (i' = i)); [by right|left; lia].
Qed.

Lemma selected_row_valid f off nums ts item i n t :
  valid_selection f off nums ts ->
  nums !! item = Some n -> ts !! i = Some t ->
  exists row,
    selected_row f off nums ts item i = Some row
    /\ ItemData f !! (Z.to_nat t * length (ItemInfos f) + Z.to_nat (n + off))
       = Some row
    /\ length row = NumberOfElements f.
Proof.
  intros (Hn & Ht & Hlen & _) Hnum Hts.
  specialize (Hn _ _ Hnum). specialize (Ht _ _ Hts).
  destruct (stored_row_exists f (Z.to_nat t) (Z.to_nat (n + off))) as [row Hrow];
    [lia|lia|].
  assert (Hsel : selected_row f off nums ts item i = Some row).
  { unfold selected_row. rewrite Hnum. cbn. rewrite Hts. cbn. exact Hrow. }
  exists row. split; [done|]. split; [done|]. by eapply Hlen.
Qed.

Lemma read_item_time_step_ok w p f off nums ts i t item n dl idata :
  files w !! p = Some f ->
  valid_selection f off nums ts ->
  ts !! i = Some t -> nums !! item = Some n ->
  rows_read of_single f off nums ts i item dl ->
  exists st',
    read_item_time_step of_single (length (handles w)) nums off
      (DeleteValueFloat f) i t item (dl, idata) (reading w p)
    = (inr st', reading w p)
    /\ rows_read of_single f off nums ts i (S item) st'.1
    /\ is_Some st'.2.
Proof.
  intros Hf Hvalid Hts Hnum [Hlen Hall].
  destruct (selected_row_valid _ _ _ _ _ _ _ _ Hvalid Hnum Hts)
    as (row & Hsel & Hrow & Hrl).
  pose proof Hvalid as (Hn & Ht & _ & _).
  specialize (Hn _ _ Hnum). specialize (Ht _ _ Hts).
  assert (Hitem : item < length nums) by (by eapply lookup_lt_Some).
  assert (Hi : i < length ts) by (by eapply lookup_lt_Some).
  destruct (Hall item Hitem) as (arr & Ha & Hs & Hl & Hrows).
  assert (Hpn : py_index nums item = inr n) by (unfold py_index; by rewrite Hnum).
  assert (Hpa : py_index dl item = inr arr) by (unfold py_index; by rewrite Ha).
  unfold read_item_time_step. cbn [fst]. rewrite Hpn, Hpa.
  erewrite (bind_inr (lift (inr n))) by reflexivity.
  erewrite bind_inr.
  2:{ apply ReadItemTimeStep_reading with (row := row); [done|lia|done|].
      by replace (n + off + 1 - 1)%Z with (n + off)%Z by lia. }
  cbn [Data].
  erewrite (bind_inr (lift (inr arr))) by reflexivity.
  unfold to_numpy.
  fold (read_row of_single (DeleteValueFloat f) row).
  unfold set_row. rewrite Hs. cbn [fst snd].
  rewrite decide_True by done.
  rewrite decide_True by (by rewrite length_read_row).
  erewrite (bind_inr (lift (inr _))) by reflexivity.
  eexists. split; [reflexivity|]. cbn [fst snd]. split; [|by eexists].
  split; [by rewrite length_insert|].
  intros item' Hitem'. destruct (decide (item' = item)) as [->|Hne].
  - eexists. rewrite list_lookup_insert_eq by lia.
    split; [reflexivity|]. cbn. split; [done|].
    split; [by rewrite length_insert|].
    intros i' Hi' Hlt. destruct (decide (i' = i)) as [->|Hni].
    + rewrite list_lookup_insert_eq by lia. by rewrite Hsel.
    + rewrite list_lookup_insert_ne by done. apply Hrows; [|done].
      destruct Hi' as [Hi'|[Hi' _]]; [by left|done].
  - destruct (Hall item' Hitem') as (arr' & Ha' & Hs' & Hl' & Hrows').
    exists arr'. rewrite list_lookup_insert_ne by done.
    do 3 (split; [done|]). intros i' Hi' Hlt. apply Hrows'; [|done].
    destruct Hi' as [Hi'|[Hi' Hk]]; [by left|right; split; [done|lia]].
Qed.

Lemma read_time_step_ok w p f off nums ts i n dl tsec idata :
  files w !! p = Some f ->
  valid_selection f off nums ts ->
  py_range n = seq 0 (length nums) ->
  i < length ts ->
  rows_read of_single f off nums ts i 0 dl ->
  length tsec = length ts ->
  exists st',
    read_time_step of_single (length (handles w)) nums off
      (DeleteValueFloat f) ts n i (dl, tsec, idata) (reading w p)
    = (inr st', reading w p)
    /\ rows_read of_single f off nums ts (S i) 0 st'.1.1
    /\ length st'.1.2 = length ts.
Proof.
  intros Hf Hvalid Hrange Hi Hread Htsec.
  destruct (lookup_lt_is_Some_2 ts i Hi) as [t Hts].
  unfold read_time_step. unfold py_index. rewrite Hts.
  erewrite (bind_inr (lift (inr t))) by reflexivity.
  rewrite Hrange.
  destruct (for_each_total
              (fun k st => rows_read of_single f off nums ts i k st.1
                           /\ (0 < k -> is_Some st.2))
              (seq 0 (length nums))
              (read_item_time_step of_single (length (handles w)) nums off
                 (DeleteValueFloat f) i t)
              (reading w p)) with (s := (dl, idata))
    as (st1 & Hloop & Hrows & Hsome).
  - intros k item [dl' idata'] Hk [Hr _]. cbn in Hr.
    apply lookup_seq in Hk as [-> Hk]. cbn in Hk.
    destruct (lookup_lt_is_Some_2 nums k Hk) as [nk Hnk].
    destruct (read_item_time_step_ok w p f off nums ts i t k nk dl' idata'
                Hf Hvalid Hts Hnk Hr) as (st' & Hrun & Hr' & Hs').
    exists st'. split; [done|]. split; [done|]. by intros _.
  - cbn. split; [done|lia].
  - rewrite length_seq in Hrows, Hsome.
    erewrite bind_inr by exact Hloop.
    destruct Hvalid as (_ & _ & _ & [Hempty|Hnums]).
    { subst ts. cbn in Hi. lia. }
    assert (Hpos : 0 < length nums) by (destruct nums; [done|cbn; lia]).
    destruct (Hsome Hpos) as [idata1 Hidata]. rewrite Hidata.
    eexists. split; [reflexivity|]. cbn.
    split; [by apply rows_read_next_row|]. by rewrite length_insert.
Qed.

(** [read] on a valid selection: it returns, and every row of every
    array is the stored row it selects, marshalled back and masked. *)
Lemma read_ok (w : World) (filename : string) (f : DfsuFile)
  (item_numbers : option (list Z)) (item_names : option (list string))
  (time_steps : option (list Z)) (off n : Z) (nums ts : list Z) :
  files w !! filename = Some f ->
  read_selection f item_numbers item_names time_steps = inr (off, n, nums, ts) ->
  valid_selection f off nums ts ->
  (exists its, get_item_info f nums = inr its) ->
  exists ds,
    read of_single uninit filename item_numbers item_names time_steps w
    = (inr ds, read_done w filename)
    /\ length (data ds) = length nums
    /\ forall item i, item < length nums -> i < length ts ->
         row_of (data ds) item i
         = read_row of_single (DeleteValueFloat f)
             <$> selected_row f off nums ts item i.
Proof.
  intros Hf Hsel Hvalid [its Hits].
  pose proof (read_selection_range _ _ _ _ _ _ _ _ Hsel) as Hrange.
  rewrite (read_unfold _ _ _ _ _ _ _ _ Hf), Hsel.
  unfold py_range at 1. rewrite Nat2Z.id.
  destruct (for_each_total
              (fun i st => rows_read of_single f off nums ts i 0 st.1.1
                           /\ length st.1.2 = length ts)
              (seq 0 (length ts))
              (read_time_step of_single (length (handles w)) nums off
                 (DeleteValueFloat f) ts n)
              (reading w filename))
    with (s := ((fun _ => np_ndarray uninit (length ts, NumberOfElements f))
                  <$> py_range n, np_zeros (length ts),
                @None ItemTimeStepData))
    as (st & Hloop & Hrows & Htsec).
  - intros i a [[dl tsec] idata] Hi [Hr Hl]. cbn in Hr, Hl.
    apply lookup_seq in Hi as [-> Hi]. cbn in Hi.
    by apply read_time_step_ok.
  - cbn. split; [|unfold np_zeros; by rewrite length_replicate].
    split; [by rewrite length_fmap, Hrange, length_seq|].
    intros item Hitem. eexists. rewrite list_lookup_fmap, Hrange.
    rewrite lookup_seq_lt by done. cbn. split; [reflexivity|].
    unfold np_ndarray. cbn. split; [done|]. split; [by rewrite length_replicate|].
    intros i' [Hi'|[Hi' Hk]]; lia.
  - rewrite Hloop. destruct st as [[dl tsec] idata]. rewrite Hits.
    assert (Hw2 : Close (length (handles w)) (reading w filename)
                  = (inr tt, read_done w filename)) by apply Close_reading.
    rewrite Hw2. eexists. split; [reflexivity|]. cbn.
    rewrite length_seq in Hrows. cbn in Hrows. destruct Hrows as [Hlen Hall].
    split; [done|]. intros item i Hitem Hi.
    destruct (Hall item Hitem) as (arr & Ha & Hs & Hl & Hr).
    unfold row_of. rewrite Ha. cbn. apply Hr; [left; lia|done].
Qed.

End ReadContent.

(** ** Writing and reading back *)

Lemma get_item_info_total f nums :
  (forall n, n ∈ nums -> (0 <= n < Z.of_nat (length (ItemInfos f)))%Z) ->
  exists its, get_item_info f nums = inr its.
Proof.
  induction nums as [|n nums IH]; intros Hall; cbn; [by eexists|].
  destruct IH as [its Hits].
  { intros m Hm. apply Hall, elem_of_cons. by right. }
  assert (Hn : (0 <= n < Z.of_nat (length (ItemInfos f)))%Z).
  { apply Hall, elem_of_cons. by left. }
  rewrite decide_True by lia. unfold py_index.
  destruct (lookup_lt_is_Some_2 (ItemInfos f) (Z.to_nat n)) as [it Hit]; [lia|].
  rewrite Hit, Hits. by eexists.
Qed.

Lemma lookup_range (n : Z) (k : nat) (m : Z) :
  (Z.of_nat <$> py_range n) !! k = Some m ->
  m = Z.of_nat k /\ (Z.of_nat k < n)%Z.
Proof.
  unfold py_range. rewrite list_lookup_fmap. intros H.
  destruct (seq 0 (Z.to_nat n) !! k) as [a|] eqn:Ha; [|done].
  apply lookup_seq in Ha as [-> Hk]. cbn in H. inversion H. lia.
Qed.

Lemma lookup_range_lt (n : Z) (k : nat) :
  (Z.of_nat k < n)%Z -> (Z.of_nat <$> py_range n) !! k = Some (Z.of_nat k).
Proof.
  intros Hk. unfold py_range.
  rewrite list_lookup_fmap, lookup_seq_lt by lia. done.
Qed.

Lemma roundtrip_row to_single of_single dv (r : list float) j v :
  r !! j = Some v ->
  read_row of_single dv (to_single <$> mask_nan dv r) !! j
  = Some (roundtrip_value to_single of_single dv v).
Proof.
  intros Hj. unfold read_row, mask_delete_value, mask_nan, roundtrip_value.
  by rewrite !list_lookup_fmap, Hj.
Qed.

Lemma SFeqb_refl (x : float) : np_isnan x = false -> SFeqb x x = true.
Proof.
  unfold SFeqb, SFcompare. destruct x as [s|s| |s m e]; try done.
  - by destruct s.
  - intros _. destruct s; rewrite Z.compare_refl, Pos.compare_cont_refl; done.
Qed.

Lemma SFeqb_nan_l (x : float) : SFeqb S754_nan x = false.
Proof. by destruct x. Qed.

Lemma SFeqb_nan_r (x : float) : SFeqb x S754_nan = false.
Proof. by destruct x. Qed.

(** Where the round trip yields NaN: where NaN was supplied, and where the
    marshalled sample compares equal to the delete value. *)
Lemma roundtrip_value_nan to_single of_single dv v :
  (forall x, np_isnan (of_single (to_single x)) = np_isnan x) ->
  of_single (to_single dv) = dv ->
  np_isnan (roundtrip_value to_single of_single dv v)
  = np_isnan v || SFeqb (of_single (to_single v)) dv.
Proof.
  intros Hnan Hdv. unfold roundtrip_value.
  destruct (np_isnan v) eqn:Hv; cbn.
  - rewrite Hdv. destruct (np_isnan dv) eqn:Hd.
    + destruct dv; try done.
    + by rewrite SFeqb_refl.
  - destruct (SFeqb (of_single (to_single v)) dv) eqn:He; [done|].
    by rewrite Hnan.
Qed.

Section RoundTrip.
Variable to_single : float -> float.
Variable of_single : float -> float.
Variable uninit : float.

Lemma read_back (w1 : World) (filename : string) (f' : DfsuFile)
  (src : list ndarray) (rest : list (list float)) :
  files w1 !! filename = Some f' ->
  let N := length (ItemInfos f') in
  let T := NumberOfTimeSteps f' in
  let dv := DeleteValueFloat f' in
  let off := file_offset f' in
  ItemData f' = (stored_row to_single dv src <$> index_pairs T N) ++ rest ->
  (T = 0 \/ off < N) ->
  (forall item i, off <= item < N -> i < T ->
     exists r, row_of src item i = Some r /\ length r = NumberOfElements f') ->
  exists ds,
    read of_single uninit filename None None None w1
    = (inr ds, read_done w1 filename)
    /\ length (data ds) = N - off
    /\ forall item i r, item + off < N -> i < T ->
         row_of src (item + off) i = Some r ->
         row_of (data ds) item i
         = Some (read_row of_single dv (to_single <$> mask_nan dv r)).
Proof.
  intros Hf N T dv off Hdata Hne Hrows.
  set (nums := Z.of_nat <$> py_range (Z.of_nat N - Z.of_nat off)).
  set (ts := Z.of_nat <$> py_range (Z.of_nat T)).
  assert (Hsel : read_selection f' None None None
                 = inr (Z.of_nat off, (Z.of_nat N - Z.of_nat off)%Z, nums, ts)).
  { unfold read_selection, nums, ts, off, file_offset. fold N T.
    destruct (decide (FileType f' = Dfsu3DSigma ∨ FileType f' = Dfsu3DSigmaZ));
      cbn; [done|]. by rewrite Z.sub_0_r. }
  assert (Hlnums : length nums = N - off).
  { unfold nums, py_range. rewrite length_fmap, length_seq. lia. }
  assert (Hlts : length ts = T).
  { unfold ts, py_range. rewrite length_fmap, length_seq. lia. }
  assert (Hrow : forall item i, item + off < N -> i < T ->
            selected_row f' (Z.of_nat off) nums ts item i
            = Some (stored_row to_single dv src (i, item + off))).
  { intros item i Hitem Hi. unfold selected_row, nums, ts.
    rewrite lookup_range_lt by lia. cbn. rewrite lookup_range_lt by lia. cbn.
    fold N. rewrite Hdata.
    replace (Z.to_nat (Z.of_nat item + Z.of_nat off)) with (item + off) by lia.
    rewrite Nat2Z.id, lookup_app_l.
    2:{ rewrite length_fmap, index_pairs_length. nia. }
    rewrite list_lookup_fmap, index_pairs_lookup by lia. done. }
  assert (Hvalid : valid_selection f' (Z.of_nat off) nums ts).
  { split; [|split; [|split]].
    - intros item n Hn. apply lookup_range in Hn as [-> Hlt]. fold N. lia.
    - intros i t Ht. apply lookup_range in Ht as [-> Hlt]. fold T. lia.
    - intros item i row Hs.
      assert (Hitem : item + off < N).
      { unfold selected_row in Hs.
        destruct (nums !! item) as [n|] eqn:Hn; [|done].
        apply lookup_range in Hn as [_ Hlt]. lia. }
      assert (Hi : i < T).
      { unfold selected_row in Hs.
        destruct (nums !! item) as [n|] eqn:Hn; [|done]. cbn in Hs.
        destruct (ts !! i) as [t|] eqn:Ht; [|done].
        apply lookup_range in Ht as [_ Hlt]. lia. }
      rewrite Hrow in Hs by done. inversion Hs; subst row.
      destruct (Hrows (item + off) i) as (r & Hr & Hlen); [lia|done|].
      unfold stored_row, mask_nan. cbn. rewrite Hr. cbn.
      by rewrite !length_fmap.
    - destruct Hne as [HT|Hoff].
      + left. unfold ts. fold T. rewrite HT. done.
      + right. intros Hnil. rewrite Hnil in Hlnums. cbn in Hlnums. lia. }
  destruct (get_item_info_total f' nums) as [its Hits].
  { intros n Hn. apply list_elem_of_lookup in Hn as [k Hk].
    apply lookup_range in Hk as [-> Hlt]. fold N. lia. }
  destruct (read_ok of_single uninit w1 filename f' None None None _ _ _ _
              Hf Hsel Hvalid (ex_intro _ its Hits)) as (ds & Hrun & Hlen & Hcells).
  exists ds. split; [done|]. split; [by rewrite Hlen|].
  intros item i r Hitem Hi Hr. rewrite Hcells by lia.
  rewrite Hrow by done. cbn. unfold stored_row. cbn. by rewrite Hr.
Qed.

End RoundTrip.

Lemma read_back_cells to_single of_single dv off N T src ds :
  length (data ds) = N - off ->
  (forall item i r, item + off < N -> i < T ->
     row_of src (item + off) i = Some r ->
     row_of (data ds) item i
     = Some (read_row of_single dv (to_single <$> mask_nan dv r))) ->
  read_back_of to_single of_single dv off N T src ds.
Proof.
  intros Hlen Hrows. split; [done|]. intros item i r j v Hitem Hi Hr Hj.
  eexists. split; [by apply Hrows|]. by apply roundtrip_row.
Qed.

Lemma roundtrip_value_kept to_single of_single dv v :
  np_isnan v = false ->
  SFeqb (of_single (to_single v)) dv = false ->
  roundtrip_value to_single of_single dv v = of_single (to_single v).
Proof. intros Hv He. unfold roundtrip_value. by rewrite Hv, He. Qed.

Section RoundTripClaim.
Variable to_single : float -> float.
Variable of_single : float -> float.
Variable uninit : float.

Lemma write_then_read (w : World) (filename : string) (f : DfsuFile)
  (src : list ndarray) :
  files w !! filename = Some f ->
  let N := length (ItemInfos f) in
  let T := NumberOfTimeSteps f in
  let dv := DeleteValueFloat f in
  let off := file_offset f in
  (T = 0 \/ off < N) ->
  (forall item i, item < N -> i < T ->
     exists r, row_of src item i = Some r
               /\ (off <= item -> length r = NumberOfElements f)) ->
  exists src' w1 ds w2,
    write to_single filename src w = (inr src', w1)
    /\ read of_single uninit filename None None None w1 = (inr ds, w2)
    /\ read_back_of to_single of_single dv off N T src ds.
Proof.
  intros Hf N T dv off Hne Hrows.
  assert (Hex : forall item i, item < N -> i < T -> is_Some (row_of src item i)).
  { intros item i Hitem Hi. destruct (Hrows item i Hitem Hi) as (r & Hr & _).
    by eexists. }
  rewrite (write_ok to_single w filename f src Hf Hex).
  fold N T dv.
  set (out := stored_row to_single dv src <$> index_pairs T N).
  set (f' := set_ItemData f (out ++ drop (length out) (ItemData f))).
  set (w1 := closed_after w filename f' (length out)).
  assert (Hf1 : files w1 !! filename = Some f').
  { unfold w1, closed_after. cbn. apply lookup_insert_eq. }
  assert (Hout : length out = T * N).
  { unfold out. by rewrite length_fmap, index_pairs_length. }
  assert (HT : NumberOfTimeSteps f' = T).
  { unfold NumberOfTimeSteps, f'. cbn. rewrite length_app, length_drop, Hout.
    fold N. unfold T, NumberOfTimeSteps. fold N.
    assert (N * (length (ItemData f) / N) <= length (ItemData f))
      by apply Nat.Div0.mul_div_le.
    f_equal. lia. }
  destruct (read_back to_single of_single uninit w1 filename f' src
              (drop (length out) (ItemData f)) Hf1) as (ds & Hrun & Hlen & Hcells).
  - rewrite HT. reflexivity.
  - rewrite HT. exact Hne.
  - rewrite HT. intros item i [Hoff Hitem] Hi.
    destruct (Hrows item i Hitem Hi) as (r & Hr & Hl). exists r.
    split; [done|]. by apply Hl.
  - rewrite HT in Hcells. exists (masked_data dv T N src), w1, ds, (read_done w1 filename).
    split; [done|]. split; [done|]. by apply read_back_cells.
Qed.

Lemma create_then_read (w : World) (meshfilename filename : string)
  (mesh : MeshFile) (src : list ndarray) (data0 : ndarray)
  (start_time : option R) (dt : R) (timeseries_unit : TimeStep)
  (its : option (list ItemInfo)) (title : option string) :
  meshfiles w !! meshfilename = Some mesh ->
  filename ∉ unwritable w ->
  src !! 0 = Some data0 ->
  length (default (default_items (length src)) its) = length src ->
  let N := length src in
  let T := fst (shape data0) in
  let dv := provider_delete_value w in
  (forall item i, item < N -> i < T ->
     exists r, row_of src item i = Some r
               /\ length r = length (mesh_ElementTable mesh)) ->
  exists src' w1 ds w2,
    create to_single meshfilename filename src start_time dt timeseries_unit
      its title w = (inr src', w1)
    /\ read of_single uninit filename None None None w1 = (inr ds, w2)
    /\ read_back_of to_single of_single dv 0 N T src ds.
Proof.
  intros Hm Hw H0 Hits N T dv Hrows.
  assert (Hex : forall item i, item < N -> i < T -> is_Some (row_of src item i)).
  { intros item i Hitem Hi. destruct (Hrows item i Hitem Hi) as (r & Hr & _).
    by eexists. }
  rewrite (create_ok to_single w meshfilename filename mesh src data0 start_time
             dt timeseries_unit its title Hm Hw H0 Hex).
  fold N T dv.
  set (out := stored_row to_single dv src <$> index_pairs T N).
  set (f' := set_ItemData _ out).
  set (w1 := closed_after w filename f' (length out)).
  assert (Hf1 : files w1 !! filename = Some f').
  { unfold w1, closed_after. cbn. apply lookup_insert_eq. }
  assert (HN : length (ItemInfos f') = N) by (unfold f'; cbn; exact Hits).
  assert (Hpos : 0 < N).
  { unfold N. destruct src; [done|cbn; lia]. }
  assert (HT : NumberOfTimeSteps f' = T).
  { unfold NumberOfTimeSteps. rewrite HN. unfold f'. cbn. unfold out.
    rewrite length_fmap, index_pairs_length. apply Nat.div_mul. lia. }
  assert (Hoff : file_offset f' = 0).
  { unfold file_offset, f'. cbn. rewrite decide_False; [done|].
    intros [E|E]; discriminate E. }
  destruct (read_back to_single of_single uninit w1 filename f' src [] Hf1)
    as (ds & Hrun & Hlen & Hcells).
  - rewrite HT, HN. unfold f'. cbn. by rewrite app_nil_r.
  - rewrite Hoff, HN. by right.
  - rewrite HT, HN. intros item i [_ Hitem] Hi.
    destruct (Hrows item i Hitem Hi) as (r & Hr & Hl). exists r.
    split; [done|]. unfold f', NumberOfElements. cbn. exact Hl.
  - rewrite HT, HN, Hoff in *.
    exists (masked_data dv T N src), w1, ds, (read_done w1 filename).
    split; [done|]. split; [done|].
    apply read_back_cells; [done|]. intros item i r Hitem Hi Hr.
    apply Hcells; [done|done|]. exact Hr.
Qed.

(** C1 (amended).  Writing arrays of the container's shape with [write],
    or creating a container from them with [create], and reading the
    container back with [read] succeeds, and each sample read back is the
    sample supplied after masking, marshalling and unmasking.  When the
    marshalling keeps NaN apart from numbers and leaves the delete value
    alone, the sample read back is NaN exactly where the sample supplied
    was NaN or, as stored, compares equal to the delete value; everywhere
    else it is the stored form of the sample supplied. *)
Theorem masking_roundtrip (w : World) (filename meshfilename target : string)
  (f : DfsuFile) (mesh : MeshFile) (src : list ndarray) (data0 : ndarray)
  (start_time : option R) (dt : R) (timeseries_unit : TimeStep)
  (title : option string) :
  files w !! filename = Some f ->
  NumberOfTimeSteps f = 0 \/ file_offset f < length (ItemInfos f) ->
  (forall item i, item < length (ItemInfos f) -> i < NumberOfTimeSteps f ->
     exists r, row_of src item i = Some r
               /\ (file_offset f <= item -> length r = NumberOfElements f)) ->
  meshfiles w !! meshfilename = Some mesh ->
  target ∉ unwritable w ->
  src !! 0 = Some data0 ->
  (forall item i, item < length src -> i < fst (shape data0) ->
     exists r, row_of src item i = Some r
               /\ length r = length (mesh_ElementTable mesh)) ->
  (exists src' w1 ds w2,
     write to_single filename src w = (inr src', w1)
     /\ read of_single uninit filename None None None w1 = (inr ds, w2)
     /\ read_back_of to_single of_single (DeleteValueFloat f) (file_offset f)
          (length (ItemInfos f)) (NumberOfTimeSteps f) src ds)
  /\ (exists src' w1 ds w2,
        create to_single meshfilename target src start_time dt timeseries_unit
          None title w = (inr src', w1)
        /\ read of_single uninit target None None None w1 = (inr ds, w2)
        /\ read_back_of to_single of_single (provider_delete_value w) 0
             (length src) (fst (shape data0)) src ds)
  /\ (forall dv,
        (forall x, np_isnan (of_single (to_single x)) = np_isnan x) ->
        of_single (to_single dv) = dv ->
        forall v,
          np_isnan (roundtrip_value to_single of_single dv v)
          = np_isnan v || SFeqb (of_single (to_single v)) dv
          /\ (np_isnan v = false ->
              SFeqb (of_single (to_single v)) dv = false ->
              roundtrip_value to_single of_single dv v
              = of_single (to_single v))).
Proof.
  intros Hf Hne Hrows Hm Hw H0 Hrows'. split; [|split].
  - by apply write_then_read.
  - apply create_then_read with (mesh := mesh) (data0 := data0); try done.
    cbn. unfold default_items. by rewrite length_fmap, length_seq.
  - intros dv Hnan Hdv v. split.
    + by apply roundtrip_value_nan.
    + by apply roundtrip_value_kept.
Qed.

End RoundTripClaim.

(** ** Element areas *)


Lemma np_index_node (l : list R) (n : Z) :
  (1 <= n <= Z.of_nat (length l))%Z ->
  np_index l (n - 1) = inr (nth (Z.to_nat (n - 1)) l 0%R).
Proof.
  intros Hn. unfold np_index. rewrite decide_True by lia. unfold py_index.
  destruct (lookup_lt_is_Some_2 l (Z.to_nat (n - 1))) as [x Hx]; [lia|].
  rewrite Hx. f_equal. symmetry. by apply nth_lookup_Some.
Qed.





Section AreaFacts.
Variable garbage : nat -> R.



Lemma length_np_empty n : length (np_empty garbage n) = n.
Proof. unfold np_empty. by rewrite length_fmap, length_seq. Qed.



End AreaFacts.

(** ** Element centres and the nearest element *)

Lemma node_coords_of_ok (dfs : DfsuFile) (nodes : list Z) :
  length (NodeX dfs) = length (NodeY dfs) ->
  length (NodeY dfs) = length (NodeZ dfs) ->
  Forall (valid_node dfs) nodes ->
  node_coords_of (NodeX dfs) (NodeY dfs) (NodeZ dfs) nodes
  = inr (node_x dfs <$> nodes, node_y dfs <$> nodes, node_z dfs <$> nodes).
Proof.
  intros Hxy Hyz. induction 1 as [|n nodes Hn Hv IH]; [done|].
  cbn [node_coords_of]. unfold valid_node in Hn.
  rewrite (np_index_node (NodeX dfs)) by lia.
  rewrite (np_index_node (NodeY dfs)) by lia.
  rewrite (np_index_node (NodeZ dfs)) by lia.
  cbn. rewrite IH. reflexivity.
Qed.

Lemma np_mean_ok (l : list R) : l <> [] -> np_mean l = inr (mean l).
Proof. by destruct l. Qed.

Lemma element_centers_ok (dfs : DfsuFile) :
  valid_mesh dfs ->
  element_centers (NodeX dfs) (NodeY dfs) (NodeZ dfs) (ElementTable dfs)
  = inr (centroid dfs <$> ElementTable dfs).
Proof.
  intros (Hxy & Hyz & Hel).
  induction Hel as [|nodes table [Hlen Hv] Hel IH]; [done|].
  cbn [element_centers]. unfold element_center.
  rewrite (node_coords_of_ok dfs nodes Hxy Hyz Hv). cbn.
  assert (Hne : nodes <> []) by (intros ->; cbn in Hlen; lia).
  rewrite !np_mean_ok by (by destruct nodes). cbn.
  rewrite IH. reflexivity.
Qed.

Lemma get_element_coords_ok (w : World) (dfs : DfsuFile) :
  (self_dfs_file w).1 = inr dfs ->
  valid_mesh dfs ->
  get_element_coords w = (inr (centroid dfs <$> ElementTable dfs), w).
Proof.
  intros Hself Hvalid. pose proof (self_dfs_file_inr _ _ Hself) as Hs.
  unfold get_element_coords. erewrite bind_inr by exact Hs.
  unfold lift. by rewrite element_centers_ok.
Qed.

Lemma sq_dist_fmap x y z (ec : list point3) :
  match z with
  | None => sq_dist2 x y <$> ec
  | Some z' => sq_dist3 x y z' <$> ec
  end = sq_dist x y z <$> ec.
Proof. by destruct z. Qed.

Lemma argsort_head_minimal (argsort : list R -> list nat) (d : list R) :
  argsort_contract argsort ->
  d <> [] ->
  exists idx,
    argsort d !! 0 = Some idx
    /\ idx < length d
    /\ forall j, j < length d -> (nth idx d 0 <= nth j d 0)%R.
Proof.
  intros Hc Hd. destruct (Hc d) as [Hperm Hsorted].
  destruct (argsort d) as [|idx rest] eqn:Ha.
  { apply Permutation_length in Hperm. rewrite length_seq in Hperm.
    destruct d; [done|discriminate Hperm]. }
  exists idx. split; [done|].
  assert (Hin : forall j, j ∈ idx :: rest <-> j < length d).
  { intros j. rewrite Hperm, elem_of_seq. lia. }
  split; [apply Hin, elem_of_cons; by left|].
  intros j Hj. apply Hin, elem_of_cons in Hj as [->|Hj]; [lra|].
  inversion Hsorted as [|? ? _ Hall]; subst.
  rewrite Forall_forall in Hall. by apply Hall.
Qed.

Section NearestFacts.
Variable argsort : list R -> list nat.

Lemma find_closest_element_index_run (w : World) (dfs : DfsuFile)
  (x y : R) (z : option R) :
  (self_dfs_file w).1 = inr dfs ->
  valid_mesh dfs ->
  find_closest_element_index argsort x y z w
  = (py_index (argsort (sq_dist x y z <$> (centroid dfs <$> ElementTable dfs))) 0,
     w).
Proof.
  intros Hself Hvalid. unfold find_closest_element_index.
  erewrite bind_inr by (by apply get_element_coords_ok).
  destruct z; reflexivity.
Qed.


End NearestFacts.

(** * Concrete runs *)



Lemma self_dfs_world2 : (self_dfs_file world2).1 = inr square_dfs.
Proof. vm_compute. reflexivity. Qed.

Lemma get_node_coords_filter_witness :
  get_node_coords (Some 1%Z) world2
  = (inr [(0, 0, 0); (1, 0, 0); (1, 1, 0)]%R, world2)
  /\ (get_node_coords (Some 7%Z) world2).1 = inl PyException.
Proof.
  destruct (get_node_coords_filter world2 square_dfs 1 self_dfs_world2
              eq_refl eq_refl eq_refl) as (_ & Hin & _).
  destruct (get_node_coords_filter world2 square_dfs 7 self_dfs_world2
              eq_refl eq_refl eq_refl) as (_ & _ & Hout).
  split.
  - rewrite Hin; [reflexivity|]. vm_compute. apply elem_of_cons. by left.
  - apply Hout. vm_compute. intros H.
    repeat (apply elem_of_cons in H as [H|H]; [discriminate H|]).
    by apply not_elem_of_nil in H.
Defined.

Lemma create_run :
  create marshal_id "square.mesh" "out.dfsu" data_ex None 1%R SECOND None None
    world0
  = (inr [mk_ndarray (2, 1) [[f_one]; [f_delete]]], world1).
Proof. vm_compute. reflexivity. Qed.


Lemma create_unwritable_target_witness :
  create marshal_id "square.mesh" "/readonly/out.dfsu" data_ex None 1%R SECOND
    None None world0
  = (inl UnboundLocalError,
     with_stdout world0 ["cannot create dfsu file:  /readonly/out.dfsu"])
  /\ files (with_stdout world0 ["cannot create dfsu file:  /readonly/out.dfsu"])
     = files world0.
Proof.
  split; [|reflexivity].
  rewrite (create_unwritable_target marshal_id world0 "square.mesh"
             "/readonly/out.dfsu" square_mesh data_ex
             (mk_ndarray (2, 1) [[f_one]; [np_nan]]) None 1%R SECOND None None).
  - reflexivity.
  - reflexivity.
  - reflexivity.
  - apply elem_of_cons. by left.
Defined.

Lemma create_default_item_names_witness :
  exists f',
    files world1 !! "out.dfsu" = Some f'
    /\ ItemInfos f' = [ItemInfo_of_name "temItem 1"]
    /\ ItemInfos f' <> [ItemInfo_of_name "Item 1"].
Proof.
  destruct (create_default_item_names marshal_id world0 "square.mesh" "out.dfsu"
              data_ex _ None 1%R SECOND None world1 create_run)
    as (f' & Hf & Hlen & Hk).
  exists f'. split; [exact Hf|].
  destruct (Hk 0) as [Hname Hne]; [simpl; lia|].
  destruct (ItemInfos f') as [|it [|it' its]]; try discriminate Hlen.
  simpl in Hname, Hne. inversion Hname; subst it.
  split; [reflexivity|]. intros E. inversion E.
Defined.



Lemma files_world1 : files world1 !! "out.dfsu" = Some square_dfs.
Proof. vm_compute. reflexivity. Qed.

Lemma unwritable_world1 : "new.dfsu" ∉ unwritable world1.
Proof.
  vm_compute. intros H. apply elem_of_cons in H as [H|H]; [discriminate H|].
  by apply not_elem_of_nil in H.
Qed.

Lemma data_ex_rows (E : nat) :
  E = 1 ->
  forall item i, item < 1 -> i < 2 ->
    exists r, row_of data_ex item i = Some r /\ length r = E.
Proof.
  intros -> item i Hitem Hi. destruct item as [|item]; [|lia].
  destruct i as [|[|i]]; [by eexists|by eexists|lia].
Qed.

Lemma masking_roundtrip_witness :
  (exists src' w1 ds w2,
     write marshal_id "out.dfsu" data_ex world1 = (inr src', w1)
     /\ read marshal_id f_one "out.dfsu" None None None w1 = (inr ds, w2)
     /\ read_back_of marshal_id marshal_id f_delete 0 1 2 data_ex ds)
  /\ (exists src' w1 ds w2,
        create marshal_id "square.mesh" "new.dfsu" data_ex None 1%R SECOND None
          None world1 = (inr src', w1)
        /\ read marshal_id f_one "new.dfsu" None None None w1 = (inr ds, w2)
        /\ read_back_of marshal_id marshal_id f_delete 0 1 2 data_ex ds).
Proof.
  destruct (masking_roundtrip marshal_id marshal_id f_one world1 "out.dfsu"
              "square.mesh" "new.dfsu" square_dfs square_mesh data_ex
              (mk_ndarray (2, 1) [[f_one]; [np_nan]]) None 1%R SECOND None)
    as (Hwrite & Hcreate & _).
  - exact files_world1.
  - right. vm_compute. lia.
  - intros item i Hitem Hi.
    destruct (data_ex_rows 1 eq_refl item i Hitem Hi) as (r & Hr & Hl).
    exists r. split; [done|]. intros _. exact Hl.
  - reflexivity.
  - exact unwritable_world1.
  - reflexivity.
  - exact (data_ex_rows 1 eq_refl).
  - split; [exact Hwrite|exact Hcreate].
Defined.

(** C1, the claim as stated fails: a sample that equals the delete value
    is a number when it is written and NaN when it is read back. *)
Lemma delete_value_sample_reads_back_nan :
  let src := [mk_ndarray (2, 1) [[f_delete]; [f_one]]] in
  np_isnan f_delete = false
  /\ row_of src 0 0 = Some [f_delete]
  /\ exists src' w1 ds w2,
       create marshal_id "square.mesh" "out.dfsu" src None 1%R SECOND None None
         world0 = (inr src', w1)
       /\ read marshal_id f_one "out.dfsu" None None None w1 = (inr ds, w2)
       /\ row_of (data ds) 0 0 = Some [np_nan].
Proof.
  cbv zeta. split; [reflexivity|]. split; [reflexivity|].
  do 4 eexists. split; [vm_compute; reflexivity|].
  split; [vm_compute; reflexivity|]. reflexivity.
Qed.

Lemma read_shape_witness :
  exists ds w',
    read marshal_id f_one "out.dfsu" None None None world1 = (inr ds, w')
    /\ length (items ds) = length (data ds)
    /\ length (time ds) = 2
    /\ Forall (fun a => shape a = (2, 1) /\ wf_ndarray a) (data ds).
Proof.
  assert (Hrun : exists ds w',
            read marshal_id f_one "out.dfsu" None None None world1 = (inr ds, w')).
  { do 2 eexists. vm_compute. reflexivity. }
  destruct Hrun as (ds & w' & Hrun). exists ds, w'. split; [exact Hrun|].
  destruct (read_shape marshal_id f_one world1 "out.dfsu" None None None ds w' Hrun)
    as (f & Hf & Hitems & Htime & Hall).
  rewrite files_world1 in Hf. inversion Hf; subst f.
  split; [exact Hitems|]. split; [exact Htime|].
  rewrite Htime in Hall. exact Hall.
Defined.



Lemma insert_index_perm d i l : Permutation (insert_index d i l) (i :: l).
Proof.
  induction l as [|j l IH]; cbn; [done|].
  destruct (Rle_dec _ _); [done|]. rewrite IH. apply perm_swap.
Qed.

Lemma insert_index_sorted d i l :
  StronglySorted (fun a b => (nth a d 0 <= nth b d 0)%R) l ->
  StronglySorted (fun a b => (nth a d 0 <= nth b d 0)%R) (insert_index d i l).
Proof.
  induction 1 as [|j l Hs IH Hall]; cbn.
  - constructor; [constructor|constructor].
  - destruct (Rle_dec _ _) as [Hle|Hgt].
    + constructor; [by constructor|]. constructor; [done|].
      eapply Forall_impl; [exact Hall|]. cbn. intros k Hk. lra.
    + constructor; [done|]. rewrite insert_index_perm.
      constructor; [lra|done].
Qed.

Lemma argsort_unstable_contract : argsort_contract argsort_unstable.
Proof.
  intros d. unfold argsort_unstable.
  assert (G : forall l acc,
            StronglySorted (fun a b => (nth a d 0 <= nth b d 0)%R) acc ->
            Permutation (foldl (fun l i => insert_index d i l) acc l) (acc ++ l)
            /\ StronglySorted (fun a b => (nth a d 0 <= nth b d 0)%R)
                 (foldl (fun l i => insert_index d i l) acc l)).
  { induction l as [|i l IH]; intros acc Hacc; cbn.
    - by rewrite app_nil_r.
    - destruct (IH (insert_index d i acc)) as [Hp Hs];
        [by apply insert_index_sorted|].
      split; [|done]. rewrite Hp, insert_index_perm.
      by rewrite <- Permutation_middle. }
  destruct (G (seq 0 (length d)) []) as [Hp Hs]; [constructor|].
  split; [exact Hp|exact Hs].
Qed.


Lemma valid_square_dfs : valid_mesh square_dfs.
Proof.
  split; [reflexivity|]. split; [reflexivity|].
  repeat constructor; unfold valid_node; cbn; lia.
Qed.






(** * Further properties of the methods *)

(** ** What [read] leaves alone, and what it leaves behind *)

Lemma read_missing_container of_single uninit w filename ins inames ts :
  files w !! filename = None ->
  read of_single uninit filename ins inames ts w = (inl ProviderError, w).
Proof. intros Hf. unfold read, DfsuFile_Open. mred. by rewrite Hf. Qed.

Lemma read_world_cases of_single uninit w filename f ins inames ts :
  files w !! filename = Some f ->
  (read of_single uninit filename ins inames ts w).2 = reading w filename
  \/ (read of_single uninit filename ins inames ts w).2 = read_done w filename.
Proof.
  intros Hf.
  pose proof (read_world of_single uninit w filename f ins inames ts _ _ Hf
                (surjective_pairing _)) as Hw.
  destruct (raised _); [by left|by right].
Qed.

(** X1.  Whatever its arguments and however it ends, [read] changes no
    container, no mesh file and nothing on standard output, and it leaves
    every handle that existed before as it was; when the container does
    not exist it raises with the world exactly as it found it. *)
Theorem read_frame (of_single : float -> float) (uninit : float) (w : World)
  (filename : string) (item_numbers : option (list Z))
  (item_names : option (list string)) (time_steps : option (list Z)) :
  let w' := (read of_single uninit filename item_numbers item_names time_steps w).2 in
  files w' = files w
  /\ meshfiles w' = meshfiles w
  /\ stdout w' = stdout w
  /\ take (length (handles w)) (handles w') = handles w
  /\ (files w !! filename = None ->
      read of_single uninit filename item_numbers item_names time_steps w
      = (inl ProviderError, w)).
Proof.
  cbv zeta. destruct (files w !! filename) as [f|] eqn:Hf.
  - destruct (read_world_cases of_single uninit w filename f item_numbers
                item_names time_steps Hf) as [-> | ->];
      cbn; rewrite take_app_length; done.
  - rewrite (read_missing_container _ _ _ _ _ _ _ Hf). cbn.
    rewrite firstn_all. done.
Qed.

Lemma self_dfs_file_after_read of_single uninit w filename f ins inames ts :
  files w !! filename = Some f ->
  let w' := (read of_single uninit filename ins inames ts w).2 in
  self_dfs_file w' = (inr f, w').
Proof.
  intros Hf w'. unfold w'.
  destruct (read_world_cases of_single uninit w filename f ins inames ts Hf)
    as [-> | ->]; unfold self_dfs_file, handle_file, get_handle; mred; cbn;
    rewrite lookup_new_handle; cbn; by rewrite Hf.
Qed.

(** X2.  After [read] on an existing container, with any selection and
    whether it returned or raised, the object stays cached in [self._dfs]
    although its handle may be closed: [get_number_of_time_steps] gives
    the container's number of time steps, [is_geo] tells whether its
    projection string is exactly "LONG/LAT", and [get_node_coords]
    without a code gives its nodes. *)
Theorem queries_after_read (of_single : float -> float) (uninit : float)
  (w : World) (filename : string) (f : DfsuFile)
  (item_numbers : option (list Z)) (item_names : option (list string))
  (time_steps : option (list Z)) :
  files w !! filename = Some f ->
  length (NodeX f) = length (NodeY f) ->
  length (NodeY f) = length (NodeZ f) ->
  let w' := (read of_single uninit filename item_numbers item_names time_steps w).2 in
  get_number_of_time_steps w' = (inr (NumberOfTimeSteps f), w')
  /\ is_geo w' = (inr (bool_decide (WKTString f = "LONG/LAT")), w')
  /\ get_node_coords None w'
     = (inr (zip (zip (NodeX f) (NodeY f)) (NodeZ f)), w').
Proof.
  intros Hf Hxy Hyz w'.
  pose proof (self_dfs_file_after_read of_single uninit w filename f item_numbers
                item_names time_steps Hf) as Hs. fold w' in Hs. cbv zeta in Hs.
  unfold get_number_of_time_steps, is_geo, get_node_coords.
  rewrite !(bind_inr _ _ _ _ _ Hs).
  split; [done|]. split; [done|].
  unfold column_stack. rewrite decide_True by done. reflexivity.
Qed.

(** X3.  Before any [read] the instance has no [_dfs] attribute, and
    every geometry query raises [AttributeError] without any effect. *)
Theorem queries_before_read (argsort : list R -> list nat) (garbage : nat -> R)
  (w : World) (code : option Z) (x y : R) (z : option R) :
  self_dfs w = None ->
  get_node_coords code w = (inl AttributeError, w)
  /\ get_element_coords w = (inl AttributeError, w)
  /\ find_closest_element_index argsort x y z w = (inl AttributeError, w)
  /\ get_element_area garbage w = (inl AttributeError, w)
  /\ is_geo w = (inl AttributeError, w)
  /\ get_number_of_time_steps w = (inl AttributeError, w).
Proof.
  intros Hnone.
  assert (Hs : self_dfs_file w = (inl AttributeError, w)).
  { unfold self_dfs_file. mred. by rewrite Hnone. }
  assert (Hec : get_element_coords w = (inl AttributeError, w)).
  { unfold get_element_coords. by rewrite (bind_inl _ _ _ _ _ Hs). }
  unfold get_node_coords, find_closest_element_index, get_element_area, is_geo,
    get_number_of_time_steps.
  rewrite !(bind_inl _ _ _ _ _ Hs), (bind_inl _ _ _ _ _ Hec). done.
Qed.

(** ** The selection of [read] *)

(** X4.  In [read], [item_names] takes precedence over [item_numbers]:
    with names given the numbers are ignored, and the call is the call
    with the numbers that [find_item] resolves the names to; when a name
    cannot be resolved, [read] raises with its handle left open. *)
Theorem read_names_take_precedence (of_single : float -> float)
  (uninit : float) (w : World) (filename : string) (f : DfsuFile)
  (item_numbers item_numbers' : option (list Z)) (item_names : list string)
  (time_steps : option (list Z)) :
  files w !! filename = Some f ->
  read of_single uninit filename item_numbers (Some item_names) time_steps w
  = read of_single uninit filename item_numbers' (Some item_names) time_steps w
  /\ (forall ns, find_item f item_names = inr ns ->
        read of_single uninit filename item_numbers (Some item_names) time_steps w
        = read of_single uninit filename (Some ns) None time_steps w)
  /\ (forall e, find_item f item_names = inl e ->
        read of_single uninit filename item_numbers (Some item_names) time_steps w
        = (inl e, reading w filename)).
Proof.
  intros Hf. rewrite !(read_unfold _ _ _ _ _ _ _ _ Hf).
  assert (Hsel : forall ins,
            read_selection f ins (Some item_names) time_steps
            = match find_item f item_names with
              | inl e => inl e
              | inr ns => read_selection f (Some ns) None time_steps
              end).
  { intros ins. unfold read_selection.
    destruct (decide (FileType f = Dfsu3DSigma ∨ FileType f = Dfsu3DSigmaZ));
      cbn; by destruct (find_item f item_names). }
  split; [by rewrite !Hsel|]. split.
  - intros ns Hns. rewrite (read_unfold _ _ _ _ _ _ _ _ Hf), Hsel, Hns. done.
  - intros e He. by rewrite Hsel, He.
Qed.


(** ** Reading a selection and reading everything *)

Lemma read_selection_explicit f nums ts :
  read_selection f (Some nums) None (Some ts)
  = inr (Z.of_nat (file_offset f), Z.of_nat (length nums), nums, ts).
Proof.
  unfold read_selection, file_offset.
  by destruct (decide (FileType f = Dfsu3DSigma ∨ FileType f = Dfsu3DSigmaZ)).
Qed.

Lemma read_selection_default f :
  read_selection f None None None
  = inr (Z.of_nat (file_offset f),
         (Z.of_nat (length (ItemInfos f)) - Z.of_nat (file_offset f))%Z,
         Z.of_nat <$> py_range (Z.of_nat (length (ItemInfos f))
                                - Z.of_nat (file_offset f)),
         Z.of_nat <$> py_range (Z.of_nat (NumberOfTimeSteps f))).
Proof.
  unfold read_selection, file_offset.
  destruct (decide (FileType f = Dfsu3DSigma ∨ FileType f = Dfsu3DSigmaZ));
    cbn; [done|]. by rewrite Z.sub_0_r.
Qed.

Lemma selected_row_length f off nums ts item i row :
  Forall (fun r => length r = NumberOfElements f) (ItemData f) ->
  selected_row f off nums ts item i = Some row ->
  length row = NumberOfElements f.
Proof.
  intros Hall Hs. unfold selected_row in Hs.
  destruct (nums !! item) as [n|]; [|done]. cbn in Hs.
  destruct (ts !! i) as [t|]; [|done]. cbn in Hs.
  rewrite Forall_forall in Hall. apply Hall. by eapply list_elem_of_lookup_2.
Qed.

Section ReadSelections.
Variable of_single : float -> float.
Variable uninit : float.

(** [read] of everything, on a container whose stored rows all have
    the element count. *)
Lemma read_full_ok (w : World) (filename : string) (f : DfsuFile) :
  files w !! filename = Some f ->
  Forall (fun r => length r = NumberOfElements f) (ItemData f) ->
  NumberOfTimeSteps f = 0 \/ file_offset f < length (ItemInfos f) ->
  exists ds,
    read of_single uninit filename None None None w
    = (inr ds, read_done w filename)
    /\ forall item i,
         item + file_offset f < length (ItemInfos f) -> i < NumberOfTimeSteps f ->
         row_of (data ds) item i
         = read_row of_single (DeleteValueFloat f)
             <$> ItemData f !! (i * length (ItemInfos f) + (item + file_offset f)).
Proof.
  intros Hf Hall Hne.
  set (N := length (ItemInfos f)) in *. set (T := NumberOfTimeSteps f) in *.
  set (off := file_offset f) in *.
  set (nums := Z.of_nat <$> py_range (Z.of_nat N - Z.of_nat off)).
  set (ts := Z.of_nat <$> py_range (Z.of_nat T)).
  assert (Hlnums : length nums = N - off).
  { unfold nums, py_range. rewrite length_fmap, length_seq. lia. }
  assert (Hlts : length ts = T).
  { unfold ts, py_range. rewrite length_fmap, length_seq. lia. }
  assert (Hvalid : valid_selection f (Z.of_nat off) nums ts).
  { split; [|split; [|split]].
    - intros item n Hn. apply lookup_range in Hn as [-> Hlt]. fold N. lia.
    - intros i t Ht. apply lookup_range in Ht as [-> Hlt]. fold T. lia.
    - intros item i row. by apply selected_row_length.
    - destruct Hne as [HT|Hoff].
      + left. unfold ts. by rewrite HT.
      + right. intros Hnil. rewrite Hnil in Hlnums. cbn in Hlnums. lia. }
  destruct (get_item_info_total f nums) as [its Hits].
  { intros n Hn. apply list_elem_of_lookup in Hn as [k Hk].
    apply lookup_range in Hk as [-> Hlt]. fold N. lia. }
  destruct (read_ok of_single uninit w filename f None None None _ _ _ _
              Hf (read_selection_default f) Hvalid (ex_intro _ its Hits))
    as (ds & Hrun & Hlen & Hcells).
  exists ds. split; [done|]. intros item i Hitem Hi.
  fold off N in Hitem. fold T in Hi.
  change (forall item i, item < length nums -> i < length ts ->
            row_of (data ds) item i
            = read_row of_single (DeleteValueFloat f)
                <$> selected_row f (Z.of_nat off) nums ts item i) in Hcells.
  rewrite Hcells by lia.
  unfold selected_row, nums, ts.
  rewrite lookup_range_lt by lia. cbn. rewrite lookup_range_lt by lia. cbn.
  fold N. f_equal. f_equal. lia.
Qed.

(** X6.  Reading a selection of items and time steps gives the rows that
    reading everything gives: on a container whose stored rows have the
    element count, for item numbers and time steps within the container
    (at least one item), row [i] of array [k] of the selective read is
    row [time_steps[i]] of array [item_numbers[k]] of the full read. *)
Theorem read_selection_agrees_with_full_read (w : World) (filename : string)
  (f : DfsuFile) (nums ts : list Z) :
  files w !! filename = Some f ->
  Forall (fun r => length r = NumberOfElements f) (ItemData f) ->
  nums <> [] ->
  Forall (fun n => (0 <= n /\ n + Z.of_nat (file_offset f)
                              < Z.of_nat (length (ItemInfos f)))%Z) nums ->
  Forall (fun t => (0 <= t < Z.of_nat (NumberOfTimeSteps f))%Z) ts ->
  exists ds_sel ds_all w1 w2,
    read of_single uninit filename (Some nums) None (Some ts) w = (inr ds_sel, w1)
    /\ read of_single uninit filename None None None w = (inr ds_all, w2)
    /\ length (data ds_sel) = length nums
    /\ forall k i n t, nums !! k = Some n -> ts !! i = Some t ->
         is_Some (row_of (data ds_sel) k i)
         /\ row_of (data ds_sel) k i
            = row_of (data ds_all) (Z.to_nat n) (Z.to_nat t).
Proof.
  intros Hf Hall Hne Hnums Hts.
  rewrite Forall_forall in Hnums. rewrite Forall_forall in Hts.
  assert (Hoff : file_offset f < length (ItemInfos f)).
  { destruct nums as [|n nums']; [done|].
    destruct (Hnums n) as [? ?]; [apply elem_of_cons; by left|]. lia. }
  assert (Hvalid : valid_selection f (Z.of_nat (file_offset f)) nums ts).
  { split; [|split; [|split]].
    - intros item n Hn. destruct (Hnums n); [by eapply list_elem_of_lookup_2|]. lia.
    - intros i t Ht. apply Hts. by eapply list_elem_of_lookup_2.
    - intros item i row. by apply selected_row_length.
    - by right. }
  destruct (get_item_info_total f nums) as [its Hits].
  { intros n Hn. destruct (Hnums n Hn). lia. }
  destruct (read_ok of_single uninit w filename f (Some nums) None (Some ts)
              _ _ _ _ Hf (read_selection_explicit f nums ts) Hvalid
              (ex_intro _ its Hits)) as (ds_sel & Hrun & Hlen & Hcells).
  destruct (read_full_ok w filename f Hf Hall (or_intror Hoff))
    as (ds_all & Hrun' & Hcells').
  exists ds_sel, ds_all, (read_done w filename), (read_done w filename).
  split; [done|]. split; [done|]. split; [done|].
  intros k i n t Hk Hi.
  destruct (Hnums n) as [Hn0 Hn1]; [by eapply list_elem_of_lookup_2|].
  pose proof (Hts t (list_elem_of_lookup_2 _ _ _ Hi)) as Ht.
  destruct (selected_row_valid f _ nums ts k i n t Hvalid Hk Hi)
    as (row & Hsel & Hrow & _).
  rewrite Hcells by (by eapply lookup_lt_Some). rewrite Hsel.
  split; [by eexists|].
  rewrite Hcells' by lia. cbn.
  replace (Z.to_nat t * length (ItemInfos f) + (Z.to_nat n + file_offset f))
    with (Z.to_nat t * length (ItemInfos f)
          + Z.to_nat (n + Z.of_nat (file_offset f))) by lia.
  by rewrite Hrow.
Qed.

End ReadSelections.

(** ** The outcome of [write] *)

Lemma writing_stored w p f out h0 :
  writing (with_handles w (handles w ++ [h0])) (length (handles w)) p f out
  = stored_world w p f (out ++ drop (length out) (ItemData f)) (length out) true.
Proof.
  unfold writing, stored_world, with_handles, with_files. cbn.
  by rewrite insert_new_handle.
Qed.

Lemma closed_after_stored w p f rows c :
  closed_after w p (set_ItemData f rows) c = stored_world w p f rows c false.
Proof. reflexivity. Qed.

Lemma write_missing_container to_single w filename data :
  files w !! filename = None ->
  write to_single filename data w = (inl ProviderError, w).
Proof.
  intros Hf. unfold write, DfsGenericOpenEdit, DfsuFile_Open. mred.
  by rewrite Hf.
Qed.

Section WriteOutcome.
Variable to_single : float -> float.

Lemma write_steps_error w0 dfs p f0 dv ps : forall out data e w',
  dfs < length (handles w0) ->
  for_each ps (fun q => write_item_time_step to_single dfs dv q.1 q.2) data
    (writing w0 dfs p f0 out) = (inl e, w') ->
  e = IndexError.
Proof.
  induction ps as [|[i item] ps IH]; intros out data e w' Hlt Hrun.
  - cbn in Hrun. by inversion Hrun.
  - cbn [for_each] in Hrun. simpl in Hrun.
    destruct (row_of data item i) as [d|] eqn:Hd.
    + erewrite bind_inr in Hrun by (by eapply write_item_time_step_writing).
      by eapply IH.
    + erewrite bind_inl in Hrun by (by eapply write_item_time_step_no_row).
      by inversion Hrun.
Qed.

Lemma write_all_cases w0 dfs p f0 dv T N data :
  dfs < length (handles w0) ->
  (exists out', write_all to_single dfs dv T N data (writing w0 dfs p f0 [])
                = (inl IndexError, writing w0 dfs p f0 out'))
  \/ ((forall item i, item < N -> i < T -> is_Some (row_of data item i))
      /\ write_all to_single dfs dv T N data (writing w0 dfs p f0 [])
         = (inr (masked_data dv T N data),
            writing w0 dfs p f0 (stored_row to_single dv data <$> index_pairs T N))).
Proof.
  intros Hlt.
  destruct (write_all to_single dfs dv T N data (writing w0 dfs p f0 []))
    as [[e|d] w2] eqn:Hall.
  - left. pose proof Hall as Hall'. unfold write_all in Hall.
    rewrite for_each_nested in Hall.
    pose proof (write_steps_error _ _ _ _ _ _ _ _ _ _ Hlt Hall) as ->.
    apply write_steps_world in Hall as [out' ->]; [|done]. by exists out'.
  - right. pose proof (write_all_rows _ _ _ _ _ _ _ _ _ _ _ Hlt Hall) as Hrows.
    split; [done|]. rewrite <- Hall. by apply write_all_writing.
Qed.

(** [write] on an existing container, in two stages: the loops, then
    [Close]. *)
Lemma write_cases (w : World) (filename : string) (f : DfsuFile)
  (data : list ndarray) :
  files w !! filename = Some f ->
  let T := NumberOfTimeSteps f in
  let N := length (ItemInfos f) in
  let dv := DeleteValueFloat f in
  let out := stored_row to_single dv data <$> index_pairs T N in
  (exists out',
     write to_single filename data w
     = (inl IndexError,
        stored_world w filename f (out' ++ drop (length out') (ItemData f))
          (length out') true))
  \/ ((forall item i, item < N -> i < T -> is_Some (row_of data item i))
      /\ write to_single filename data w
         = (inr (masked_data dv T N data),
            stored_world w filename f (out ++ drop (length out) (ItemData f))
              (length out) false)).
Proof.
  intros Hf T N dv out.
  destruct (decide (Forall (fun q => is_Some (row_of data q.2 q.1))
                      (index_pairs T N))) as [Hrows|Hno].
  - right. assert (Hr : forall item i, item < N -> i < T -> is_Some (row_of data item i)).
    { intros item i Hitem Hi. rewrite Forall_forall in Hrows.
      apply (Hrows (i, item)). by apply elem_of_index_pairs. }
    split; [done|]. by rewrite (write_ok to_single w filename f data Hf Hr).
  - left. unfold write, DfsGenericOpenEdit.
    erewrite bind_inr by (by eapply DfsuFile_Open_ok).
    rewrite (opened_writing _ _ _ Hf).
    set (w1 := with_handles w _).
    assert (Hlt : length (handles w) < length (handles w1)).
    { unfold w1. cbn. rewrite length_app. simpl. lia. }
    erewrite bind_inr by (by eapply handle_file_writing).
    cbn [app drop length]. rewrite set_ItemData_id.
    destruct (write_all_cases w1 (length (handles w)) filename f dv T N data Hlt)
      as [[out' Hfail]|[Hr _]].
    + exists out'. fold T N dv. unfold safe_length. fold N.
      erewrite bind_inl by exact Hfail. unfold w1. by rewrite writing_stored.
    + exfalso. apply Hno, Forall_forall. intros [i item] Hin.
      apply elem_of_index_pairs in Hin as [Hi Hitem]. by apply Hr.
Qed.

(** X7.  On an existing container [write] returns normally exactly when
    [data] holds row [i] of array [item] for every item and time step of
    the container; otherwise it raises [IndexError] (never anything
    else), with the handle open and the rows written so far stored. *)
Theorem write_outcome (w : World) (filename : string) (f : DfsuFile)
  (data : list ndarray) :
  files w !! filename = Some f ->
  let r := (write to_single filename data w).1 in
  ((forall item i, item < length (ItemInfos f) -> i < NumberOfTimeSteps f ->
      is_Some (row_of data item i)) <-> raised r = false)
  /\ (raised r = true -> r = inl IndexError).
Proof.
  intros Hf r. unfold r.
  destruct (write_cases w filename f data Hf) as [[out' Hfail]|[Hr Hok]].
  - rewrite Hfail. cbn. split; [|done]. split; [|done].
    intros Hrows. rewrite (write_ok to_single w filename f data Hf Hrows) in Hfail.
    discriminate Hfail.
  - rewrite Hok. cbn. split; [|done]. by split.
Qed.

(** X8.  Whatever its arguments and however it ends, [write] leaves
    every other container, the mesh files, standard output, [self._dfs]
    and the handles that existed before as they were, and of the
    container it writes it changes nothing but stored rows: item
    descriptors, delete value, time axis and mesh stay. *)
Theorem write_frame (w : World) (filename : string) (data : list ndarray) :
  let w' := (write to_single filename data w).2 in
  (forall other, other <> filename -> files w' !! other = files w !! other)
  /\ meshfiles w' = meshfiles w
  /\ stdout w' = stdout w
  /\ self_dfs w' = self_dfs w
  /\ take (length (handles w)) (handles w') = handles w
  /\ match files w !! filename with
     | None => w' = w
     | Some f => exists rows, files w' !! filename = Some (set_ItemData f rows)
     end.
Proof.
  cbv zeta. destruct (files w !! filename) as [f|] eqn:Hf.
  - assert (Hw : exists rows c op,
              (write to_single filename data w).2
              = stored_world w filename f rows c op).
    { destruct (write_cases w filename f data Hf) as [[out' ->]|[_ ->]];
        by do 3 eexists. }
    destruct Hw as (rows & c & op & ->). unfold stored_world. cbn.
    split; [intros other Hne; by rewrite lookup_insert_ne|].
    do 3 (split; [done|]). split; [by rewrite take_app_length|].
    exists rows. apply lookup_insert_eq.
  - rewrite (write_missing_container _ _ _ _ Hf). cbn.
    do 4 (split; [done|]). split; [by rewrite firstn_all|done].
Qed.

End WriteOutcome.

(** ** What [write] stores *)

Lemma mask_row_at_fixed dv i item data :
  (forall r, row_of data item i = Some r -> mask_nan dv r = r) ->
  mask_row_at dv (i, item) data = data.
Proof.
  intros Hfix. unfold mask_row_at, row_of in *. cbn.
  destruct (data !! item) as [arr|] eqn:Ha; [|done]. cbn in Hfix.
  destruct (rows arr !! i) as [d|] eqn:Hd; [|done].
  rewrite (Hfix d eq_refl), (list_insert_id _ _ _ Hd).
  apply list_insert_id. rewrite Ha. by destruct arr.
Qed.

Lemma masked_steps_fixed dv ps : forall data,
  (forall i item r, (i, item) ∈ ps -> row_of data item i = Some r ->
     mask_nan dv r = r) ->
  foldl (fun d q => mask_row_at dv q d) data ps = data.
Proof.
  induction ps as [|[i item] ps IH]; intros data Hfix; [done|].
  cbn [foldl]. rewrite mask_row_at_fixed.
  - apply IH. intros i' item' r Hin. apply Hfix, elem_of_cons. by right.
  - intros r. apply Hfix, elem_of_cons. by left.
Qed.

Lemma masked_data_idem dv T N data :
  masked_data dv T N (masked_data dv T N data) = masked_data dv T N data.
Proof.
  unfold masked_data at 1. apply masked_steps_fixed.
  intros i item r Hin. unfold masked_data. rewrite row_of_masked_steps.
  rewrite decide_True by done.
  destruct (row_of data item i) as [r0|]; [|done]. cbn.
  intros E. inversion E. apply mask_nan_idem.
Qed.

Lemma stored_row_masked to_single dv T N data q :
  stored_row to_single dv (masked_data dv T N data) q
  = stored_row to_single dv data q.
Proof.
  unfold stored_row, masked_data. rewrite row_of_masked_steps.
  case_decide; [|done].
  destruct (row_of data q.2 q.1) as [r|]; [|done].
  change (to_single <$> mask_nan dv (mask_nan dv r) = to_single <$> mask_nan dv r).
  by rewrite mask_nan_idem.
Qed.

Section WriteContent.
Variable to_single : float -> float.


(** X10.  [write] again with the arrays that a [write] left behind
    changes nothing more: the second call returns the same arrays and
    leaves every container as the first call left it. *)
Theorem write_twice (w : World) (filename : string) (f : DfsuFile)
  (data : list ndarray) :
  files w !! filename = Some f ->
  (forall item i, item < length (ItemInfos f) -> i < NumberOfTimeSteps f ->
     is_Some (row_of data item i)) ->
  exists data' w1 w2,
    write to_single filename data w = (inr data', w1)
    /\ write to_single filename data' w1 = (inr data', w2)
    /\ files w2 = files w1.
Proof.
  intros Hf Hrows.
  set (N := length (ItemInfos f)). set (T := NumberOfTimeSteps f).
  set (dv := DeleteValueFloat f).
  set (out := stored_row to_single dv data <$> index_pairs T N).
  set (f' := set_ItemData f (out ++ drop (length out) (ItemData f))).
  set (w1 := closed_after w filename f' (length out)).
  assert (Hout : length out = T * N).
  { unfold out. by rewrite length_fmap, index_pairs_length. }
  assert (Hf1 : files w1 !! filename = Some f').
  { unfold w1, closed_after. cbn. apply lookup_insert_eq. }
  assert (HT : NumberOfTimeSteps f' = T).
  { assert (Hle : T * N <= length (ItemData f)).
    { unfold T, NumberOfTimeSteps. fold N.
      pose proof (Nat.Div0.mul_div_le (length (ItemData f)) N). lia. }
    unfold NumberOfTimeSteps at 1. unfold f'. cbn [ItemData ItemInfos set_ItemData].
    rewrite length_app, length_drop, Hout.
    replace (T * N + (length (ItemData f) - T * N)) with (length (ItemData f))
      by lia.
    reflexivity. }
  assert (Hrows' : forall item i, item < length (ItemInfos f') ->
            i < NumberOfTimeSteps f' ->
            is_Some (row_of (masked_data dv T N data) item i)).
  { rewrite HT. intros item i Hitem Hi. unfold masked_data.
    rewrite row_of_masked_steps. destruct (Hrows item i Hitem Hi) as [r ->].
    case_decide; by eexists. }
  exists (masked_data dv T N data), w1, (closed_after w1 filename f' (length out)).
  split; [by apply write_ok|].
  rewrite (write_ok to_single w1 filename f' _ Hf1 Hrows'). rewrite HT.
  change (length (ItemInfos f')) with N. change (DeleteValueFloat f') with dv.
  rewrite masked_data_idem.
  replace (stored_row to_single dv (masked_data dv T N data) <$> index_pairs T N)
    with out.
  2:{ unfold out. apply list_fmap_ext. intros _ q _. by rewrite stored_row_masked. }
  assert (Hsame : set_ItemData f' (out ++ drop (length out) (ItemData f')) = f').
  { unfold f' at 2. cbn [ItemData set_ItemData]. rewrite drop_app_length.
    unfold f'. reflexivity. }
  rewrite Hsame. split; [reflexivity|].
  unfold closed_after. cbn. apply insert_insert_eq.
Qed.

End WriteContent.

(** ** The outcome of [create] *)

Section CreateOutcome.
Variable to_single : float -> float.

Lemma create_no_data (w : World) (meshfilename filename : string)
  (start_time : option R) (dt : R) (timeseries_unit : TimeStep)
  (items : option (list ItemInfo)) (title : option string) :
  create to_single meshfilename filename [] start_time dt timeseries_unit
    items title w = (inl IndexError, w).
Proof. reflexivity. Qed.

Lemma create_no_mesh (w : World) (meshfilename filename : string)
  (data : list ndarray) (data0 : ndarray) (start_time : option R) (dt : R)
  (timeseries_unit : TimeStep) (items : option (list ItemInfo))
  (title : option string) :
  data !! 0 = Some data0 ->
  meshfiles w !! meshfilename = None ->
  create to_single meshfilename filename data start_time dt timeseries_unit
    items title w = (inl ProviderError, w).
Proof.
  intros H0 Hm. unfold create, py_index at 1. rewrite H0.
  erewrite (bind_inr (lift (inr data0))) by reflexivity.
  erewrite (bind_inr get_world) by reflexivity.
  erewrite (bind_inl (MeshFile_ReadMesh meshfilename)); [reflexivity|].
  unfold MeshFile_ReadMesh. mred. by rewrite Hm.
Qed.

Lemma create_unwritable_failure (w : World) (meshfilename filename : string)
  (mesh : MeshFile) (data : list ndarray) (data0 : ndarray)
  (start_time : option R) (dt : R) (timeseries_unit : TimeStep)
  (items : option (list ItemInfo)) (title : option string) :
  data !! 0 = Some data0 ->
  meshfiles w !! meshfilename = Some mesh ->
  filename ∈ unwritable w ->
  create to_single meshfilename filename data start_time dt timeseries_unit
    items title w
  = (inl UnboundLocalError,
     with_stdout w (stdout w ++ ["cannot create dfsu file: " +:+ " " +:+ filename])).
Proof.
  intros H0 Hm Hin. unfold create, py_index at 1. rewrite H0.
  erewrite (bind_inr (lift (inr data0))) by reflexivity.
  erewrite (bind_inr get_world) by reflexivity.
  erewrite (bind_inr (MeshFile_ReadMesh meshfilename)).
  2:{ unfold MeshFile_ReadMesh. mred. by rewrite Hm. }
  erewrite (bind_inr (try_except _ _ _) _ _ None).
  2:{ unfold try_except, CreateFile, print2. mred.
      rewrite decide_True by done. rewrite decide_True by done. reflexivity. }
  reflexivity.
Qed.

(** [create] once the mesh is read and the target is created: the
    loops, then [Close]. *)
Lemma create_cases (w : World) (meshfilename filename : string)
  (mesh : MeshFile) (data : list ndarray) (data0 : ndarray)
  (start_time : option R) (dt : R) (timeseries_unit : TimeStep)
  (items : option (list ItemInfo)) (title : option string) :
  meshfiles w !! meshfilename = Some mesh ->
  filename ∉ unwritable w ->
  data !! 0 = Some data0 ->
  let T := fst (shape data0) in
  let N := length data in
  let dv := provider_delete_value w in
  let f0 := created_file mesh (default (clock w) start_time) dt
              (default (default_items N) items) dv in
  let out := stored_row to_single dv data <$> index_pairs T N in
  (exists out',
     create to_single meshfilename filename data start_time dt timeseries_unit
       items title w
     = (inl IndexError, stored_world w filename f0 out' (length out') true))
  \/ ((forall item i, item < N -> i < T -> is_Some (row_of data item i))
      /\ create to_single meshfilename filename data start_time dt
           timeseries_unit items title w
         = (inr (masked_data dv T N data),
            stored_world w filename f0 out (length out) false)).
Proof.
  intros Hm Hw H0 T N dv f0 out.
  destruct (decide (Forall (fun q => is_Some (row_of data q.2 q.1))
                      (index_pairs T N))) as [Hrows|Hno].
  - right. assert (Hr : forall item i, item < N -> i < T -> is_Some (row_of data item i)).
    { intros item i Hitem Hi. rewrite Forall_forall in Hrows.
      apply (Hrows (i, item)). by apply elem_of_index_pairs. }
    split; [done|].
    by rewrite (create_ok to_single w meshfilename filename mesh data data0
                  start_time dt timeseries_unit items title Hm Hw H0 Hr).
  - left. unfold create. unfold py_index at 1. rewrite H0.
    erewrite (bind_inr (lift (inr data0))) by reflexivity.
    erewrite (bind_inr get_world) by reflexivity.
    erewrite (bind_inr (MeshFile_ReadMesh meshfilename)).
    2:{ unfold MeshFile_ReadMesh. mred. by rewrite Hm. }
    rewrite fold_AddDynamicItem. cbn [b_FileType b_X b_Y b_Z b_Code b_ElementTable
      b_Projection b_StartDateTime b_TimeStep b_Items DfsuBuilder_Create SetNodes
      SetElements SetProjection SetTimeInfo app].
    set (b := mk_DfsuBuilder _ _ _ _ _ _ _ _ _ _).
    assert (Hb : built_file b dv = f0).
    { unfold f0, created_file, built_file, b. cbn.
      destruct items, start_time; reflexivity. }
    set (w1 := with_handles (with_files w (<[filename := f0]> (files w)))
                 (handles w ++ [mk_Handle filename 0 true])).
    erewrite (bind_inr (try_except _ _ _) _ _ (Some (length (handles w))) w1).
    2:{ unfold try_except, CreateFile, alloc_handle. mred.
        rewrite decide_False by done. fold dv. rewrite Hb. reflexivity. }
    erewrite (bind_inr (mret (length (handles w)))) by reflexivity.
    assert (Hf1 : files w1 !! filename = Some f0).
    { unfold w1. cbn. apply lookup_insert_eq. }
    assert (Hlt : length (handles w) < length (handles w1)).
    { unfold w1. cbn. rewrite length_app. simpl. lia. }
    assert (Hwr : forall rows,
              writing w1 (length (handles w)) filename f0 rows
              = stored_world w filename f0 rows (length rows) true).
    { intros rows. unfold writing, stored_world, w1, with_handles, with_files. cbn.
      rewrite insert_insert_eq, insert_new_handle.
      unfold f0 at 2, created_file. cbn [ItemData]. by rewrite drop_nil, app_nil_r. }
    replace w1 with (writing w1 (length (handles w)) filename f0 []).
    2:{ rewrite Hwr. unfold stored_world, w1, f0, created_file, set_ItemData.
        reflexivity. }
    erewrite bind_inr by (by eapply handle_file_writing).
    cbn [app drop length]. rewrite set_ItemData_id.
    destruct (write_all_cases to_single w1 (length (handles w)) filename f0 dv T N
                data Hlt) as [[out' Hfail]|[Hr _]].
    + exists out'. erewrite bind_inl by exact Hfail. by rewrite Hwr.
    + exfalso. apply Hno, Forall_forall. intros [i item] Hin.
      apply elem_of_index_pairs in Hin as [Hi Hitem]. by apply Hr.
Qed.


(** X12.  [create] with an empty data list raises [IndexError] at
    [data[0]], before it reads the mesh; with data but without the mesh
    file it raises the provider's error.  Either way nothing has changed:
    no target, no handle, no output. *)
Theorem create_fails_early (w : World) (meshfilename filename : string)
  (data : list ndarray) (start_time : option R) (dt : R)
  (timeseries_unit : TimeStep) (items : option (list ItemInfo))
  (title : option string) :
  (data = [] ->
   create to_single meshfilename filename data start_time dt timeseries_unit
     items title w = (inl IndexError, w))
  /\ (data <> [] -> meshfiles w !! meshfilename = None ->
      create to_single meshfilename filename data start_time dt
        timeseries_unit items title w = (inl ProviderError, w)).
Proof.
  split.
  - intros ->. apply create_no_data.
  - intros Hne Hm. destruct data as [|data0 data']; [done|].
    by apply create_no_mesh with (data0 := data0).
Qed.

(** X13.  Whatever its arguments and however it ends, [create] leaves
    every container other than its target, the mesh files, [self._dfs]
    and the handles that existed before as they were. *)
Theorem create_frame (w : World) (meshfilename filename : string)
  (data : list ndarray) (start_time : option R) (dt : R)
  (timeseries_unit : TimeStep) (items : option (list ItemInfo))
  (title : option string) :
  let w' := (create to_single meshfilename filename data start_time dt
               timeseries_unit items title w).2 in
  (forall other, other <> filename -> files w' !! other = files w !! other)
  /\ meshfiles w' = meshfiles w
  /\ self_dfs w' = self_dfs w
  /\ take (length (handles w)) (handles w') = handles w.
Proof.
  cbv zeta. destruct (data !! 0) as [data0|] eqn:H0.
  2:{ destruct data; [|discriminate H0]. rewrite create_no_data. cbn.
      do 3 (split; [done|]). by rewrite firstn_all. }
  destruct (meshfiles w !! meshfilename) as [mesh|] eqn:Hm.
  2:{ rewrite (create_no_mesh w meshfilename filename data data0 _ _ _ _ _ H0 Hm).
      cbn. do 3 (split; [done|]). by rewrite firstn_all. }
  destruct (decide (filename ∈ unwritable w)) as [Hin|Hw].
  { rewrite (create_unwritable_failure w meshfilename filename mesh data data0
               start_time dt timeseries_unit items title H0 Hm Hin).
    cbn. do 3 (split; [done|]). by rewrite firstn_all. }
  assert (Hcase : exists f0 rows c op,
            (create to_single meshfilename filename data start_time dt
               timeseries_unit items title w).2
            = stored_world w filename f0 rows c op).
  { destruct (create_cases w meshfilename filename mesh data data0 start_time dt
                timeseries_unit items title Hm Hw H0) as [[out' ->]|[_ ->]];
      by do 4 eexists. }
  destruct Hcase as (f0 & rows & c & op & ->). unfold stored_world. cbn.
  split; [intros other Hne; by rewrite lookup_insert_ne|].
  do 2 (split; [done|]). by rewrite take_app_length.
Qed.

End CreateOutcome.

(** ** [create], then [read], [write] and the queries *)

Lemma created_container_facts to_single (mesh : MeshFile) (start dt : R)
  (its : list ItemInfo) (dv : float) (data : list ndarray) (T : nat) :
  length its = length data -> data <> [] ->
  let f' := set_ItemData (created_file mesh start dt its dv)
              (stored_row to_single dv data <$> index_pairs T (length data)) in
  length (ItemInfos f') = length data
  /\ NumberOfTimeSteps f' = T
  /\ file_offset f' = 0
  /\ NumberOfElements f' = length (mesh_ElementTable mesh)
  /\ DeleteValueFloat f' = dv.
Proof.
  intros Hits Hne f'. split; [exact Hits|]. split; [|split; [|by split]].
  - unfold NumberOfTimeSteps, f'. cbn. rewrite Hits.
    rewrite length_fmap, index_pairs_length. apply Nat.div_mul.
    destruct data; [done|cbn; lia].
  - unfold file_offset, f'. cbn. rewrite decide_False; [done|].
    intros [E|E]; discriminate E.
Qed.


Section CreateThen.
Variable to_single : float -> float.
Variable of_single : float -> float.
Variable uninit : float.


(** X15.  [write] after [create] replaces what [create] stored: reading
    the container back gives the arrays of the [write], sample by sample
    through masking, marshalling and unmasking, whatever arrays the
    container was created from. *)
Theorem write_after_create_wins (w : World) (meshfilename filename : string)
  (mesh : MeshFile) (data1 data2 : list ndarray) (data0 : ndarray)
  (start_time : option R) (dt : R) (timeseries_unit : TimeStep)
  (title : option string) :
  meshfiles w !! meshfilename = Some mesh ->
  filename ∉ unwritable w ->
  data1 !! 0 = Some data0 ->
  (forall item i, item < length data1 -> i < fst (shape data0) ->
     is_Some (row_of data1 item i)) ->
  (forall item i, item < length data1 -> i < fst (shape data0) ->
     exists r, row_of data2 item i = Some r
               /\ length r = length (mesh_ElementTable mesh)) ->
  exists d1 w1 d2 w2 ds w3,
    create to_single meshfilename filename data1 start_time dt timeseries_unit
      None title w = (inr d1, w1)
    /\ write to_single filename data2 w1 = (inr d2, w2)
    /\ read of_single uninit filename None None None w2 = (inr ds, w3)
    /\ read_back_of to_single of_single (provider_delete_value w) 0
         (length data1) (fst (shape data0)) data2 ds.
Proof.
  intros Hm Hw H0 Hrows1 Hrows2.
  rewrite (create_ok to_single w meshfilename filename mesh data1 data0 start_time
             dt timeseries_unit None title Hm Hw H0 Hrows1). cbn [default].
  set (dv := provider_delete_value w). set (T := fst (shape data0)).
  set (out := stored_row to_single dv data1 <$> index_pairs T (length data1)).
  set (f' := set_ItemData _ out).
  set (w1 := closed_after w filename f' (length out)).
  assert (Hf1 : files w1 !! filename = Some f').
  { unfold w1, closed_after. cbn. apply lookup_insert_eq. }
  assert (Hne : data1 <> []) by (intros ->; discriminate H0).
  destruct (created_container_facts to_single mesh (default (clock w) start_time)
              dt (default_items (length data1)) dv data1 T)
    as (HN & HT & Hoff & HE & Hdv); [|done|].
  { unfold default_items. by rewrite length_fmap, length_seq. }
  fold out f' in HN, HT, Hoff, HE, Hdv.
  assert (Hpos : 0 < length data1) by (destruct data1; [done|cbn; lia]).
  destruct (write_then_read to_single of_single uninit w1 filename f' data2 Hf1)
    as (d2 & w2 & ds & w3 & Hwrite & Hread & Hback).
  - rewrite Hoff, HN. by right.
  - rewrite HN, HT, HE. intros item i Hitem Hi.
    destruct (Hrows2 item i Hitem Hi) as (r & Hr & Hl). exists r. by split.
  - rewrite Hdv, Hoff, HN, HT in Hback.
    exists (masked_data dv T (length data1) data1), w1, d2, w2, ds, w3.
    split; [reflexivity|]. split; [exact Hwrite|]. split; [exact Hread|].
    exact Hback.
Qed.

End CreateThen.

(** ** Element centres on any mesh *)

Lemma np_index_wrap (l : list R) (n : Z) :
  node_in_range (length l) n ->
  np_index l (n - 1) = inr (nth (Z.to_nat (wrap_node (length l) n - 1)) l 0%R).
Proof.
  unfold node_in_range, wrap_node, np_index, py_index. intros Hn.
  destruct (decide (n <= 0)%Z) as [Hneg|Hpos].
  - rewrite decide_False by lia. rewrite decide_True by lia.
    replace (Z.of_nat (length l) + (n - 1))%Z
      with (n + Z.of_nat (length l) - 1)%Z by lia.
    destruct (lookup_lt_is_Some_2 l (Z.to_nat (n + Z.of_nat (length l) - 1)))
      as [x Hx]; [lia|].
    rewrite Hx. f_equal. symmetry. by apply nth_lookup_Some.
  - rewrite decide_True by lia.
    destruct (lookup_lt_is_Some_2 l (Z.to_nat (n - 1))) as [x Hx]; [lia|].
    rewrite Hx. f_equal. symmetry. by apply nth_lookup_Some.
Qed.

Lemma np_index_cases (l : list R) (n : Z) :
  (exists x, np_index l (n - 1) = inr x /\ node_in_range (length l) n)
  \/ np_index l (n - 1) = inl IndexError.
Proof.
  destruct (decide (node_in_range (length l) n)) as [Hin|Hout].
  - left. eexists. split; [by apply np_index_wrap|done].
  - right. unfold node_in_range in Hout. unfold np_index.
    rewrite decide_False by lia. rewrite decide_False by lia. reflexivity.
Qed.

Lemma node_coords_of_wrap (dfs : DfsuFile) (nodes : list Z) :
  length (NodeX dfs) = length (NodeY dfs) ->
  length (NodeY dfs) = length (NodeZ dfs) ->
  Forall (node_in_range (length (NodeX dfs))) nodes ->
  let wrap := wrap_node (length (NodeX dfs)) in
  node_coords_of (NodeX dfs) (NodeY dfs) (NodeZ dfs) nodes
  = inr (node_x dfs <$> (wrap <$> nodes), node_y dfs <$> (wrap <$> nodes),
         node_z dfs <$> (wrap <$> nodes)).
Proof.
  intros Hxy Hyz Hv wrap. induction Hv as [|n nodes Hn Hv IH]; [done|].
  cbn [node_coords_of].
  rewrite (np_index_wrap (NodeX dfs)) by done.
  rewrite (np_index_wrap (NodeY dfs)) by (by rewrite <- Hxy).
  rewrite (np_index_wrap (NodeZ dfs)) by (by rewrite <- Hyz, <- Hxy).
  cbn. rewrite IH. unfold node_x, node_y, node_z, wrap.
  by rewrite <- Hyz, <- Hxy.
Qed.

Lemma node_coords_of_cases (xn yn zn : list R) (nodes : list Z) :
  (exists r, node_coords_of xn yn zn nodes = inr r
             /\ Forall (node_in_range (length xn)) nodes
             /\ length r.1.1 = length nodes
             /\ length r.1.2 = length nodes
             /\ length r.2 = length nodes)
  \/ node_coords_of xn yn zn nodes = inl IndexError.
Proof.
  induction nodes as [|n nodes IH].
  - left. exists ([], [], []). by repeat split.
  - cbn [node_coords_of].
    destruct (np_index_cases xn n) as [(x & -> & Hx)| ->]; [|by right].
    destruct (np_index_cases yn n) as [(y & -> & _)| ->]; [|by right].
    destruct (np_index_cases zn n) as [(z & -> & _)| ->]; [|by right].
    cbn. destruct IH as [(r & -> & Hv & H1 & H2 & H3)| ->]; [|by right].
    left. eexists. split; [reflexivity|]. cbn.
    split; [by constructor|]. by rewrite H1, H2, H3.
Qed.

Lemma element_centers_cases (xn yn zn : list R) (table : list (list Z)) :
  Forall (fun nodes => nodes <> []) table ->
  (exists cs, element_centers xn yn zn table = inr cs
              /\ Forall (Forall (node_in_range (length xn))) table)
  \/ element_centers xn yn zn table = inl IndexError.
Proof.
  induction 1 as [|nodes table Hne Hrest IH].
  - left. exists []. by split.
  - cbn [element_centers]. unfold element_center.
    destruct (node_coords_of_cases xn yn zn nodes)
      as [([[xs ys] zs] & -> & Hv & H1 & H2 & H3)| ->]; [|by right].
    cbn in H1, H2, H3. cbn.
    assert (Hl : 0 < length nodes) by (destruct nodes; [done|cbn; lia]).
    destruct xs as [|x xs]; [cbn in H1; lia|].
    destruct ys as [|y ys]; [cbn in H2; lia|].
    destruct zs as [|z zs]; [cbn in H3; lia|].
    cbn. destruct IH as [(cs & -> & Hvs)| ->]; [|by right].
    left. eexists. split; [reflexivity|]. by constructor.
Qed.

(** X16.  [get_element_coords] accepts elements of any positive number of
    nodes and node numbers from [1 - n] to [n] for [n] mesh nodes: it
    returns one centre per element, the mean of the coordinates of its
    nodes, where a node number that is zero or negative stands, by
    Python's indexing from the end, for the node [n] places later; the
    call changes nothing. *)
Theorem get_element_coords_centres (w : World) (dfs : DfsuFile) :
  (self_dfs_file w).1 = inr dfs ->
  length (NodeX dfs) = length (NodeY dfs) ->
  length (NodeY dfs) = length (NodeZ dfs) ->
  Forall (fun nodes => nodes <> []
            /\ Forall (node_in_range (length (NodeX dfs))) nodes)
    (ElementTable dfs) ->
  get_element_coords w
  = (inr ((fun nodes =>
             centroid dfs (wrap_node (length (NodeX dfs)) <$> nodes))
          <$> ElementTable dfs), w).
Proof.
  intros Hself Hxy Hyz Hel. pose proof (self_dfs_file_inr _ _ Hself) as Hs.
  unfold get_element_coords. erewrite bind_inr by exact Hs. unfold lift.
  f_equal.
  induction Hel as [|nodes table [Hne Hv] Hel IH]; [done|].
  cbn [element_centers]. unfold element_center.
  rewrite (node_coords_of_wrap dfs nodes Hxy Hyz Hv). cbn.
  rewrite !np_mean_ok by (by destruct nodes). cbn.
  rewrite IH. reflexivity.
Qed.

(** X17.  When every element has at least one node and some node number
    lies outside [1 - n .. n] for [n] mesh nodes, [get_element_coords]
    raises [IndexError], and changes nothing. *)
Theorem get_element_coords_bad_node (w : World) (dfs : DfsuFile) :
  (self_dfs_file w).1 = inr dfs ->
  Forall (fun nodes => nodes <> []) (ElementTable dfs) ->
  Exists (Exists (fun n => ~ node_in_range (length (NodeX dfs)) n))
    (ElementTable dfs) ->
  get_element_coords w = (inl IndexError, w).
Proof.
  intros Hself Hne Hbad. pose proof (self_dfs_file_inr _ _ Hself) as Hs.
  unfold get_element_coords. erewrite bind_inr by exact Hs. unfold lift.
  f_equal.
  destruct (element_centers_cases (NodeX dfs) (NodeY dfs) (NodeZ dfs)
              (ElementTable dfs) Hne) as [(cs & _ & Hv)|Herr]; [|exact Herr].
  exfalso. apply Exists_exists in Hbad as (nodes & Hin & Hex).
  apply Exists_exists in Hex as (n & Hn & Hout).
  rewrite Forall_forall in Hv. specialize (Hv nodes Hin).
  rewrite Forall_forall in Hv. by apply Hout, Hv.
Qed.

(** ** Element areas: buffers, node order and rectangles *)

Section AreaExtras.
Variable garbage : nat -> R.

Lemma py_index_error {A} (l : list A) (i : nat) (e : exn) :
  py_index l i = inl e -> e = IndexError.
Proof. unfold py_index. destruct (l !! i); congruence. Qed.

Lemma np_index_error {A} (l : list A) (i : Z) (e : exn) :
  np_index l i = inl e -> e = IndexError.
Proof.
  unfold np_index. repeat case_decide; [apply py_index_error..|congruence].
Qed.

Lemma set_index_error {A} (l : list A) (i : nat) (v : A) (e : exn) :
  set_index l i v = inl e -> e = IndexError.
Proof. unfold set_index. case_decide; congruence. Qed.

Lemma set_index_inr {A} (l l' : list A) (i : nat) (v : A) :
  set_index l i v = inr l' -> length l' = length l /\ i < length l.
Proof.
  unfold set_index. case_decide; [|congruence].
  intros [= <-]. by rewrite length_insert.
Qed.

Lemma for_pure_cases {A St} (I : nat -> St -> Prop) (l : list A)
  (body : A -> St -> exn + St) :
  (forall k a s, l !! k = Some a -> I k s ->
     match body a s with
     | inr s' => I (S k) s'
     | inl e => e = IndexError
     end) ->
  forall s, I 0 s ->
    match for_pure l body s with
    | inr s' => I (length l) s'
    | inl e => e = IndexError
    end.
Proof.
  revert I. induction l as [|a l IH]; intros I Hstep s H0; [exact H0|].
  cbn [for_pure length]. pose proof (Hstep 0 a s eq_refl H0) as Ha.
  destruct (body a s) as [e|s']; [exact Ha|]. cbn.
  apply (IH (fun k => I (S k))); [|exact Ha].
  intros k b t Hk. apply (Hstep (S k)). exact Hk.
Qed.

Lemma load_nodes_cases (xn yn : list R) (nodes : list Z) (xs ys : list R) :
  length xs = 4 -> length ys = 4 ->
  match load_nodes xn yn nodes (xs, ys) with
  | inr bufs => length bufs.1 = 4 /\ length bufs.2 = 4 /\ length nodes <= 4
  | inl e => e = IndexError
  end.
Proof.
  intros Hx Hy. unfold load_nodes.
  pose proof (for_pure_cases
                (fun k (bufs : list R * list R) =>
                   length bufs.1 = 4 /\ length bufs.2 = 4 /\ k <= 4)
                (seq 0 (length nodes))) as Hloop.
  rewrite length_seq in Hloop. apply Hloop; [|cbn; lia].
  intros k i [xs' ys'] Hk (Hx' & Hy' & _). cbn in Hx', Hy'.
  apply lookup_seq in Hk as [-> _]. change (0 + k) with k.
  destruct (py_index nodes k) as [e|n] eqn:E1; cbn;
    [by apply py_index_error in E1|].
  destruct (np_index xn (n - 1)) as [e|x] eqn:E2; cbn;
    [by apply np_index_error in E2|].
  destruct (set_index xs' k x) as [e|xs''] eqn:E3; cbn;
    [by apply set_index_error in E3|].
  destruct (np_index yn (n - 1)) as [e|y] eqn:E4; cbn;
    [by apply np_index_error in E4|].
  destruct (set_index ys' k y) as [e|ys''] eqn:E5; cbn;
    [by apply set_index_error in E5|].
  apply set_index_inr in E3 as [E3 E3']. apply set_index_inr in E5 as [E5 _].
  lia.
Qed.

Lemma element_area_total (geo : bool) (len : nat) (xs ys : list R) :
  length xs = 4 -> length ys = 4 -> len <> 0 ->
  exists a, element_area geo len xs ys = inr a.
Proof.
  intros Hx Hy Hlen.
  destruct xs as [|x0 [|x1 [|x2 [|x3 [|]]]]]; try discriminate Hx.
  destruct ys as [|y0 [|y1 [|y2 [|y3 [|]]]]]; try discriminate Hy.
  unfold element_area. cbn.
  destruct (bool_decide (3 < len)); cbn;
    (destruct geo; [rewrite decide_False by done|]; cbn; by eexists).
Qed.

Lemma area_loop_cases (dfs : DfsuFile) (geo : bool) (n : nat)
  (area xs ys : list R) :
  Forall (fun nodes => nodes <> []) (ElementTable dfs) ->
  length xs = 4 -> length ys = 4 ->
  match for_pure (seq 0 n) (area_step dfs geo) (area, (xs, ys)) with
  | inr _ => forall j nodes, j < n -> ElementTable dfs !! j = Some nodes ->
               length nodes <= 4
  | inl e => e = IndexError
  end.
Proof.
  intros Hne Hx Hy.
  pose proof (for_pure_cases
                (fun k (st : list R * (list R * list R)) =>
                   length st.2.1 = 4 /\ length st.2.2 = 4
                   /\ forall j nodes, j < k ->
                        ElementTable dfs !! j = Some nodes -> length nodes <= 4)
                (seq 0 n) (area_step dfs geo)) as Hloop.
  rewrite length_seq in Hloop.
  assert (Hinit : forall j (nodes : list Z), j < 0 ->
            ElementTable dfs !! j = Some nodes -> length nodes <= 4)
    by (intros j nodes Hj; lia).
  cut (forall k a s, seq 0 n !! k = Some a ->
         length s.2.1 = 4 /\ length s.2.2 = 4
         /\ (forall j nodes, j < k -> ElementTable dfs !! j = Some nodes ->
               length nodes <= 4) ->
         match area_step dfs geo a s with
         | inr s' => length s'.2.1 = 4 /\ length s'.2.2 = 4
                     /\ forall j nodes, j < S k ->
                          ElementTable dfs !! j = Some nodes -> length nodes <= 4
         | inl e => e = IndexError
         end).
  - intros Hstep.
    specialize (Hloop Hstep (area, (xs, ys)) (conj Hx (conj Hy Hinit))).
    destruct (for_pure (seq 0 n) (area_step dfs geo) (area, (xs, ys)));
      [exact Hloop|apply Hloop].
  - intros k i [ar [xs' ys']] Hk (Hx' & Hy' & Hprev). cbn in Hx', Hy', Hprev.
    apply lookup_seq in Hk as [-> _]. change (0 + k) with k.
    unfold area_step.
    destruct (py_index (ElementTable dfs) k) as [e|nodes] eqn:E1; cbn;
      [by apply py_index_error in E1|].
    assert (Hnodes : ElementTable dfs !! k = Some nodes).
    { unfold py_index in E1. destruct (ElementTable dfs !! k); congruence. }
    pose proof (load_nodes_cases (NodeX dfs) (NodeY dfs) nodes xs' ys' Hx' Hy')
      as Hload.
    destruct (load_nodes (NodeX dfs) (NodeY dfs) nodes (xs', ys'))
      as [e|[xs'' ys'']]; cbn; [exact Hload|].
    destruct Hload as (Hx'' & Hy'' & Hlen). cbn in Hx'', Hy''.
    assert (Hpos : length nodes <> 0).
    { rewrite Forall_forall in Hne.
      specialize (Hne nodes (list_elem_of_lookup_2 _ _ _ Hnodes)).
      destruct nodes; [done|cbn; lia]. }
    destruct (element_area_total geo (length nodes) xs'' ys'' Hx'' Hy'' Hpos)
      as [a ->]. cbn.
    destruct (set_index ar k a) as [e|ar'] eqn:E2; cbn;
      [by apply set_index_error in E2|].
    split; [done|]. split; [done|].
    intros j nodes' Hj Hn'. destruct (decide (j = k)) as [->|Hjk].
    + congruence.
    + apply (Hprev j); [lia|done].
Qed.

(** X18.  The corner buffers of [get_element_area] hold four values: on a
    mesh with an element of more than four nodes, such as the prisms of a
    3D file, it raises [IndexError] (every element having at least one
    node), and changes nothing. *)
Theorem get_element_area_too_many_nodes (w : World) (dfs : DfsuFile) (j : nat)
  (nodes : list Z) :
  (self_dfs_file w).1 = inr dfs ->
  Forall (fun nodes => nodes <> []) (ElementTable dfs) ->
  ElementTable dfs !! j = Some nodes ->
  4 < length nodes ->
  get_element_area garbage w = (inl IndexError, w).
Proof.
  intros Hself Hne Hj Hlen. pose proof (self_dfs_file_inr _ _ Hself) as Hs.
  unfold get_element_area. erewrite bind_inr by exact Hs. unfold lift.
  f_equal. unfold element_areas.
  pose proof (area_loop_cases dfs (bool_decide (WKTString dfs = "LONG/LAT"))
                (NumberOfElements dfs) (np_empty garbage (NumberOfElements dfs))
                (np_empty garbage 4) (np_empty garbage 4) Hne
                (length_np_empty garbage 4) (length_np_empty garbage 4)) as Hloop.
  destruct (for_pure _ _ _) as [e|st]; cbn; [by rewrite Hloop|].
  exfalso. apply lookup_lt_Some in Hj as Hjn.
  specialize (Hloop j nodes Hjn Hj). lia.
Qed.







End AreaExtras.



Lemma sq_le_0 (a : R) : (a ^ 2 <= 0)%R -> a = 0%R.
Proof.
  intros Ha. pose proof (pow2_ge_0 a) as Hge.
  assert (H0 : (a * a = 0)%R) by lra.
  by destruct (Rmult_integral _ _ H0).
Qed.

(** X21.  Asked for the element nearest to the centre of an element, on a
    valid mesh and with an [argsort] that keeps numpy's contract,
    [find_closest_element_index] returns an element with that very
    centre: the same x and y when [z] is omitted, the same x, y and z
    when it is given. *)
Theorem find_closest_element_index_at_centre (argsort : list R -> list nat)
  (w : World) (dfs : DfsuFile) (j : nat) (nodes : list Z) (z : option R) :
  argsort_contract argsort ->
  (self_dfs_file w).1 = inr dfs ->
  valid_mesh dfs ->
  ElementTable dfs !! j = Some nodes ->
  (forall z', z = Some z' -> z' = (centroid dfs nodes).2) ->
  exists idx nodes',
    find_closest_element_index argsort (centroid dfs nodes).1.1
      (centroid dfs nodes).1.2 z w = (inr idx, w)
    /\ ElementTable dfs !! idx = Some nodes'
    /\ (centroid dfs nodes').1 = (centroid dfs nodes).1
    /\ (is_Some z -> centroid dfs nodes' = centroid dfs nodes).
Proof.
  intros Hc Hs Hv Hj Hz.
  rewrite (find_closest_element_index_run argsort w dfs _ _ z Hs Hv).
  set (c := centroid dfs nodes).
  set (d := sq_dist c.1.1 c.1.2 z <$> (centroid dfs <$> ElementTable dfs)).
  assert (Hld : length d = length (ElementTable dfs)).
  { unfold d. by rewrite !length_fmap. }
  assert (Hd : d <> []).
  { apply lookup_lt_Some in Hj. destruct d; [cbn in Hld; lia|done]. }
  assert (Hnth : forall k nodes', ElementTable dfs !! k = Some nodes' ->
            nth k d 0%R = sq_dist c.1.1 c.1.2 z (centroid dfs nodes')).
  { intros k nodes' Hk. apply nth_lookup_Some with (d := 0%R).
    unfold d. by rewrite !list_lookup_fmap, Hk. }
  destruct (argsort_head_minimal argsort d Hc Hd) as (idx & Hidx & Hlt & Hmin).
  destruct (lookup_lt_is_Some_2 (ElementTable dfs) idx) as [nodes' Hn'];
    [lia|].
  exists idx, nodes'. unfold py_index. rewrite Hidx.
  split; [done|]. split; [done|].
  specialize (Hmin j ltac:(apply lookup_lt_Some in Hj; lia)).
  rewrite (Hnth idx nodes' Hn'), (Hnth j nodes Hj) in Hmin.
  fold c in Hz, Hmin. clearbody c. clear Hnth d Hld Hd Hidx Hlt.
  destruct (centroid dfs nodes') as [[x' y'] z'].
  destruct c as [[cx cy] cz]. unfold sq_dist in Hmin.
  cbn [fst snd] in Hmin, Hz |- *.
  pose proof (pow2_ge_0 (x' - cx)) as Hx2.
  pose proof (pow2_ge_0 (y' - cy)) as Hy2.
  pose proof (pow2_ge_0 (z' - cz)) as Hz2.
  destruct z as [z0|].
  - rewrite (Hz z0 eq_refl) in Hmin.
    replace ((cx - cx) ^ 2 + (cy - cy) ^ 2 + (cz - cz) ^ 2)%R with 0%R
      in Hmin by ring.
    assert (x' = cx /\ y' = cy /\ z' = cz) as (-> & -> & ->).
    { repeat split; apply Rminus_diag_uniq, sq_le_0; lra. }
    by split.
  - replace ((cx - cx) ^ 2 + (cy - cy) ^ 2)%R with 0%R in Hmin by ring.
    assert (x' = cx /\ y' = cy) as (-> & ->).
    { split; apply Rminus_diag_uniq, sq_le_0; lra. }
    split; [done|]. intros [? [=]].
Qed.

(** * Further concrete runs *)

Lemma queries_after_read_witness :
  get_number_of_time_steps world2 = (inr 2, world2)
  /\ is_geo world2 = (inr false, world2)
  /\ get_node_coords None world2
     = (inr [(0, 0, 0); (1, 0, 0); (1, 1, 0); (0, 1, 0)]%R, world2).
Proof.
  exact (queries_after_read marshal_id f_one world1 "out.dfsu" square_dfs None
           None None files_world1 eq_refl eq_refl).
Defined.

Lemma queries_before_read_witness :
  get_node_coords (Some 1%Z) world1 = (inl AttributeError, world1)
  /\ get_element_coords world1 = (inl AttributeError, world1)
  /\ find_closest_element_index argsort_unstable 0 0 None world1
     = (inl AttributeError, world1)
  /\ get_element_area no_garbage world1 = (inl AttributeError, world1)
  /\ is_geo world1 = (inl AttributeError, world1)
  /\ get_number_of_time_steps world1 = (inl AttributeError, world1).
Proof.
  apply (queries_before_read argsort_unstable no_garbage world1 (Some 1%Z) 0 0 None).
  vm_compute. reflexivity.
Defined.

Lemma read_names_take_precedence_witness :
  read marshal_id f_one "out.dfsu" (Some [5%Z]) (Some ["temItem 1"]) None world1
  = read marshal_id f_one "out.dfsu" (Some [0%Z]) None None world1
  /\ read marshal_id f_one "out.dfsu" None (Some ["Item 1"]) None world1
     = (inl ItemNotFound, reading world1 "out.dfsu").
Proof.
  destruct (read_names_take_precedence marshal_id f_one world1 "out.dfsu"
              square_dfs (Some [5%Z]) None ["temItem 1"] None files_world1)
    as (_ & Hres & _).
  destruct (read_names_take_precedence marshal_id f_one world1 "out.dfsu"
              square_dfs None None ["Item 1"] None files_world1)
    as (_ & _ & Hfail).
  split; [by apply Hres|by apply Hfail].
Defined.

Lemma read_frame_witness :
  files (read marshal_id f_one "nowhere.dfsu" None None None world1).2
  = files world1
  /\ read marshal_id f_one "nowhere.dfsu" None None None world1
     = (inl ProviderError, world1).
Proof.
  destruct (read_frame marshal_id f_one world1 "nowhere.dfsu" None None None)
    as (Hfiles & _ & _ & _ & Hmiss).
  split; [exact Hfiles|]. apply Hmiss. vm_compute. reflexivity.
Defined.


Lemma square_dfs_rows :
  Forall (fun r => length r = NumberOfElements square_dfs) (ItemData square_dfs).
Proof. repeat constructor. Qed.

Lemma read_selection_agrees_with_full_read_witness :
  exists ds_sel ds_all w1 w2,
    read marshal_id f_one "out.dfsu" (Some [0%Z]) None (Some [1%Z]) world1
    = (inr ds_sel, w1)
    /\ read marshal_id f_one "out.dfsu" None None None world1 = (inr ds_all, w2)
    /\ row_of (data ds_sel) 0 0 = row_of (data ds_all) 0 1.
Proof.
  destruct (read_selection_agrees_with_full_read marshal_id f_one world1
              "out.dfsu" square_dfs [0%Z] [1%Z] files_world1 square_dfs_rows)
    as (ds_sel & ds_all & w1 & w2 & Hsel & Hall & _ & Hrows).
  - discriminate.
  - repeat constructor; vm_compute; congruence.
  - repeat constructor; vm_compute; congruence.
  - exists ds_sel, ds_all, w1, w2. split; [exact Hsel|]. split; [exact Hall|].
    destruct (Hrows 0 0 0%Z 1%Z eq_refl eq_refl) as [_ Heq]. exact Heq.
Defined.

Lemma square_dfs_has_rows :
  forall item i, item < length (ItemInfos square_dfs) ->
    i < NumberOfTimeSteps square_dfs -> is_Some (row_of data_ex item i).
Proof.
  intros item i Hitem Hi.
  destruct (data_ex_rows 1 eq_refl item i Hitem Hi) as (r & Hr & _).
  by eexists.
Qed.

Lemma write_outcome_witness :
  raised (write marshal_id "out.dfsu" data_ex world1).1 = false
  /\ (write marshal_id "out.dfsu" [] world1).1 = inl IndexError.
Proof.
  destruct (write_outcome marshal_id world1 "out.dfsu" square_dfs data_ex
              files_world1) as [Hiff _].
  destruct (write_outcome marshal_id world1 "out.dfsu" square_dfs []
              files_world1) as [_ Hraise].
  split; [apply Hiff, square_dfs_has_rows|apply Hraise; vm_compute; reflexivity].
Defined.

Lemma write_frame_witness :
  meshfiles (write marshal_id "out.dfsu" data_ex world1).2 = meshfiles world1
  /\ files (write marshal_id "out.dfsu" data_ex world1).2 !! "other.dfsu"
     = files world1 !! "other.dfsu".
Proof.
  destruct (write_frame marshal_id world1 "out.dfsu" data_ex)
    as (Hother & Hmesh & _).
  split; [exact Hmesh|]. apply Hother. discriminate.
Defined.


Lemma write_twice_witness :
  exists data' w1 w2,
    write marshal_id "out.dfsu" data_ex world1 = (inr data', w1)
    /\ write marshal_id "out.dfsu" data' w1 = (inr data', w2)
    /\ files w2 = files w1.
Proof.
  exact (write_twice marshal_id world1 "out.dfsu" square_dfs data_ex
           files_world1 square_dfs_has_rows).
Defined.

Lemma meshfiles_world0 : meshfiles world0 !! "square.mesh" = Some square_mesh.
Proof. vm_compute. reflexivity. Qed.

Lemma unwritable_world0 : "out.dfsu" ∉ unwritable world0.
Proof.
  vm_compute. intros H. apply elem_of_cons in H as [H|H]; [discriminate H|].
  by apply not_elem_of_nil in H.
Qed.

Lemma data_ex_has_rows (data0 : ndarray) :
  data_ex !! 0 = Some data0 ->
  forall item i, item < length data_ex -> i < fst (shape data0) ->
    is_Some (row_of data_ex item i).
Proof.
  intros [= <-] item i Hitem Hi.
  destruct (data_ex_rows 1 eq_refl item i Hitem Hi) as (r & Hr & _).
  by eexists.
Qed.


Lemma create_fails_early_witness :
  create marshal_id "square.mesh" "out.dfsu" [] None 1%R SECOND None None world0
  = (inl IndexError, world0)
  /\ create marshal_id "none.mesh" "out.dfsu" data_ex None 1%R SECOND None None
       world0 = (inl ProviderError, world0).
Proof.
  destruct (create_fails_early marshal_id world0 "square.mesh" "out.dfsu" []
              None 1%R SECOND None None) as [Hempty _].
  destruct (create_fails_early marshal_id world0 "none.mesh" "out.dfsu" data_ex
              None 1%R SECOND None None) as [_ Hmesh].
  split; [by apply Hempty|]. apply Hmesh; [discriminate|vm_compute; reflexivity].
Defined.

Lemma create_frame_witness :
  meshfiles world1 = meshfiles world0
  /\ files world1 !! "other.dfsu" = files world0 !! "other.dfsu".
Proof.
  destruct (create_frame marshal_id world0 "square.mesh" "out.dfsu" data_ex None
              1%R SECOND None None) as (Hother & Hmesh & _).
  split; [exact Hmesh|]. apply Hother. discriminate.
Defined.


Lemma write_after_create_wins_witness :
  exists d1 w1 d2 w2 ds w3,
    create marshal_id "square.mesh" "out.dfsu" data_ex None 1%R SECOND None None
      world0 = (inr d1, w1)
    /\ write marshal_id "out.dfsu" data_ex w1 = (inr d2, w2)
    /\ read marshal_id f_one "out.dfsu" None None None w2 = (inr ds, w3)
    /\ read_back_of marshal_id marshal_id f_delete 0 1 2 data_ex ds.
Proof.
  exact (write_after_create_wins marshal_id marshal_id f_one world0
           "square.mesh" "out.dfsu" square_mesh data_ex data_ex _ None 1%R
           SECOND None meshfiles_world0 unwritable_world0 eq_refl
           (data_ex_has_rows _ eq_refl) (data_ex_rows 1 eq_refl)).
Defined.

Lemma self_dfs_world_after_read (f : DfsuFile) :
  (self_dfs_file (world_after_read f)).1 = inr f.
Proof. reflexivity. Qed.

Lemma get_element_coords_centres_witness :
  get_element_coords (world_after_read wrapped_dfs)
  = (inr [centroid wrapped_dfs [4; 1; 2]%Z], world_after_read wrapped_dfs).
Proof.
  apply (get_element_coords_centres (world_after_read wrapped_dfs) wrapped_dfs
           (self_dfs_world_after_read _) eq_refl eq_refl).
  repeat constructor; try discriminate; unfold node_in_range; cbn; lia.
Defined.

Lemma get_element_coords_bad_node_witness :
  get_element_coords (world_after_read bad_node_dfs)
  = (inl IndexError, world_after_read bad_node_dfs).
Proof.
  apply (get_element_coords_bad_node (world_after_read bad_node_dfs)
           bad_node_dfs (self_dfs_world_after_read _)).
  - repeat constructor; discriminate.
  - apply Exists_cons_hd. do 2 apply Exists_cons_tl. apply Exists_cons_hd.
    unfold node_in_range. cbn. lia.
Defined.

Lemma get_element_area_too_many_nodes_witness :
  get_element_area no_garbage (world_after_read prism_dfs)
  = (inl IndexError, world_after_read prism_dfs).
Proof.
  apply (get_element_area_too_many_nodes no_garbage
           (world_after_read prism_dfs) prism_dfs 0 [1; 2; 3; 4; 5; 6]%Z
           (self_dfs_world_after_read _)).
  - repeat constructor; discriminate.
  - reflexivity.
  - cbn. lia.
Defined.



Lemma find_closest_element_index_at_centre_witness :
  exists idx nodes',
    find_closest_element_index argsort_unstable
      (centroid square_dfs [1; 2; 3; 4]%Z).1.1
      (centroid square_dfs [1; 2; 3; 4]%Z).1.2 None world2 = (inr idx, world2)
    /\ ElementTable square_dfs !! idx = Some nodes'
    /\ (centroid square_dfs nodes').1 = (centroid square_dfs [1; 2; 3; 4]%Z).1.
Proof.
  destruct (find_closest_element_index_at_centre argsort_unstable world2
              square_dfs 0 [1; 2; 3; 4]%Z None argsort_unstable_contract
              self_dfs_world2 valid_square_dfs eq_refl)
    as (idx & nodes' & Hrun & Hn & Hc & _).
  - intros z' [=].
  - exists idx, nodes'. split; [exact Hrun|]. split; [exact Hn|exact Hc].
Defined.
